(** * ResearchFlow backend: the contract parser, the document merge engine
      and the research orchestration flags

    A shallow embedding of [backend/nodes.py] ([parse_json_output],
    [apply_plan_update], [conversation_agent]) and of the pieces of
    [backend/main.py] that touch the same data ([get_clean_content],
    [update_plan], the reply and the message list of [chat]) and of the
    chunking of [backend/rag.py], followed by the properties of the
    specification that were checked against them and by further
    properties that the code shows.

    Conventions.
    - A Python [str] is a Rocq [string].  The text functions below are exact
      on ASCII text; a byte above 127 is carried along unchanged and is
      neither a letter, a digit nor white space (so a string holding UTF-8
      is moved around faithfully, but [lower], [title], [strip] and [int]
      do not know the non-ASCII case tables, spaces and digits).
    - A Python [int] is a [Z]; a Python [float] is a binary64 number, a
      [spec_float] of the Standard Library with 53 bits of precision.
    - A decoded JSON document is a [value].  A [dict] is an association list
      in insertion order, as Python's [dict] is.
    - A Python exception that leaves a function is a constructor of the
      function's result type; a [try]/[except] is a [match] on it.  The
      decoder raises what Python's raises; how deep it may nest before the
      interpreter stops it depends on the caller's stack and is the
      parameter [room] of everything that decodes.
    - Objects are updated in place in Python.  Update commands come out of
      the JSON decoder as trees without sharing, and [model_dump] copies, so
      a plan is modelled as a value and every update returns the new plan. *)

From Stdlib Require Import ZArith List String Ascii Bool Lia.
From Stdlib Require Import Floats.SpecFloat.
Import ListNotations.

Local Open Scope string_scope.
Local Open Scope Z_scope.

Set Warnings "-register-all".

(* ================================================================== *)
(** * Python text operations *)

Module PyStr.

Definition code (c : ascii) : nat := nat_of_ascii c.

(** [str.isspace] on one character, as used by [str.strip()]. *)
Definition is_space (c : ascii) : bool :=
  let n := code c in
  ((9 <=? n) && (n <=? 13) || (28 <=? n) && (n <=? 32))%nat.

Definition is_upper (c : ascii) : bool :=
  let n := code c in ((65 <=? n) && (n <=? 90))%nat.

Definition is_lower (c : ascii) : bool :=
  let n := code c in ((97 <=? n) && (n <=? 122))%nat.

Definition is_cased (c : ascii) : bool := is_upper c || is_lower c.

Definition lower_char (c : ascii) : ascii :=
  if is_upper c then ascii_of_nat (code c + 32) else c.

Definition upper_char (c : ascii) : ascii :=
  if is_lower c then ascii_of_nat (code c - 32) else c.

(** [s.isascii()] *)
Fixpoint is_ascii (s : string) : bool :=
  match s with
  | EmptyString => true
  | String c r => (code c <? 128)%nat && is_ascii r
  end.

(** [s.lower()] *)
Fixpoint lower (s : string) : string :=
  match s with
  | EmptyString => EmptyString
  | String c r => String (lower_char c) (lower r)
  end.

Fixpoint lstrip (s : string) : string :=
  match s with
  | EmptyString => EmptyString
  | String c r => if is_space c then lstrip r else s
  end.

Fixpoint rstrip (s : string) : string :=
  match s with
  | EmptyString => EmptyString
  | String c r =>
      match rstrip r with
      | EmptyString => if is_space c then EmptyString else String c EmptyString
      | r' => String c r'
      end
  end.

(** [s.strip()] *)
Definition strip (s : string) : string := rstrip (lstrip s).

(** [s.replace('_', ' ')] *)
Fixpoint replace_underscore (s : string) : string :=
  match s with
  | EmptyString => EmptyString
  | String c r =>
      String (if Ascii.eqb c "_" then " "%char else c) (replace_underscore r)
  end.

(** [s.title()]: a cased character is upper-cased when the character
    before it is not cased, and lower-cased otherwise. *)
Fixpoint title_from (prev_cased : bool) (s : string) : string :=
  match s with
  | EmptyString => EmptyString
  | String c r =>
      String (if prev_cased then lower_char c else upper_char c)
             (title_from (is_cased c) r)
  end.

Definition title (s : string) : string := title_from false s.

(** [s.split(sep)] for a one-character separator: never empty. *)
Fixpoint split (sep : ascii) (s : string) : list string :=
  match s with
  | EmptyString => [EmptyString]
  | String c r =>
      if Ascii.eqb c sep then EmptyString :: split sep r
      else match split sep r with
           | p :: ps => String c p :: ps
           | [] => [String c EmptyString]
           end
  end.

(** [s.find(c)]: [None] stands for [-1]. *)
Fixpoint find (c : ascii) (s : string) : option nat :=
  match s with
  | EmptyString => None
  | String d r =>
      if Ascii.eqb d c then Some O
      else match find c r with
           | Some i => Some (S i)
           | None => None
           end
  end.

(** [s.rfind(c)]: [None] stands for [-1]. *)
Fixpoint rfind (c : ascii) (s : string) : option nat :=
  match s with
  | EmptyString => None
  | String d r =>
      match rfind c r with
      | Some i => Some (S i)
      | None => if Ascii.eqb d c then Some O else None
      end
  end.

(** [s[start:stop]] for indices that are not negative. *)
Definition slice (start stop : nat) (s : string) : string :=
  substring start (stop - start) s.

(** [len(s)] counted in code points when [s] holds UTF-8: continuation
    bytes (10xxxxxx) are not counted. *)
Fixpoint len (s : string) : nat :=
  match s with
  | EmptyString => O
  | String c r =>
      let n := code c in
      if ((128 <=? n) && (n <=? 191))%nat then len r else S (len r)
  end.

Fixpoint contains (c : ascii) (s : string) : bool :=
  match s with
  | EmptyString => false
  | String d r => Ascii.eqb d c || contains c r
  end.

End PyStr.

(* ================================================================== *)
(** * Decoded JSON documents *)

(** A Python [float] is an IEEE 754 binary64 number: a [spec_float] of the
    Standard Library, read with 53 bits of precision and the infinities at
    exponent 1024. *)
Definition pyfloat : Type := spec_float.

Module PyFloat.

Definition prec : Z := 53.
Definition emax : Z := 1024.

(** [float(s)] for a decimal literal: the binary64 number nearest to
    [mant * 10^e10] (ties to even) with the sign [neg]; what is too large
    becomes an infinity and what is too small a zero. *)
Definition of_decimal (neg : bool) (mant e10 : Z) : pyfloat :=
  match mant with
  | Zpos m =>
      let num := if 0 <=? e10 then Z.pos m * 10 ^ e10 else Z.pos m in
      let den := if 0 <=? e10 then 1 else 10 ^ (- e10) in
      SFdiv prec emax (S754_finite neg (Z.to_pos num) 0)
                      (S754_finite false (Z.to_pos den) 0)
  | _ => S754_zero neg
  end.

Definition is_zero (f : pyfloat) : bool :=
  match f with
  | S754_zero _ => true
  | _ => false
  end.

End PyFloat.

Inductive value : Type :=
| VNone
| VBool (b : bool)
| VInt (n : Z)
| VFloat (f : pyfloat)
| VStr (s : string)
| VList (items : list value)
| VDict (entries : list (string * value)).

Definition dict : Type := list (string * value).

Module Dict.

(** [d.get(k)] / [k in d] *)
Fixpoint get (k : string) (d : dict) : option value :=
  match d with
  | [] => None
  | (k', v) :: r => if String.eqb k' k then Some v else get k r
  end.

Definition mem (k : string) (d : dict) : bool :=
  match get k d with Some _ => true | None => false end.

(** [d[k] = v]: an existing key keeps its place, a new key goes last. *)
Fixpoint set (k : string) (v : value) (d : dict) : dict :=
  match d with
  | [] => [(k, v)]
  | (k', v') :: r =>
      if String.eqb k' k then (k', v) :: r else (k', v') :: set k v r
  end.

(** [del d[k]] for a key that is present. *)
Fixpoint del (k : string) (d : dict) : dict :=
  match d with
  | [] => []
  | (k', v') :: r => if String.eqb k' k then r else (k', v') :: del k r
  end.

(** [d.update(other)] *)
Definition update (d other : dict) : dict :=
  fold_left (fun acc kv => set (fst kv) (snd kv) acc) other d.

Definition keys (d : dict) : list string := map fst d.

End Dict.

(** [bool(v)] *)
Definition truthy (v : value) : bool :=
  match v with
  | VNone => false
  | VBool b => b
  | VInt n => negb (n =? 0)
  | VFloat f => negb (PyFloat.is_zero f)
  | VStr s => negb (String.eqb s "")
  | VList l => match l with [] => false | _ => true end
  | VDict d => match d with [] => false | _ => true end
  end.

Definition str_truthy (s : string) : bool := negb (String.eqb s "").

(** [a == b] where [b] is a string literal. *)
Definition eq_str (v : value) (s : string) : bool :=
  match v with
  | VStr t => String.eqb t s
  | _ => false
  end.

(** The exceptions that this code can meet.  [JSONDecodeError] is the
    decoder's own error; [ValueError] here is a [ValueError] that is not
    a [JSONDecodeError]. *)
Inductive exn : Type :=
| AttributeError
| KeyError
| TypeError
| ValueError
| OverflowError
| JSONDecodeError
| RecursionError.

(** A call that returns [a] or raises [e]. *)
Inductive result (A : Type) : Type :=
| Ok (a : A)
| Err (e : exn).

Arguments Ok {A} a.
Arguments Err {A} e.

(* ================================================================== *)
(** * [int(x)] *)

Inductive int_result : Type :=
| IntOk (n : Z)
| IntRaise (e : exn).

Module PyInt.

Definition is_digit (c : ascii) : bool :=
  let n := PyStr.code c in ((48 <=? n) && (n <=? 57))%nat.

Definition digit_val (c : ascii) : Z := Z.of_nat (PyStr.code c - 48).

(** [sys.int_info.default_max_str_digits]: a decimal literal of more
    digits is refused with [ValueError]. *)
Definition max_str_digits : Z := 4300.

(** White space that [int()] skips around an ASCII literal. *)
Definition is_c_space (c : ascii) : bool :=
  let n := PyStr.code c in ((9 <=? n) && (n <=? 13) || (n =? 32))%nat.

Fixpoint lskip (s : string) : string :=
  match s with
  | EmptyString => EmptyString
  | String c r => if is_c_space c then lskip r else s
  end.

Fixpoint rskip (s : string) : string :=
  match s with
  | EmptyString => EmptyString
  | String c r =>
      match rskip r with
      | EmptyString => if is_c_space c then EmptyString else String c EmptyString
      | r' => String c r'
      end
  end.

(** Decimal digits, where single underscores may separate digits.
    [after_digit] tells whether the previous character was a digit,
    [count] how many digits were read. *)
Fixpoint digits (after_digit : bool) (acc count : Z) (s : string)
  : option (Z * Z) :=
  match s with
  | EmptyString => if after_digit then Some (acc, count) else None
  | String c r =>
      if is_digit c then digits true (acc * 10 + digit_val c) (count + 1) r
      else if Ascii.eqb c "_" && after_digit then digits false acc count r
      else None
  end.

(** [int(s)] for a string, base 10. *)
Definition of_string (s : string) : int_result :=
  let body := rskip (lskip s) in
  let '(negative, literal) :=
    match body with
    | String "-" r => (true, r)
    | String "+" r => (false, r)
    | _ => (false, body)
    end in
  match digits false 0 0 literal with
  | Some (n, count) =>
      if max_str_digits <? count then IntRaise ValueError
      else IntOk (if negative then - n else n)
  | None => IntRaise ValueError
  end.

(** [int(f)] for a float: truncation toward zero. *)
Definition of_float (f : pyfloat) : int_result :=
  match f with
  | S754_nan => IntRaise ValueError
  | S754_infinity _ => IntRaise OverflowError
  | S754_zero _ => IntOk 0
  | S754_finite s m e =>
      let a := if 0 <=? e then Z.pos m * 2 ^ e else Z.pos m / 2 ^ (- e) in
      IntOk (if s then - a else a)
  end.

(** [int(v)] *)
Definition int_ (v : value) : int_result :=
  match v with
  | VNone => IntRaise TypeError
  | VBool b => IntOk (if b then 1 else 0)
  | VInt n => IntOk n
  | VFloat f => of_float f
  | VStr s => of_string s
  | VList _ => IntRaise TypeError
  | VDict _ => IntRaise TypeError
  end.

End PyInt.

(* ================================================================== *)
(** * [json.loads]

    The decoder of Python's [json] module with its default settings, in two
    passes that each read their input once: the characters are cut into
    tokens, and the tokens drive a push-down automaton that builds the
    value.  The decoder reads from left to right and stops at the first
    thing that is wrong, so the tokens end at the first character that
    starts no token, and the automaton raises at the first token that it
    cannot take.  As the decoder does, it accepts [NaN], [Infinity] and
    [-Infinity], refuses control characters inside strings, and lets the
    last of two equal keys win.  A [\uXXXX] escape is stored as UTF-8.  A
    number with a fraction or an exponent is rounded to the nearest
    binary64 float.

    Three things can go wrong.  [JSONDecodeError]: the text is not JSON.
    [ValueError]: an integer literal has more than 4300 digits, which
    [int()] refuses.  [RecursionError]: arrays and objects are nested
    deeper than the interpreter lets the decoder go; how deep that is
    depends on the recursion limit and on the frames that are on the stack
    when [json.loads] is called, so it is the parameter [room]. *)

Module Json.

Inductive token : Type :=
| TLBrace | TRBrace | TLBrack | TRBrack | TColon | TComma
| TScalar (v : value)
| TLong      (* an integer literal of more digits than [int()] converts *)
| TBad.      (* no token starts here *)

(** ** Tokens *)

Inductive num_state : Type :=
| NMinus | NZero | NInt | NDot | NFrac | NE | NESign | NExp.

Record num_acc : Type := mkNum {
  n_neg : bool;        (* a leading minus sign *)
  n_mant : Z;          (* the digits of the integer and fraction parts *)
  n_digits : Z;        (* how many of them belong to the integer part *)
  n_frac : Z;          (* how many of them belong to the fraction *)
  n_eneg : bool;       (* the exponent has a minus sign *)
  n_exp : Z            (* the digits of the exponent *)
}.

Inductive mode : Type :=
| MIdle
| MNum (st : num_state) (a : num_acc)
| MLit (rest : list ascii) (v : value)
| MStr (buf : list ascii) (hi : option N)
| MEsc (buf : list ascii) (hi : option N)
| MUni (buf : list ascii) (hi : option N) (k : nat) (cp : N).

(** What one character gives: the tokens that it completes and the mode
    for the next character, or no mode when no token can start or go on
    with this character. *)
Definition step : Type := (list token * option mode)%type.

Definition stuck : step := ([], None).

(** JSON white space between tokens. *)
Definition is_ws (c : ascii) : bool :=
  let n := PyStr.code c in
  ((n =? 32) || (n =? 9) || (n =? 10) || (n =? 13))%nat.

(** The literal without fraction and exponent: [int(numstr)]. *)
Definition int_token (a : num_acc) : token :=
  if PyInt.max_str_digits <? n_digits a then TLong
  else TScalar (VInt (if n_neg a then - n_mant a else n_mant a)).

(** The literal with a fraction or an exponent [e]: [float(numstr)]. *)
Definition float_token (a : num_acc) (e : Z) : token :=
  TScalar (VFloat (PyFloat.of_decimal (n_neg a) (n_mant a) (e - n_frac a))).

(** The literal as far as it was read when an exponent did not follow. *)
Definition mantissa_token (a : num_acc) : token :=
  if n_frac a =? 0 then int_token a else float_token a 0.

Definition exponent_token (a : num_acc) : token :=
  float_token a (if n_eneg a then - n_exp a else n_exp a).

Definition num0 (neg : bool) (d count : Z) : num_acc :=
  mkNum neg d count 0 false 0.

Definition push_digit (a : num_acc) (d : Z) : num_acc :=
  mkNum (n_neg a) (n_mant a * 10 + d) (n_digits a + 1) (n_frac a)
        (n_eneg a) (n_exp a).

Definition push_frac (a : num_acc) (d : Z) : num_acc :=
  mkNum (n_neg a) (n_mant a * 10 + d) (n_digits a) (n_frac a + 1)
        (n_eneg a) (n_exp a).

Definition push_exp (a : num_acc) (d : Z) : num_acc :=
  mkNum (n_neg a) (n_mant a) (n_digits a) (n_frac a) (n_eneg a)
        (n_exp a * 10 + d).

Definition set_eneg (a : num_acc) (eneg : bool) : num_acc :=
  mkNum (n_neg a) (n_mant a) (n_digits a) (n_frac a) eneg (n_exp a).

Definition dquote : ascii := ascii_of_nat 34.

(** One character read between tokens. *)
Definition idle_step (c : ascii) : step :=
  if is_ws c then ([], Some MIdle)
  else if Ascii.eqb c "{" then ([TLBrace], Some MIdle)
  else if Ascii.eqb c "}" then ([TRBrace], Some MIdle)
  else if Ascii.eqb c "[" then ([TLBrack], Some MIdle)
  else if Ascii.eqb c "]" then ([TRBrack], Some MIdle)
  else if Ascii.eqb c ":" then ([TColon], Some MIdle)
  else if Ascii.eqb c "," then ([TComma], Some MIdle)
  else if Ascii.eqb c dquote then ([], Some (MStr [] None))
  else if Ascii.eqb c "-" then ([], Some (MNum NMinus (num0 true 0 0)))
  else if Ascii.eqb c "0" then ([], Some (MNum NZero (num0 false 0 1)))
  else if PyInt.is_digit c then
    ([], Some (MNum NInt (num0 false (PyInt.digit_val c) 1)))
  else if Ascii.eqb c "n" then
    ([], Some (MLit (list_ascii_of_string "ull") VNone))
  else if Ascii.eqb c "t" then
    ([], Some (MLit (list_ascii_of_string "rue") (VBool true)))
  else if Ascii.eqb c "f" then
    ([], Some (MLit (list_ascii_of_string "alse") (VBool false)))
  else if Ascii.eqb c "N" then
    ([], Some (MLit (list_ascii_of_string "aN") (VFloat S754_nan)))
  else if Ascii.eqb c "I" then
    ([], Some (MLit (list_ascii_of_string "nfinity")
                    (VFloat (S754_infinity false))))
  else stuck.

(** The number [t] is complete and [c] is the character after it. *)
Definition end_number (t : token) (c : ascii) : step :=
  let '(ts, m) := idle_step c in (t :: ts, m).

Definition is_e (c : ascii) : bool := Ascii.eqb c "e" || Ascii.eqb c "E".

(** A number is read as far as it goes: a point without a digit after it
    and an exponent without a digit are not part of it, and the number
    ends before them. *)
Definition num_step (st : num_state) (a : num_acc) (c : ascii) : step :=
  let d := PyInt.digit_val c in
  match st with
  | NMinus =>
      if Ascii.eqb c "0" then ([], Some (MNum NZero (push_digit a 0)))
      else if PyInt.is_digit c then ([], Some (MNum NInt (push_digit a d)))
      else if Ascii.eqb c "I" then
        ([], Some (MLit (list_ascii_of_string "nfinity")
                        (VFloat (S754_infinity true))))
      else stuck
  | NZero =>
      if Ascii.eqb c "." then ([], Some (MNum NDot a))
      else if is_e c then ([], Some (MNum NE a))
      else end_number (int_token a) c
  | NInt =>
      if PyInt.is_digit c then ([], Some (MNum NInt (push_digit a d)))
      else if Ascii.eqb c "." then ([], Some (MNum NDot a))
      else if is_e c then ([], Some (MNum NE a))
      else end_number (int_token a) c
  | NDot =>
      if PyInt.is_digit c then ([], Some (MNum NFrac (push_frac a d)))
      else ([int_token a], None)
  | NFrac =>
      if PyInt.is_digit c then ([], Some (MNum NFrac (push_frac a d)))
      else if is_e c then ([], Some (MNum NE a))
      else end_number (float_token a 0) c
  | NE =>
      if Ascii.eqb c "+" then ([], Some (MNum NESign (set_eneg a false)))
      else if Ascii.eqb c "-" then ([], Some (MNum NESign (set_eneg a true)))
      else if PyInt.is_digit c then ([], Some (MNum NExp (push_exp a d)))
      else ([mantissa_token a], None)
  | NESign =>
      if PyInt.is_digit c then ([], Some (MNum NExp (push_exp a d)))
      else ([mantissa_token a], None)
  | NExp =>
      if PyInt.is_digit c then ([], Some (MNum NExp (push_exp a d)))
      else end_number (exponent_token a) c
  end.

(** ** String literals *)

Definition hex_val (c : ascii) : option N :=
  let n := N_of_ascii c in
  (if (48 <=? n) && (n <=? 57) then Some (n - 48)
   else if (97 <=? n) && (n <=? 102) then Some (n - 87)
   else if (65 <=? n) && (n <=? 70) then Some (n - 55)
   else None)%N.

Definition is_high (cp : N) : bool := ((55296 <=? cp) && (cp <=? 56319))%N.
Definition is_low (cp : N) : bool := ((56320 <=? cp) && (cp <=? 57343))%N.

Definition join_surrogates (h l : N) : N :=
  (65536 + (h - 55296) * 1024 + (l - 56320))%N.

(** The UTF-8 bytes of a code point. *)
Definition utf8 (cp : N) : list ascii :=
  let b := ascii_of_N in
  (if cp <? 128 then [b cp]
   else if cp <? 2048 then [b (192 + cp / 64); b (128 + cp mod 64)]
   else if cp <? 65536 then
     [b (224 + cp / 4096); b (128 + (cp / 64) mod 64); b (128 + cp mod 64)]
   else
     [b (240 + cp / 262144); b (128 + (cp / 4096) mod 64);
      b (128 + (cp / 64) mod 64); b (128 + cp mod 64)])%N.

(** [buf] holds the characters read so far, last first. *)
Definition push_cp (cp : N) (buf : list ascii) : list ascii :=
  (rev (utf8 cp) ++ buf)%list.

(** A high surrogate that was not followed by a low one stays alone. *)
Definition flush (hi : option N) (buf : list ascii) : list ascii :=
  match hi with
  | Some h => push_cp h buf
  | None => buf
  end.

Definition str_step (buf : list ascii) (hi : option N) (c : ascii) : step :=
  if Ascii.eqb c dquote then
    ([TScalar (VStr (string_of_list_ascii (rev (flush hi buf))))], Some MIdle)
  else if Ascii.eqb c "\" then ([], Some (MEsc buf hi))
  else if (PyStr.code c <? 32)%nat then stuck
  else ([], Some (MStr (c :: flush hi buf) None)).

Definition simple_escape (c : ascii) : option ascii :=
  if Ascii.eqb c dquote then Some dquote
  else if Ascii.eqb c "\" then Some "\"%char
  else if Ascii.eqb c "/" then Some "/"%char
  else if Ascii.eqb c "b" then Some (ascii_of_nat 8)
  else if Ascii.eqb c "f" then Some (ascii_of_nat 12)
  else if Ascii.eqb c "n" then Some (ascii_of_nat 10)
  else if Ascii.eqb c "r" then Some (ascii_of_nat 13)
  else if Ascii.eqb c "t" then Some (ascii_of_nat 9)
  else None.

Definition esc_step (buf : list ascii) (hi : option N) (c : ascii) : step :=
  if Ascii.eqb c "u" then ([], Some (MUni buf hi 0 0))
  else match simple_escape c with
       | Some e => ([], Some (MStr (e :: flush hi buf) None))
       | None => stuck
       end.

(** The fourth hexadecimal digit completes the code point [cp]. *)
Definition end_escape (buf : list ascii) (hi : option N) (cp : N) : mode :=
  match hi with
  | Some h =>
      if is_low cp then MStr (push_cp (join_surrogates h cp) buf) None
      else if is_high cp then MStr (push_cp h buf) (Some cp)
      else MStr (push_cp cp (push_cp h buf)) None
  | None =>
      if is_high cp then MStr buf (Some cp) else MStr (push_cp cp buf) None
  end.

Definition uni_step (buf : list ascii) (hi : option N) (k : nat) (cp : N)
    (c : ascii) : step :=
  match hex_val c with
  | Some h =>
      let cp' := (cp * 16 + h)%N in
      if (k =? 3)%nat then ([], Some (end_escape buf hi cp'))
      else ([], Some (MUni buf hi (S k) cp'))
  | None => stuck
  end.

Definition lit_step (rest : list ascii) (v : value) (c : ascii) : step :=
  match rest with
  | [] => stuck
  | x :: rest' =>
      if Ascii.eqb c x then
        match rest' with
        | [] => ([TScalar v], Some MIdle)
        | _ => ([], Some (MLit rest' v))
        end
      else stuck
  end.

Definition lex_step (m : mode) (c : ascii) : step :=
  match m with
  | MIdle => idle_step c
  | MNum st a => num_step st a c
  | MLit rest v => lit_step rest v c
  | MStr buf hi => str_step buf hi c
  | MEsc buf hi => esc_step buf hi c
  | MUni buf hi k cp => uni_step buf hi k cp c
  end.

(** The input ends in mode [m]. *)
Definition lex_end (m : mode) : list token :=
  match m with
  | MIdle => []
  | MNum NZero a | MNum NInt a => [int_token a]
  | MNum NFrac a => [float_token a 0]
  | MNum NExp a => [exponent_token a]
  | MNum NDot a => [int_token a; TBad]
  | MNum NE a | MNum NESign a => [mantissa_token a; TBad]
  | _ => [TBad]
  end.

(** The tokens of [s]; [TBad] is the last token when there is one. *)
Fixpoint lex (m : mode) (s : string) : list token :=
  match s with
  | EmptyString => lex_end m
  | String c r =>
      match lex_step m c with
      | (ts, Some m') => (ts ++ lex m' r)%list
      | (ts, None) => (ts ++ [TBad])%list
      end
  end.

(** ** Values *)

(** An open container: an array with its items so far (last first), or
    an object with its members so far and the key that waits for its
    value. *)
Inductive frame : Type :=
| FArr (items : list value)
| FObj (d : dict) (key : string).

Inductive pstate : Type :=
| PValue (st : list frame)
| PArrFirst (st : list frame)
| PObjFirst (st : list frame)
| PObjKey (d : dict) (st : list frame)
| PObjColon (d : dict) (key : string) (st : list frame)
| PArrNext (items : list value) (st : list frame)
| PObjNext (d : dict) (st : list frame)
| PDone (v : value).

(** The value [v] is complete inside the open containers [st]. *)
Definition deliver (v : value) (st : list frame) : pstate :=
  match st with
  | [] => PDone v
  | FArr items :: st' => PArrNext (v :: items) st'
  | FObj d k :: st' => PObjNext (Dict.set k v d) st'
  end.

(** A value is expected inside the open containers [st].  The decoder
    enters an array or an object by a recursive call, which the
    interpreter refuses when [room] containers are open already; the
    number is converted when it has been read. *)
Definition value_step (room : nat) (st : list frame) (t : token)
  : result pstate :=
  match t with
  | TScalar v => Ok (deliver v st)
  | TLong => Err ValueError
  | TLBrack =>
      if (List.length st <? room)%nat then Ok (PArrFirst st)
      else Err RecursionError
  | TLBrace =>
      if (List.length st <? room)%nat then Ok (PObjFirst st)
      else Err RecursionError
  | _ => Err JSONDecodeError
  end.

Definition parse_step (room : nat) (p : pstate) (t : token) : result pstate :=
  match p with
  | PValue st => value_step room st t
  | PArrFirst st =>
      match t with
      | TRBrack => Ok (deliver (VList []) st)
      | _ => value_step room (FArr [] :: st) t
      end
  | PObjFirst st =>
      match t with
      | TRBrace => Ok (deliver (VDict []) st)
      | TScalar (VStr k) => Ok (PObjColon [] k st)
      | _ => Err JSONDecodeError
      end
  | PObjKey d st =>
      match t with
      | TScalar (VStr k) => Ok (PObjColon d k st)
      | _ => Err JSONDecodeError
      end
  | PObjColon d k st =>
      match t with
      | TColon => Ok (PValue (FObj d k :: st))
      | _ => Err JSONDecodeError
      end
  | PArrNext items st =>
      match t with
      | TComma => Ok (PValue (FArr items :: st))
      | TRBrack => Ok (deliver (VList (rev items)) st)
      | _ => Err JSONDecodeError
      end
  | PObjNext d st =>
      match t with
      | TComma => Ok (PObjKey d st)
      | TRBrace => Ok (deliver (VDict d) st)
      | _ => Err JSONDecodeError
      end
  | PDone _ => Err JSONDecodeError
  end.

Fixpoint parse (room : nat) (p : pstate) (ts : list token) : result value :=
  match ts with
  | [] => match p with PDone v => Ok v | _ => Err JSONDecodeError end
  | t :: r =>
      match parse_step room p t with
      | Ok p' => parse room p' r
      | Err e => Err e
      end
  end.

(** [json.loads(s)], called where the interpreter leaves the decoder
    [room] levels of nesting. *)
Definition loads (room : nat) (s : string) : result value :=
  parse room (PValue []) (lex MIdle s).

(** Writing aid for JSON text inside Rocq strings: every apostrophe
    stands for a double quote. *)
Fixpoint text (s : string) : string :=
  match s with
  | EmptyString => EmptyString
  | String c r => String (if Ascii.eqb c "'" then dquote else c) (text r)
  end.

End Json.

(* ================================================================== *)
(** * The document model ([models.py], as [nodes.py] and [main.py] use it) *)

Record PlanSection : Type := mkSection {
  title : string;
  content : value
}.

(** What [model_dump()] gives once its ["history"] entry is deleted. *)
Record Snapshot : Type := mkSnapshot {
  snap_id : string;
  snap_userId : string;
  snap_company : string;
  snap_goal : string;
  snap_title : value;
  snap_createdAt : string;
  snap_updatedAt : string;
  snap_version : Z;
  snap_sections : list PlanSection
}.

(** [AccountPlan], with the fields that [new_account_plan] fills and the
    [history] that [apply_plan_update] and [update_plan] extend.  The
    plan's [title] is [plan_title] here, a section having a [title] too;
    it holds whatever the model sends as [set_plan_title]. *)
Record AccountPlan : Type := mkPlan {
  id : string;
  userId : string;
  company : string;
  goal : string;
  plan_title : value;
  createdAt : string;
  updatedAt : string;
  version : Z;
  sections : list PlanSection;
  history : list Snapshot
}.

Definition model_dump (p : AccountPlan) : Snapshot :=
  mkSnapshot (id p) (userId p) (company p) (goal p) (plan_title p)
             (createdAt p) (updatedAt p) (version p) (sections p).

Definition set_sections (p : AccountPlan) (s : list PlanSection) : AccountPlan :=
  mkPlan (id p) (userId p) (company p) (goal p) (plan_title p)
         (createdAt p) (updatedAt p) (version p) s (history p).

Definition set_history (p : AccountPlan) (h : list Snapshot) : AccountPlan :=
  mkPlan (id p) (userId p) (company p) (goal p) (plan_title p)
         (createdAt p) (updatedAt p) (version p) (sections p) h.

Definition set_plan_title (p : AccountPlan) (t : value) : AccountPlan :=
  mkPlan (id p) (userId p) (company p) (goal p) t
         (createdAt p) (updatedAt p) (version p) (sections p) (history p).

Definition set_version (p : AccountPlan) (v : Z) (now : string) : AccountPlan :=
  mkPlan (id p) (userId p) (company p) (goal p) (plan_title p)
         (createdAt p) now v (sections p) (history p).

(** ** Python list operations on the section sequence *)

Module PyList.

Section Ops.
Context {A : Type}.

(** [l.pop(i)] leaves this list behind ([i] is a valid index). *)
Fixpoint pop (i : nat) (l : list A) : list A :=
  match l, i with
  | [], _ => []
  | _ :: r, O => r
  | x :: r, S j => x :: pop j r
  end.

(** [l.insert(i, x)] *)
Fixpoint insert (i : nat) (x : A) (l : list A) : list A :=
  match i, l with
  | O, _ => x :: l
  | S j, [] => [x]
  | S j, y :: r => y :: insert j x r
  end.

(** [l[i] = x] *)
Fixpoint replace (i : nat) (x : A) (l : list A) : list A :=
  match l, i with
  | [], _ => []
  | _ :: r, O => x :: r
  | y :: r, S j => y :: replace j x r
  end.

(** The first index whose element satisfies [f]. *)
Fixpoint index_where (f : A -> bool) (l : list A) : option nat :=
  match l with
  | [] => None
  | x :: r =>
      if f x then Some O
      else match index_where f r with
           | Some i => Some (S i)
           | None => None
           end
  end.

(** [next((x for x in l if f x), None)] *)
Fixpoint first_where (f : A -> bool) (l : list A) : option A :=
  match l with
  | [] => None
  | x :: r => if f x then Some x else first_where f r
  end.
End Ops.

End PyList.

(* ================================================================== *)
(** * The document merge engine: [apply_plan_update] *)

(** How the call ends: it returns [any_changed], or an exception leaves it.
    Either way the caller's plan object has been updated in place up to
    that point, so both carry the plan. *)
Inductive outcome : Type :=
| Returned (plan : AccountPlan) (any_changed : bool)
| Raised (e : exn) (plan : AccountPlan).

(** How the body of the [for] loop ends for one command. *)
Inductive step_result : Type :=
| Next (plan : AccountPlan) (any_changed : bool)
| Abort (e : exn) (plan : AccountPlan).

Definition newline : string := String (ascii_of_nat 10) EmptyString.

(** [update_item.get(k, default)] *)
Definition get_or (k : string) (default : value) (d : dict) : value :=
  match Dict.get k d with
  | Some v => v
  | None => default
  end.

(** The unwrapping heuristic for a content that is wrapped in a
    section-like object. *)
Definition unwrap (content : value) : value :=
  match content with
  | VDict d =>
      match Dict.get "content" d with
      | Some inner =>
          if Dict.mem "title" d || (List.length d =? 1)%nat then inner else content
      | None => content
      end
  | _ => content
  end.

(** [raw_title.replace('_', ' ').title()] *)
Definition normalize (s : string) : string :=
  PyStr.title (PyStr.replace_underscore s).

(** The test of the loop that looks for the existing section. *)
Definition section_matches (raw_title normalized_title : string)
    (s : PlanSection) : bool :=
  let current_title := PyStr.lower (PyStr.strip (title s)) in
  let current_normalized := PyStr.replace_underscore current_title in
  String.eqb current_normalized (PyStr.lower normalized_title)
  || String.eqb current_title (PyStr.lower raw_title).

(** [parts[0].strip()] *)
Definition raw_title_of (path : string) : string :=
  PyStr.strip (hd EmptyString (PyStr.split "." path)).

(** "Find existing section": the index of the first section that the path
    names, [None] for [existing_idx == -1]. *)
Definition find_section (secs : list PlanSection) (path : string) : option nat :=
  let raw_title := raw_title_of path in
  PyList.index_where (section_matches raw_title (normalize raw_title)) secs.

(** [target_key] as the path gives it.  [None] stands for both [None] and
    the empty string: the code only ever tests it for truth before use. *)
Definition path_target_key (parts : list string) : option string :=
  match parts with
  | _ :: p1 :: more =>
      let potential_key := PyStr.strip p1 in
      let key :=
        match more with
        | p2 :: _ =>
            if String.eqb (PyStr.lower potential_key) "content"
            then PyStr.strip p2 else potential_key
        | [] => potential_key
        end in
      if str_truthy key then Some (normalize key) else None
  | _ => None
  end.

(** The key of a mapping content that [target_key] stands for. *)
Definition resolve_key (target_key : string) (d : dict) : string :=
  if Dict.mem target_key d then target_key
  else
    let target_normalized :=
      PyStr.lower (PyStr.strip (PyStr.replace_underscore target_key)) in
    match PyList.first_where
            (fun k => String.eqb
                        (PyStr.lower (PyStr.strip (PyStr.replace_underscore k)))
                        target_normalized)
            (Dict.keys d) with
    | Some found_key => if str_truthy found_key then found_key else target_key
    | None => target_key
    end.

(** [append] on one key of a mapping content: the new value of the key. *)
Definition append_key (current_val : option value) (content : value)
  : result value :=
  match current_val with
  | None | Some VNone => Ok content
  | Some (VList l) =>
      match content with
      | VList c => Ok (VList (l ++ c)%list)
      | _ => Ok (VList (l ++ [content])%list)
      end
  | Some (VStr s) =>
      match content with
      | VList c => Ok (VList (VStr s :: c))
      | VStr t => Ok (VStr (s ++ newline ++ t))
      | _ => Err TypeError
      end
  | Some v => Ok (VList [v; content])
  end.

(** [merge] on one key: [existing.content[target_key].update(content)]
    for a mapping [content], else an assignment. *)
Definition merge_key (k : string) (content : value) (d : dict) : result dict :=
  match content with
  | VDict c =>
      match Dict.get k d with
      | None => Err KeyError
      | Some (VDict sub) => Ok (Dict.set k (VDict (Dict.update sub c)) d)
      | Some _ => Err AttributeError
      end
  | _ => Ok (Dict.set k content d)
  end.

(** The update of the whole content of a section. *)
Definition update_whole (mode : value) (old content : value) : value :=
  if eq_str mode "replace" then content
  else if eq_str mode "append" then
    match old, content with
    | VStr a, VStr b => VStr (a ++ newline ++ newline ++ b)
    | VList a, VList b => VList (a ++ b)%list
    | VList a, VStr b => VList (a ++ [VStr b])%list
    | VDict a, VDict b => VDict (Dict.update a b)
    | _, _ => content
    end
  else
    match old, content with
    | VDict a, VDict b =>
        if eq_str mode "merge" then VDict (Dict.update a b) else content
    | _, _ => content
    end.

(** The content of a section turned into a mapping before one of its keys
    is written. *)
Definition as_mapping (c : value) : dict :=
  match c with
  | VDict d => d
  | _ => if truthy c then [("General", c)] else []
  end.

(** The content of a section that is created: under the target key when
    the path has one. *)
Definition final_content (target_key : option string) (content : value)
  : value :=
  match target_key with
  | Some k => VDict [(k, content)]
  | None => content
  end.

Definition is_research_sources (s : PlanSection) : bool :=
  String.eqb (PyStr.lower (title s)) "research sources".

(** The end of the call: "Research Sources" goes to the bottom. *)
Definition relocate_research_sources (secs : list PlanSection)
  : list PlanSection :=
  match PyList.index_where is_research_sources secs with
  | Some i =>
      if (Z.of_nat i <? Z.of_nat (List.length secs) - 1) then
        match nth_error secs i with
        | Some s => (PyList.pop i secs ++ [s])%list
        | None => secs
        end
      else secs
  | None => secs
  end.

Section MergeEngine.

(** [PlanSection(title=..., content=...)] is defined in [models.py], which
    is not among the sources: the constructor is a parameter here.  It
    gives the new section, or [None] when its validation raises. *)
Variable new_section : string -> value -> option PlanSection.

(** [mode == "delete"] on the section at [idx]. *)
Definition delete_found (plan : AccountPlan) (idx : nat)
    (existing : PlanSection) (target_key : option string) : step_result :=
  let secs :=
    match target_key with
    | Some k =>
        match content existing with
        | VDict d =>
            if Dict.mem k d
            then PyList.replace idx
                   (mkSection (title existing) (VDict (Dict.del k d)))
                   (sections plan)
            else sections plan
        | _ => sections plan
        end
    | None => PyList.pop idx (sections plan)
    end in
  Next (set_sections plan secs) true.

(** [mode == "move"] on the section at [idx]. *)
Definition move_found (plan : AccountPlan) (any_changed : bool) (idx : nat)
    (existing : PlanSection) (target_key : option string) (content : value)
  : step_result :=
  match target_key with
  | Some _ => Next plan any_changed
  | None =>
      match PyInt.int_ content with
      | IntOk n =>
          let new_index := Z.max 0 n in
          if Z.of_nat idx =? new_index then Next plan any_changed
          else
            let rest := PyList.pop idx (sections plan) in
            let secs :=
              if Z.of_nat (List.length rest) <=? new_index
              then (rest ++ [existing])%list
              else PyList.insert (Z.to_nat new_index) existing rest in
            Next (set_sections plan secs) true
      | IntRaise ValueError | IntRaise TypeError => Next plan any_changed
      | IntRaise e => Abort e plan
      end
  end.

(** [replace], [append], [merge] (or any other mode) on one key of the
    section at [idx]. *)
Definition write_key (plan : AccountPlan) (idx : nat) (existing : PlanSection)
    (k : string) (mode new_content : value) : step_result :=
  let d := as_mapping (content existing) in
  let store (d' : dict) : AccountPlan :=
    set_sections plan
      (PyList.replace idx (mkSection (title existing) (VDict d'))
                      (sections plan)) in
  if eq_str mode "replace" then Next (store (Dict.set k new_content d)) true
  else if eq_str mode "append" then
    match append_key (Dict.get k d) new_content with
    | Ok v => Next (store (Dict.set k v d)) true
    | Err e => Abort e (store d)
    end
  else if eq_str mode "merge" then
    match merge_key k new_content d with
    | Ok d' => Next (store d') true
    | Err e => Abort e (store d)
    end
  else Next (store d) true.

(** The command addresses the section at [idx]. *)
Definition update_found (plan : AccountPlan) (any_changed : bool) (idx : nat)
    (existing : PlanSection) (path_key : option string)
    (mode new_content : value) : step_result :=
  let target_key :=
    match path_key, content existing with
    | Some k, VDict d => Some (resolve_key k d)
    | _, _ => path_key
    end in
  if eq_str mode "delete" then delete_found plan idx existing target_key
  else if eq_str mode "move" then
    move_found plan any_changed idx existing target_key new_content
  else
    match target_key with
    | Some k => write_key plan idx existing k mode new_content
    | None =>
        Next (set_sections plan
                (PyList.replace idx
                   (mkSection (title existing)
                      (update_whole mode (content existing) new_content))
                   (sections plan)))
             true
    end.

(** No section has the title of the command. *)
Definition update_missing (plan : AccountPlan) (any_changed : bool)
    (normalized_title : string) (target_key : option string)
    (mode content : value) : step_result :=
  if eq_str mode "delete" then Next plan any_changed
  else
    match new_section normalized_title (final_content target_key content) with
    | Some s => Next (set_sections plan (sections plan ++ [s])%list) true
    | None => Next plan any_changed
    end.

(** The body of the loop for one [update_item]. *)
Definition apply_update_item (plan : AccountPlan) (any_changed : bool)
    (update_item : value) : step_result :=
  match update_item with
  | VDict item =>
      let section_path := get_or "section" VNone item in
      let content := unwrap (get_or "content" VNone item) in
      let mode := get_or "mode" (VStr "replace") item in
      if negb (truthy section_path) then Next plan any_changed
      else
        match section_path with
        | VStr path =>
            let parts := PyStr.split "." path in
            let normalized_title := normalize (raw_title_of path) in
            let target_key := path_target_key parts in
            match find_section (sections plan) path with
            | Some idx =>
                match nth_error (sections plan) idx with
                | Some existing =>
                    update_found plan any_changed idx existing
                                 target_key mode content
                | None => Next plan any_changed
                end
            | None =>
                update_missing plan any_changed normalized_title
                               target_key mode content
            end
        | _ => Abort AttributeError plan
        end
  | _ => Abort AttributeError plan
  end.

(** [for update_item in updates: ...] *)
Fixpoint apply_updates (plan : AccountPlan) (any_changed : bool)
    (updates : list value) : step_result :=
  match updates with
  | [] => Next plan any_changed
  | update_item :: rest =>
      match apply_update_item plan any_changed update_item with
      | Next plan' any_changed' => apply_updates plan' any_changed' rest
      | Abort e plan' => Abort e plan'
      end
  end.

(** [apply_plan_update(plan, update_data)] for a plan object (a model
    instance is never false; with [None] for a plan the function returns
    [False] at once). *)
Definition apply_plan_update (plan : AccountPlan) (update_data : value)
  : outcome :=
  if negb (truthy update_data) then Returned plan false
  else
    let plan1 := set_history plan (history plan ++ [model_dump plan])%list in
    let updates :=
      match update_data with
      | VList l => l
      | _ => [update_data]
      end in
    match apply_updates plan1 false updates with
    | Next plan2 any_changed =>
        Returned
          (if any_changed
           then set_sections plan2 (relocate_research_sources (sections plan2))
           else plan2)
          any_changed
    | Abort e plan2 => Raised e plan2
    end.

End MergeEngine.

(* ================================================================== *)
(** * Replacing the plan from outside: [update_plan] in [main.py] *)

(** The plan that [update_plan] stores for the session: [plan_data] as the
    caller sent it, with the history of [current_plan] and its snapshot,
    and a version above the current one.  [now] is the time stamp. *)
Definition update_plan (current_plan plan_data : AccountPlan) (now : string)
  : AccountPlan :=
  let snapshot := model_dump current_plan in
  let new_history := (history current_plan ++ [snapshot])%list in
  let plan_data := set_history plan_data new_history in
  if version plan_data <=? version current_plan
  then set_version plan_data (version current_plan + 1) now
  else plan_data.

(* ================================================================== *)
(** * The contract parser: [parse_json_output] and [get_clean_content] *)

(** [text[start:end+1]] for the first ['{'] and the last ['}'], when both
    are there. *)
Definition json_block (text : string) : option string :=
  match PyStr.find "{" text, PyStr.rfind "}" text with
  | Some start, Some end_ => Some (PyStr.slice start (S end_) text)
  | _, _ => None
  end.

(** [parse_json_output(text)], called with [room] levels of nesting left
    for the decoder.  The first attempt catches [json.JSONDecodeError]
    only: any other exception of the decoder leaves the function.  The
    second attempt catches every exception.  Python's [None] is the result
    when neither attempt decodes. *)
Definition parse_json_output (room : nat) (text : string) : result value :=
  match Json.loads room text with
  | Ok v => Ok v
  | Err JSONDecodeError =>
      match json_block text with
      | Some json_raw =>
          match Json.loads room json_raw with
          | Ok v => Ok v
          | Err _ => Ok VNone
          end
      | None => Ok VNone
      end
  | Err e => Err e
  end.

(** Both attempts of [parse_json_output] fail on [text]: the whole text
    is not JSON, and there is no block between braces or the decoder
    raises on it. *)
Definition unparsable (room : nat) (text : string) : bool :=
  match Json.loads room text with
  | Err JSONDecodeError =>
      match json_block text with
      | Some json_raw =>
          match Json.loads room json_raw with
          | Ok _ => false
          | Err _ => true
          end
      | None => true
      end
  | _ => false
  end.

(** [data["reply"]] when the decoder returned a dict with that key. *)
Definition reply_field (data : result value) : option value :=
  match data with
  | Ok (VDict d) => Dict.get "reply" d
  | _ => None
  end.

(** [get_clean_content(msg_content)], called with [room] levels of nesting
    left for the decoder.  Both attempts sit in a bare [try]/[except]: every
    exception of the decoder counts as a failed attempt, and anything that
    is not a string comes back as it is. *)
Definition get_clean_content (room : nat) (msg_content : value) : value :=
  match msg_content with
  | VStr s =>
      match reply_field (Json.loads room s) with
      | Some reply => reply
      | None =>
          match json_block s with
          | Some json_raw =>
              match reply_field (Json.loads room json_raw) with
              | Some reply => reply
              | None => msg_content
              end
          | None => msg_content
          end
      end
  | _ => msg_content
  end.

(* ================================================================== *)
(** * The session state and [conversation_agent] *)

Inductive message : Type :=
| HumanMessage (text : string)
| AIMessage (text : string)
| SystemMessage (text : string).

(** The keys of [AgentState] that [conversation_agent] reads or writes.
    The state is a dict: [None] is a key that is not there (a reader gets
    the default of its [get]).  The attached files only go into the
    context that is sent to the model, which is a parameter below. *)
Record AgentState : Type := mkState {
  messages : list message;
  plan : option AccountPlan;
  research_result : option dict;
  research_plan : option value;
  current_task_index : option Z;
  aggregated_findings : option value;
  research_mode : option string;
  research_plan_approved : option bool;
  research_needed : option bool;
  continue_after_pause : option bool;
  steps_in_current_turn : option Z;
  research_query : option value;
  target_section : option value;
  last_action : option value;
  new_version_created : option bool
}.

(** What the completion service answers to one call. *)
Inductive completion : Type :=
| Answer (text : string)
| Failure.

(** What the parser resolves from one model output. *)
Record directive : Type := mkDirective {
  reply_text : value;
  action : value;
  d_research_query : value;
  d_target_section : value;
  d_set_plan_title : value;
  update_data : value;
  new_research_plan : value
}.

Definition has_protocol_key (d : dict) : bool :=
  Dict.mem "control" d || Dict.mem "reply" d || Dict.mem "update" d.

(** The defaults with which the resolution starts. *)
Definition plain_reply (reply : value) : directive :=
  mkDirective reply (VStr "NONE") (VStr "") (VStr "") VNone VNone VNone.

(** The fallback for a JSON value that is not a directive: the text before
    it, when short, names the section that the value is merged into. *)
Definition implicit_update (parsed : value) (text : string) : directive :=
  let start_char := match parsed with VDict _ => "{"%char | _ => "["%char end in
  match PyStr.find start_char text with
  | Some (S j) =>
      let potential_title := PyStr.strip (PyStr.slice 0 (S j) text) in
      if str_truthy potential_title && (PyStr.len potential_title <? 100)%nat
      then mkDirective
             (VStr ("I've updated the " ++ potential_title ++ " section."))
             (VStr "NONE") (VStr "") (VStr "") VNone
             (VDict [("section", VStr potential_title);
                     ("content", parsed);
                     ("mode", VStr "merge")])
             VNone
      else plain_reply (VStr text)
  | _ => plain_reply (VStr text)
  end.

(** From [parsed] and the raw [text] to the reply, the control fields and
    the update.  [control.get] raises when ["control"] is not a dict. *)
Definition resolve (parsed : value) (text : string) : result directive :=
  if truthy parsed then
    match parsed with
    | VDict d =>
        if has_protocol_key d then
          match get_or "control" (VDict []) d with
          | VDict control =>
              Ok (mkDirective
                    (get_or "reply" (VStr "") d)
                    (get_or "action" (VStr "NONE") control)
                    (get_or "research_query" (VStr "") control)
                    (get_or "target_section" (VStr "") control)
                    (get_or "set_plan_title" VNone control)
                    (get_or "update" VNone d)
                    (get_or "research_plan" VNone control))
          | _ => Err AttributeError
          end
        else Ok (implicit_update parsed text)
    | _ => Ok (implicit_update parsed text)
    end
  else Ok (plain_reply (VStr text)).

(** ** The research actions *)

Definition set_research_needed (st : AgentState) (b : bool) : AgentState :=
  mkState (messages st) (plan st) (research_result st) (research_plan st)
    (current_task_index st) (aggregated_findings st) (research_mode st)
    (research_plan_approved st) (Some b) (continue_after_pause st)
    (steps_in_current_turn st) (research_query st) (target_section st)
    (last_action st) (new_version_created st).

Definition set_continue_after_pause (st : AgentState) (b : bool) : AgentState :=
  mkState (messages st) (plan st) (research_result st) (research_plan st)
    (current_task_index st) (aggregated_findings st) (research_mode st)
    (research_plan_approved st) (research_needed st) (Some b)
    (steps_in_current_turn st) (research_query st) (target_section st)
    (last_action st) (new_version_created st).

Definition set_research_plan_approved (st : AgentState) (b : bool) : AgentState :=
  mkState (messages st) (plan st) (research_result st) (research_plan st)
    (current_task_index st) (aggregated_findings st) (research_mode st)
    (Some b) (research_needed st) (continue_after_pause st)
    (steps_in_current_turn st) (research_query st) (target_section st)
    (last_action st) (new_version_created st).

Definition set_research_mode (st : AgentState) (m : string) : AgentState :=
  mkState (messages st) (plan st) (research_result st) (research_plan st)
    (current_task_index st) (aggregated_findings st) (Some m)
    (research_plan_approved st) (research_needed st) (continue_after_pause st)
    (steps_in_current_turn st) (research_query st) (target_section st)
    (last_action st) (new_version_created st).

(** A new research plan: the plan, index 0 and no findings. *)
Definition set_research_plan (st : AgentState) (p : value) : AgentState :=
  mkState (messages st) (plan st) (research_result st) (Some p)
    (Some 0) (Some (VList [])) (research_mode st)
    (research_plan_approved st) (research_needed st) (continue_after_pause st)
    (steps_in_current_turn st) (research_query st) (target_section st)
    (last_action st) (new_version_created st).

Definition set_query (st : AgentState) (q t : value) : AgentState :=
  mkState (messages st) (plan st) (research_result st) (research_plan st)
    (current_task_index st) (aggregated_findings st) (research_mode st)
    (research_plan_approved st) (research_needed st) (continue_after_pause st)
    (steps_in_current_turn st) (Some q) (Some t)
    (last_action st) (new_version_created st).

(** The last part of [conversation_agent]: "Handle Research Actions". *)
Definition handle_research_action (st : AgentState) (d : directive)
  : AgentState :=
  if eq_str (action d) "PLAN_RESEARCH" then
    let st :=
      if truthy (new_research_plan d) then
        set_research_plan_approved
          (set_research_mode (set_research_plan st (new_research_plan d)) "multi")
          false
      else st in
    set_research_needed st false
  else if eq_str (action d) "EXECUTE_PLAN" then
    let steps := match steps_in_current_turn st with Some n => n | None => 0 end in
    if 1 <=? steps then
      set_research_plan_approved
        (set_continue_after_pause (set_research_needed st false) true) true
    else
      set_research_plan_approved
        (set_research_mode
           (set_continue_after_pause (set_research_needed st true) false)
           "multi")
        true
  else if eq_str (action d) "CALL_RESEARCH" then
    set_query (set_research_mode (set_research_needed st true) "single")
              (d_research_query d) (d_target_section d)
  else set_research_needed st false.

(** ** The turn *)

Definition set_messages (st : AgentState) (m : list message) : AgentState :=
  mkState m (plan st) (research_result st) (research_plan st)
    (current_task_index st) (aggregated_findings st) (research_mode st)
    (research_plan_approved st) (research_needed st) (continue_after_pause st)
    (steps_in_current_turn st) (research_query st) (target_section st)
    (last_action st) (new_version_created st).

Definition set_plan (st : AgentState) (p : option AccountPlan) : AgentState :=
  mkState (messages st) p (research_result st) (research_plan st)
    (current_task_index st) (aggregated_findings st) (research_mode st)
    (research_plan_approved st) (research_needed st) (continue_after_pause st)
    (steps_in_current_turn st) (research_query st) (target_section st)
    (last_action st) (new_version_created st).

Definition set_research_result (st : AgentState) (r : option dict) : AgentState :=
  mkState (messages st) (plan st) r (research_plan st)
    (current_task_index st) (aggregated_findings st) (research_mode st)
    (research_plan_approved st) (research_needed st) (continue_after_pause st)
    (steps_in_current_turn st) (research_query st) (target_section st)
    (last_action st) (new_version_created st).

Definition set_last_action (st : AgentState) (a : value) : AgentState :=
  mkState (messages st) (plan st) (research_result st) (research_plan st)
    (current_task_index st) (aggregated_findings st) (research_mode st)
    (research_plan_approved st) (research_needed st) (continue_after_pause st)
    (steps_in_current_turn st) (research_query st) (target_section st)
    (Some a) (new_version_created st).

Definition set_new_version_created (st : AgentState) (b : bool) : AgentState :=
  mkState (messages st) (plan st) (research_result st) (research_plan st)
    (current_task_index st) (aggregated_findings st) (research_mode st)
    (research_plan_approved st) (research_needed st) (continue_after_pause st)
    (steps_in_current_turn st) (research_query st) (target_section st)
    (last_action st) (Some b).

Definition greeting : string :=
  "Hello! I'm your Account Plan Agent. What company and goal would you like to work on?".

Definition correction : string :=
  "ERROR: Your previous response was NOT valid JSON. You must return ONLY a JSON object with 'reply' and 'control' keys. Do not output plain text. Please retry.".

(** One entry of the "Research Sources" content. *)
Definition source_entry (s : value) : result value :=
  match s with
  | VDict d =>
      Ok (VDict [("title", get_or "title" (VStr "Source") d);
                 ("url", get_or "url" (VStr "#") d);
                 ("snippet", get_or "snippet" (VStr "") d)])
  | _ => Err AttributeError
  end.

Fixpoint source_entries (l : list value) : result (list value) :=
  match l with
  | [] => Ok []
  | s :: r =>
      match source_entry s with
      | Ok e =>
          match source_entries r with
          | Ok es => Ok (e :: es)
          | Err x => Err x
          end
      | Err x => Err x
      end
  end.

(** [for s in sources: sources_content.append({...})] for a [sources] that
    is true. *)
Definition sources_content (sources : value) : result (list value) :=
  match sources with
  | VList l => source_entries l
  | VStr _ | VDict _ => Err AttributeError
  | _ => Err TypeError
  end.

(** [len(x)] *)
Definition py_len (v : value) : result nat :=
  match v with
  | VStr s => Ok (PyStr.len s)
  | VList l => Ok (List.length l)
  | VDict d => Ok (List.length d)
  | _ => Err TypeError
  end.

(** What one call of [conversation_agent] did: the state it returns, what
    the parser resolved, and the requests that the completion service has
    received so far. *)
Inductive agent_outcome : Type :=
| Finished (st : AgentState) (d : directive) (requests : list (list message))
| Greeted (st : AgentState)
| Crashed (requests : list (list message)).

Section Agent.

Variable new_section : string -> value -> option PlanSection.

(** The protocol instructions (a constant text of [nodes.py]). *)
Variable SYSTEM_PROMPT : string.

(** [json.dumps(context_data)]: the plan, the research result and mode,
    the attached files, the retrieval context and the plan status, as
    text; an error when [json.dumps] raises. *)
Variable context_json : AgentState -> result string.

(** The levels of nesting that the interpreter leaves the decoder where
    [conversation_agent] calls [parse_json_output]. *)
Variable room : nat.

(** [conversation_llm.invoke]: the answer to a request, given the
    requests that the service received before. *)
Variable conversation_llm : list (list message) -> list message -> completion.

(** [apply_plan_update] inside [try]/[except Exception]: the plan as the
    call left it, and whether it returned [True]. *)
Definition try_update (p : AccountPlan) (update : value) : AccountPlan * bool :=
  match apply_plan_update new_section p update with
  | Returned p' changed => (p', changed)
  | Raised _ p' => (p', false)
  end.

(** "Inject Sources if available" *)
Definition inject_sources (st : AgentState) : result AgentState :=
  match research_result st with
  | Some rr =>
      if truthy (VDict rr) then
        let sources := get_or "sources" (VList []) rr in
        let stripped :=
          if Dict.mem "sources" rr then Dict.del "sources" rr else rr in
        match plan st with
        | Some p =>
            if truthy sources then
              match sources_content sources with
              | Ok entries =>
                  let source_update :=
                    VDict [("section", VStr "Research Sources");
                           ("content", VList entries);
                           ("mode", VStr "append")] in
                  Ok (set_research_result
                        (set_plan st (Some (fst (try_update p source_update))))
                        (Some stripped))
              | Err e => Err e
              end
            else Ok (set_research_result st (Some stripped))
        | None => Ok (set_research_result st (Some stripped))
        end
      else Ok st
  | None => Ok st
  end.

(** "Handle Plan Update" and "Handle Title Update" *)
Definition update_plan_and_title (st : AgentState) (d : directive)
  : AgentState :=
  match plan st with
  | Some p =>
      let '(p1, bumped1) :=
        if truthy (update_data d) then try_update p (update_data d)
        else (p, false) in
      let '(p2, bumped2) :=
        if truthy (d_set_plan_title d)
        then (set_plan_title p1 (d_set_plan_title d), true)
        else (p1, bumped1) in
      set_new_version_created (set_plan st (Some p2)) bumped2
  | None => set_new_version_created st false
  end.

(** Everything after the model output [text] has been parsed. *)
Definition finish_turn (st : AgentState) (text : string) (parsed : value)
    (requests : list (list message)) : agent_outcome :=
  match inject_sources st with
  | Ok st1 =>
      match resolve parsed text with
      | Ok d =>
          let st2 := set_last_action
                       (set_messages st1 (messages st1 ++ [AIMessage text])%list)
                       (action d) in
          Finished (handle_research_action (update_plan_and_title st2 d) d)
                   d requests
      | Err _ => Crashed requests
      end
  | Err _ => Crashed requests
  end.

(** ["total_tasks": len(research_plan) if research_plan else 0], which is
    computed before anything is sent. *)
Definition total_tasks (st : AgentState) : result nat :=
  match research_plan st with
  | Some tasks => if truthy tasks then py_len tasks else Ok O
  | None => Ok O
  end.

(** [llm_messages]: the instructions, the context and the conversation. *)
Definition first_request (st : AgentState) : result (list message) :=
  match total_tasks st with
  | Ok _ =>
      match context_json st with
      | Ok context =>
          Ok ([SystemMessage SYSTEM_PROMPT;
               SystemMessage ("Current plan & research (JSON): " ++ context)]
              ++ messages st)%list
      | Err e => Err e
      end
  | Err e => Err e
  end.

(** [retry_messages]: the same, the output that failed, the correction. *)
Definition retry_request (llm_messages : list message) (text : string)
  : list message :=
  (llm_messages ++ [AIMessage text; SystemMessage correction])%list.

(** [conversation_agent(state)], with the requests [log] that the
    completion service received before this call.  An exception of the
    first [parse_json_output] leaves the function; the retry sits in a
    [try]/[except Exception], which leaves [parsed] as it was when the
    second [parse_json_output] raises. *)
Definition conversation_agent (st : AgentState) (log : list (list message))
  : agent_outcome :=
  match messages st with
  | [] =>
      Greeted (set_new_version_created
                 (set_last_action
                    (set_research_needed
                       (set_messages st [AIMessage greeting]) false)
                    (VStr "NONE"))
                 false)
  | _ =>
      match first_request st with
      | Err _ => Crashed log
      | Ok llm_messages =>
          match conversation_llm log llm_messages with
          | Failure => Crashed (log ++ [llm_messages])%list
          | Answer text =>
              let log1 := (log ++ [llm_messages])%list in
              match parse_json_output room text with
              | Err _ => Crashed log1
              | Ok parsed =>
                  if negb (truthy parsed) then
                    let retry_messages := retry_request llm_messages text in
                    let log2 := (log1 ++ [retry_messages])%list in
                    match conversation_llm log1 retry_messages with
                    | Answer text2 =>
                        match parse_json_output room text2 with
                        | Ok parsed2 => finish_turn st text2 parsed2 log2
                        | Err _ => finish_turn st text2 parsed log2
                        end
                    | Failure => finish_turn st text parsed log2
                    end
                  else finish_turn st text parsed log1
              end
          end
      end
  end.

(** Modelled from the spec: the turn coordinator, whose code (the graph
    that [chat] runs, "conversation -> maybe research -> conversation") is
    not among the sources.  The coordinator "reads flags to decide whether
    to loop or return": the research execution service is "invoked
    externally when research needed is set", and after a research step the
    parser and the merge engine "are invoked again" within the same turn.
    [research] is the research step and [steps] bounds the research steps
    of the turn. *)
Fixpoint turn (research : AgentState -> AgentState) (steps : nat)
    (st : AgentState) (log : list (list message)) : agent_outcome :=
  match conversation_agent st log with
  | Finished st1 d requests =>
      match steps, research_needed st1 with
      | S steps', Some true => turn research steps' (research st1) requests
      | _, _ => Finished st1 d requests
      end
  | other => other
  end.

End Agent.

(* ================================================================== *)
(** * Readers of results, and sample data *)

Definition step_plan (r : step_result) : AccountPlan :=
  match r with
  | Next p _ => p
  | Abort _ p => p
  end.

Definition outcome_plan (o : outcome) : AccountPlan :=
  match o with
  | Returned p _ => p
  | Raised _ p => p
  end.

(** The requests that the completion service has received. *)
Definition requests_of (log : list (list message)) (o : agent_outcome)
  : list (list message) :=
  match o with
  | Finished _ _ requests => requests
  | Greeted _ => log
  | Crashed requests => requests
  end.

(** [p'] is [p] with other sections. *)
Definition only_sections (p p' : AccountPlan) : Prop :=
  p' = set_sections p (sections p').

(** A section constructor that accepts every content. *)
Definition accept_section (t : string) (c : value) : option PlanSection :=
  Some (mkSection t c).

(** A section constructor that accepts only text. *)
Definition text_section (t : string) (c : value) : option PlanSection :=
  match c with
  | VStr _ => Some (mkSection t c)
  | _ => None
  end.

Definition sample_plan : AccountPlan :=
  mkPlan "plan-1" "user-1" "" "" VNone "2025-01-01" "2025-01-01" 1
    [mkSection "Financials" (VDict [("Revenue", VStr "1 bn")]);
     mkSection "Competitors" (VStr "none yet")]
    [].

(** A command, written as the object that the model sends. *)
Definition command (section_path : string) (new_content : value) (mode : string)
  : value :=
  VDict [("section", VStr section_path);
         ("content", new_content);
         ("mode", VStr mode)].

(** How many sections carry the "Research Sources" title. *)
Definition count_research_sources (secs : list PlanSection) : nat :=
  List.length (filter is_research_sources secs).

(** ** The two places where the loop catches an exception *)

(** A command with a section path that the loop goes on with: its dict
    and its path. *)
Definition command_path (c : value) : option (dict * string) :=
  match c with
  | VDict item =>
      match get_or "section" VNone item with
      | VStr path => if str_truthy path then Some (item, path) else None
      | _ => None
      end
  | _ => None
  end.

(** [int(content)] raises what [except (ValueError, TypeError)] catches. *)
Definition index_is_malformed (v : value) : bool :=
  match PyInt.int_ v with
  | IntRaise ValueError | IntRaise TypeError => true
  | _ => false
  end.

(** The command moves an existing section and its index is malformed. *)
Definition malformed_move (p : AccountPlan) (c : value) : bool :=
  match command_path c with
  | Some (item, path) =>
      eq_str (get_or "mode" (VStr "replace") item) "move"
      && match find_section (sections p) path with
         | Some _ => true
         | None => false
         end
      && match path_target_key (PyStr.split "." path) with
         | Some _ => false
         | None => true
         end
      && index_is_malformed (unwrap (get_or "content" VNone item))
  | None => false
  end.

(** The command asks for a new section and the constructor raises. *)
Definition refused_creation (new_section : string -> value -> option PlanSection)
    (p : AccountPlan) (c : value) : bool :=
  match command_path c with
  | Some (item, path) =>
      negb (eq_str (get_or "mode" (VStr "replace") item) "delete")
      && match find_section (sections p) path with
         | Some _ => false
         | None => true
         end
      && match new_section (normalize (raw_title_of path))
                 (final_content (path_target_key (PyStr.split "." path))
                                (unwrap (get_or "content" VNone item))) with
         | Some _ => false
         | None => true
         end
  | None => false
  end.

(** The single transition that the state machine makes on a directive
    whose action is [a]. *)
Definition directive_with_action (a : string) : directive :=
  mkDirective (VStr "") (VStr a) (VStr "") (VStr "") VNone VNone VNone.

(** What one command may do to the flag and the plan: the flag never goes
    back to false, and while it is false the plan is as it was. *)
Definition quiet (p : AccountPlan) (ch : bool) (r : step_result) : Prop :=
  match r with
  | Next p' ch' => (ch = true -> ch' = true) /\ (ch' = false -> p' = p)
  | Abort _ _ => True
  end.

(** ** Decoding a text that has no opening brace *)

Definition not_dict (v : value) : Prop :=
  match v with
  | VDict _ => False
  | _ => True
  end.

Definition tok_ok (t : Json.token) : Prop :=
  match t with
  | Json.TLBrace => False
  | Json.TScalar v => not_dict v
  | _ => True
  end.

Definition mode_ok (m : Json.mode) : Prop :=
  match m with
  | Json.MLit _ v => not_dict v
  | _ => True
  end.

Definition frame_ok (f : Json.frame) : Prop :=
  match f with
  | Json.FArr _ => True
  | Json.FObj _ _ => False
  end.

Definition pstate_ok (p : Json.pstate) : Prop :=
  match p with
  | Json.PValue st | Json.PArrFirst st | Json.PArrNext _ st => Forall frame_ok st
  | Json.PDone v => not_dict v
  | _ => False
  end.

Definition step_ok (r : Json.step) : Prop :=
  Forall tok_ok (fst r)
  /\ match snd r with
     | Some m => mode_ok m
     | None => True
     end.

(** ** Sample sessions *)

(** A session in which the user has just asked something. *)
Definition sample_state : AgentState :=
  mkState [HumanMessage "Research Nike"] (Some sample_plan)
    None None None None None None None None (Some 0) None None None None.

(** A session in which one research step ran in this turn, as a
    single-shot research. *)
Definition paused_state : AgentState :=
  mkState [HumanMessage "Research Nike"] (Some sample_plan)
    None (Some (VList [VDict [("task", VStr "revenue")]])) (Some 0) None
    (Some "single") None (Some true) (Some false) (Some 1) None None None None.

(** A completion service that never answers in JSON. *)
Definition stubborn_llm (log : list (list message)) (request : list message)
  : completion :=
  match log with
  | [] => Answer "Sorry, here's your update: {bad json"
  | _ => Answer "As I said: {still bad"
  end.

(** A completion service that needs the correction twice in one turn:
    before it asks for a research, and again after the research. *)
Definition forgetful_llm (log : list (list message)) (request : list message)
  : completion :=
  match log with
  | [] => Answer "Sorry, here's your update: {bad json"
  | [_] =>
      Answer (Json.text "{'reply': 'Let me look that up.', 'control': {'action': 'CALL_RESEARCH', 'research_query': 'Nike revenue'}}")
  | [_; _] => Answer "Here is what I found: {bad json"
  | _ =>
      Answer (Json.text "{'reply': 'Revenue was 51 bn.', 'control': {'action': 'NONE'}}")
  end.

(** A research step: it stores a result and counts the step. *)
Definition sample_research (st : AgentState) : AgentState :=
  mkState (messages st) (plan st)
    (Some [("summary", VStr "Revenue was 51 bn.")])
    (research_plan st) (current_task_index st) (aggregated_findings st)
    (research_mode st) (research_plan_approved st) (Some false)
    (continue_after_pause st) (Some 1) (research_query st)
    (target_section st) (last_action st) (new_version_created st).

(** The context of these samples and the room of their decoder. *)
Definition sample_context (st : AgentState) : result string := Ok "{}".

Definition sample_room : nat := 900.

(** A reply that is itself a protocol object, inside a protocol object. *)
Definition nested_reply : string :=
  Json.text "{'reply': '{\'reply\': \'hi\'}', 'control': {'action': 'NONE'}}".

(** A plan whose "Research Sources" section is at the bottom. *)
Definition trailing_sources_plan : AccountPlan :=
  mkPlan "plan-3" "user-1" "" "" VNone "2025-01-01" "2025-01-01" 1
    [mkSection "Financials" (VStr "n/a");
     mkSection "Research Sources" (VList [])]
    [].

(** A plan with two sections of that title. *)
Definition doubled_sources_plan : AccountPlan :=
  mkPlan "plan-4" "user-1" "" "" VNone "2025-01-01" "2025-01-01" 1
    [mkSection "Research Sources" (VList []);
     mkSection "research sources" (VList []);
     mkSection "Financials" (VStr "n/a")]
    [].

(** A plan whose "Research Sources" section is not at the bottom. *)
Definition sourced_plan : AccountPlan :=
  mkPlan "plan-2" "user-1" "" "" VNone "2025-01-01" "2025-01-01" 1
    [mkSection "Research Sources" (VList []);
     mkSection "Financials" (VStr "n/a")]
    [].

(* ================================================================== *)
(** * Further definitions for the properties below *)

(** A title or key as the lookup compares it: lower case, underscores as
    spaces. *)
Definition fold_title (s : string) : string :=
  PyStr.replace_underscore (PyStr.lower s).

(** Two segments of a section path that the lookup does not tell apart. *)
Definition same_segment (a b : string) : Prop :=
  fold_title (PyStr.strip a) = fold_title (PyStr.strip b).

(** The place that a move to index [n] gives a section among [len]
    sections: negative indices count as 0, indices past the end as the
    last place. *)
Definition move_target (n : Z) (len : nat) : nat :=
  Z.to_nat (Z.min (Z.max 0 n) (Z.of_nat len - 1)).

(** Every section of [secs'] has the title of a section of [secs] or the
    title of a section that the constructor made. *)
Definition descends (new_section : string -> value -> option PlanSection)
    (secs secs' : list PlanSection) : Prop :=
  forall s', In s' secs' ->
             (exists s, In s secs /\ title s = title s')
             \/ (exists t c s, new_section t c = Some s /\ title s = title s').

(** A session in which a single-shot research has just come back with one
    source. *)
Definition researched_state : AgentState :=
  mkState [HumanMessage "Who leads Nike?"] (Some sample_plan)
    (Some [("summary", VStr "Elliott Hill is the chief executive.");
           ("sources",
            VList [VDict [("title", VStr "Annual report");
                          ("url", VStr "https://example.org/report")]])])
    None None None (Some "single") None (Some true) None (Some 1)
    (Some (VStr "Nike CEO")) None None None.

(** A completion service that answers in the protocol, without an update. *)
Definition polite_llm (log : list (list message)) (request : list message)
  : completion :=
  Answer (Json.text "{'reply': 'Noted.', 'control': {'action': 'NONE'}, 'update': null}").

(** A completion service that asks for a research. *)
Definition curious_llm (log : list (list message)) (request : list message)
  : completion :=
  Answer (Json.text "{'reply': 'Let me look that up.', 'control': {'action': 'CALL_RESEARCH', 'research_query': 'Nike revenue'}}").

(* ================================================================== *)
(** * What [chat] sends back ([main.py]) *)

(** [m.type] and [m.content] *)
Definition message_type (m : message) : string :=
  match m with
  | HumanMessage _ => "human"
  | AIMessage _ => "ai"
  | SystemMessage _ => "system"
  end.

Definition message_content (m : message) : string :=
  match m with
  | HumanMessage text | AIMessage text | SystemMessage text => text
  end.

(** The reply of the response: the cleaned content of the last assistant
    message, or an apology when there is none.  [room] is what the
    interpreter leaves the decoder where [chat] calls
    [get_clean_content]. *)
Definition chat_reply (room : nat) (new_state : AgentState) : value :=
  let last_ai :=
    filter (fun m => String.eqb (message_type m) "ai") (messages new_state) in
  match last_ai with
  | [] => VStr "I'm sorry, I couldn't generate a response."
  | m :: rest =>
      get_clean_content room (VStr (message_content (List.last rest m)))
  end.

(** "Prepare messages for frontend (clean JSON from AI messages)"; the same
    loop makes the answer of [get_history]. *)
Definition frontend_message (room : nat) (m : message) : value :=
  let content := VStr (message_content m) in
  let content :=
    if String.eqb (message_type m) "ai" then get_clean_content room content
    else content in
  VDict [("role", VStr (message_type m)); ("content", content)].

Definition frontend_messages (room : nat) (messages : list message)
  : list value :=
  map (frontend_message room) messages.

(** The entries of a message list for the frontend that the assistant
    wrote, and what they show. *)
Definition assistant_entry (entry : value) : bool :=
  match entry with
  | VDict d => eq_str (get_or "role" VNone d) "ai"
  | _ => false
  end.

Definition entry_content (entry : value) : value :=
  match entry with
  | VDict d => get_or "content" VNone d
  | _ => VNone
  end.

(* ================================================================== *)
(** * The chunks of a document ([rag.py])

    [RAGSystem.add_document] cuts the text into pieces before it hands them
    to the vector store.  A text is a sequence of characters of any type
    [A]; [len] and slicing are those of the sequence. *)

Module Rag.

Definition chunk_size : nat := 1000.
Definition overlap : nat := 100.

Section Chunking.

Variable A : Type.

(** [text[start:stop]] for [0 <= start]. *)
Definition slice (start stop : nat) (text : list A) : list A :=
  firstn (stop - start) (skipn start text).

(** The [while start < len(text)] loop; [fuel] bounds the number of
    rounds, [None] says that it was not enough. *)
Fixpoint chunk_loop (fuel : nat) (text : list A) (chunks : list (list A))
    (start : nat) : option (list (list A)) :=
  if (start <? List.length text)%nat then
    match fuel with
    | O => None
    | S fuel' =>
        let stop := (start + chunk_size)%nat in
        let chunk := slice start stop text in
        chunk_loop fuel' text (chunks ++ [chunk])%list
                   (start + (chunk_size - overlap))%nat
    end
  else Some chunks.

(** The chunks that [add_document] stores for [text]: every round moves
    [start] forward, so [len(text)] rounds are enough. *)
Definition add_document_chunks (text : list A) : option (list (list A)) :=
  chunk_loop (List.length text) text [] 0%nat.

End Chunking.

Arguments slice {A} start stop text.
Arguments chunk_loop {A} fuel text chunks start.
Arguments add_document_chunks {A} text.

End Rag.

(* ================================================================== *)
(** * Properties of the merge engine *)

Ltac break_match :=
  match goal with
  | |- context [match ?x with _ => _ end] => destruct x eqn:?
  | |- context [if ?x then _ else _] => destruct x eqn:?
  end.

Ltac unfold_step :=
  unfold apply_update_item, update_found, update_missing, delete_found,
    move_found, write_key.

Lemma only_sections_refl (p : AccountPlan) : only_sections p p.
Proof. destruct p; reflexivity. Qed.

Lemma only_sections_set (p : AccountPlan) (s : list PlanSection) :
  only_sections p (set_sections p s).
Proof. destruct p; reflexivity. Qed.

Lemma only_sections_trans (p q r : AccountPlan) :
  only_sections p q -> only_sections q r -> only_sections p r.
Proof.
  unfold only_sections; intros Hq Hr.
  rewrite Hr, Hq. destruct p; reflexivity.
Qed.

Create HintDb merge.
#[local] Hint Resolve only_sections_refl only_sections_set : merge.

Section MergeProperties.

Variable new_section : string -> value -> option PlanSection.

(** One command touches nothing but the sections, however it ends. *)
Lemma apply_update_item_frame (p : AccountPlan) (ch : bool) (c : value) :
  only_sections p (step_plan (apply_update_item new_section p ch c)).
Proof.
  unfold_step.
  repeat (break_match; simpl); auto with merge.
Qed.

Lemma apply_updates_frame (cs : list value) :
  forall (p : AccountPlan) (ch : bool),
    only_sections p (step_plan (apply_updates new_section p ch cs)).
Proof.
  induction cs as [|c cs IH]; intros p ch; simpl.
  - apply only_sections_refl.
  - pose proof (apply_update_item_frame p ch c) as Hc.
    destruct (apply_update_item new_section p ch c) as [p1 ch1|e p1]; simpl in *.
    + eapply only_sections_trans; [exact Hc | apply IH].
    + exact Hc.
Qed.

(** The version and the scalar fields are out of the engine's reach. *)
Lemma apply_plan_update_version (plan : AccountPlan) (update : value) :
  version (outcome_plan (apply_plan_update new_section plan update))
  = version plan.
Proof.
  unfold apply_plan_update.
  destruct (truthy update); simpl; [|reflexivity].
  match goal with
  | |- context [apply_updates new_section ?p ?b ?l] =>
      pose proof (apply_updates_frame l p b) as H;
      destruct (apply_updates new_section p b l) as [p2 ch2|e p2]
  end; simpl in *; unfold only_sections in H.
  - destruct ch2; rewrite H; reflexivity.
  - rewrite H; reflexivity.
Qed.

Lemma apply_update_item_quiet (p : AccountPlan) (ch : bool) (c : value) :
  quiet p ch (apply_update_item new_section p ch c).
Proof.
  unfold_step.
  repeat (break_match; simpl); auto; split; auto; discriminate.
Qed.

Lemma apply_updates_quiet (cs : list value) :
  forall (p : AccountPlan) (ch : bool),
    quiet p ch (apply_updates new_section p ch cs).
Proof.
  induction cs as [|c cs IH]; intros p ch; simpl.
  - auto.
  - pose proof (apply_update_item_quiet p ch c) as Hc.
    destruct (apply_update_item new_section p ch c) as [p1 ch1|e p1];
      simpl in *; auto.
    specialize (IH p1 ch1).
    destruct (apply_updates new_section p1 ch1 cs) as [p2 ch2|e p2];
      simpl in *; auto.
    destruct Hc as [Hc1 Hc2], IH as [I1 I2]; split; auto.
    intros H2. destruct ch1; [specialize (I1 eq_refl); congruence|].
    rewrite (I2 H2). auto.
Qed.

(** The loop over a list in two parts. *)
Lemma apply_updates_app (pre post : list value) :
  forall (p : AccountPlan) (ch : bool),
    apply_updates new_section p ch (pre ++ post)
    = match apply_updates new_section p ch pre with
      | Next p1 ch1 => apply_updates new_section p1 ch1 post
      | Abort e p1 => Abort e p1
      end.
Proof.
  induction pre as [|c pre IH]; intros p ch; simpl.
  - reflexivity.
  - destruct (apply_update_item new_section p ch c); auto.
Qed.

(** C1 (the sibling path).  [update_plan] does raise the version with
    every plan that it stores. *)
Lemma update_plan_version_increases (current data : AccountPlan) (now : string) :
  version current < version (update_plan current data now).
Proof.
  unfold update_plan. simpl.
  destruct (version data <=? version current) eqn:E; simpl.
  - lia.
  - apply Z.leb_gt in E. exact E.
Qed.


(** C4, as amended.  For an [update_data] that is not empty (one
    command, or a list with at least one command), the call appends
    exactly one entry to [plan.history], the dump of the plan as it was
    before any command ran, whether the commands change anything, change
    nothing or raise. *)
Theorem snapshot_on_attempt (plan : AccountPlan) (update : value) :
  truthy update = true ->
  history (outcome_plan (apply_plan_update new_section plan update))
  = (history plan ++ [model_dump plan])%list.
Proof.
  intros Ht. unfold apply_plan_update. rewrite Ht; simpl.
  match goal with
  | |- context [apply_updates new_section ?p ?b ?l] =>
      pose proof (apply_updates_frame l p b) as H;
      destruct (apply_updates new_section p b l) as [p2 ch2|e p2]
  end; simpl in *; unfold only_sections in H.
  - destruct ch2; rewrite H; reflexivity.
  - rewrite H; reflexivity.
Qed.

(** C10.  A command whose section path is missing or empty is skipped:
    it leaves the plan and the change flag as they are, wherever it
    stands in the list; and a call with such a command alone returns
    [False] with the sections untouched, although the snapshot of the
    call is in the history by then. *)
Theorem command_without_section_is_skipped
    (plan : AccountPlan) (ch : bool) (item : dict) :
  Dict.get "section" item = None \/ Dict.get "section" item = Some (VStr "") ->
  apply_update_item new_section plan ch (VDict item) = Next plan ch
  /\ (forall pre post,
        apply_updates new_section plan ch (pre ++ VDict item :: post)
        = apply_updates new_section plan ch (pre ++ post))
  /\ (item <> [] ->
      apply_plan_update new_section plan (VDict item)
      = Returned (set_history plan (history plan ++ [model_dump plan])%list)
                 false).
Proof.
  intros Hs.
  assert (Hstep : forall p c,
            apply_update_item new_section p c (VDict item) = Next p c).
  { intros p c. unfold apply_update_item, get_or.
    destruct Hs as [-> | ->]; reflexivity. }
  split; [apply Hstep|split].
  - intros pre post. rewrite !apply_updates_app.
    destruct (apply_updates new_section plan ch pre); [|reflexivity].
    cbn [apply_updates]. rewrite Hstep. reflexivity.
  - intros Hne. unfold apply_plan_update.
    assert (Ht : truthy (VDict item) = true)
      by (destruct item; [congruence|reflexivity]).
    rewrite Ht. cbv zeta. cbn [negb apply_updates].
    rewrite Hstep. reflexivity.
Qed.

(** ** Caught exceptions *)

Lemma index_where_some {A : Type} (f : A -> bool) (l : list A) :
  forall i, PyList.index_where f l = Some i ->
            exists x, nth_error l i = Some x /\ f x = true.
Proof.
  induction l as [|y l IH]; simpl; intros i H; [discriminate|].
  destruct (f y) eqn:E.
  - inversion H; subst. exists y; auto.
  - destruct (PyList.index_where f l) as [j|]; [|discriminate].
    inversion H; subst. simpl. apply IH. reflexivity.
Qed.

Lemma index_where_none {A : Type} (f : A -> bool) (l : list A) :
  PyList.index_where f l = None -> forall x, In x l -> f x = false.
Proof.
  induction l as [|y l IH]; simpl; intros H x Hx; [contradiction|].
  destruct (f y) eqn:E; [discriminate|].
  destruct (PyList.index_where f l); [discriminate|].
  destruct Hx as [<-|Hx]; auto.
Qed.

Lemma command_path_some (c : value) (item : dict) (path : string) :
  command_path c = Some (item, path) ->
  c = VDict item
  /\ get_or "section" VNone item = VStr path
  /\ str_truthy path = true.
Proof.
  unfold command_path. destruct c as [| | | | |l|d]; try discriminate.
  destruct (get_or "section" VNone d) as [| | | |s| |] eqn:E; try discriminate.
  destruct (str_truthy s) eqn:T; try discriminate.
  intros H; inversion H; subst. auto.
Qed.

Lemma malformed_move_skipped (p : AccountPlan) (ch : bool) (c : value) :
  malformed_move p c = true ->
  apply_update_item new_section p ch c = Next p ch.
Proof.
  unfold malformed_move.
  destruct (command_path c) as [[item path]|] eqn:Hc; [|discriminate].
  apply command_path_some in Hc. destruct Hc as (-> & Hs & Ht).
  intros H. repeat (apply andb_prop in H; destruct H as [H ?]).
  unfold apply_update_item. rewrite Hs.
  unfold truthy. unfold str_truthy in Ht. rewrite Ht. cbn [negb].
  destruct (find_section (sections p) path) as [idx|] eqn:Hf; [|discriminate].
  unfold find_section in Hf.
  destruct (index_where_some _ _ _ Hf) as (ex & Hn & _). rewrite Hn.
  destruct (path_target_key (PyStr.split "." path)); [discriminate|].
  unfold update_found.
  destruct (eq_str (get_or "mode" (VStr "replace") item) "delete") eqn:Hd.
  { destruct (get_or "mode" (VStr "replace") item); try discriminate.
    simpl in H, Hd. apply String.eqb_eq in H, Hd. congruence. }
  rewrite H. unfold move_found. unfold index_is_malformed in *.
  destruct (PyInt.int_ (unwrap (get_or "content" VNone item))) as [n|[]];
    try discriminate; reflexivity.
Qed.

Lemma refused_creation_skipped (p : AccountPlan) (ch : bool) (c : value) :
  refused_creation new_section p c = true ->
  apply_update_item new_section p ch c = Next p ch.
Proof.
  unfold refused_creation.
  destruct (command_path c) as [[item path]|] eqn:Hc; [|discriminate].
  apply command_path_some in Hc. destruct Hc as (-> & Hs & Ht).
  intros H. repeat (apply andb_prop in H; destruct H as [H ?]).
  unfold apply_update_item. rewrite Hs.
  unfold truthy. unfold str_truthy in Ht. rewrite Ht. cbn [negb].
  destruct (find_section (sections p) path) as [idx|] eqn:Hf; [discriminate|].
  unfold update_missing. apply negb_true_iff in H. rewrite H.
  match goal with
  | |- context [new_section ?a ?b] => destruct (new_section a b)
  end; try discriminate; reflexivity.
Qed.


(** ** Moving a section *)

Lemma pop_head {A : Type} (l : list A) (x : A) :
  nth_error l 0 = Some x -> l = x :: PyList.pop 0 l.
Proof. destruct l; simpl; intros H; inversion H; reflexivity. Qed.

(** The command of C9 as the loop carries it out. *)
Lemma negative_move_step
    (plan : AccountPlan) (ch : bool) (item : dict) (path : string)
    (idx : nat) (n : Z) :
  Dict.get "mode" item = Some (VStr "move") ->
  Dict.get "section" item = Some (VStr path) ->
  path <> "" ->
  path_target_key (PyStr.split "." path) = None ->
  find_section (sections plan) path = Some idx ->
  PyInt.int_ (unwrap (get_or "content" VNone item)) = IntOk n ->
  n < 0 ->
  exists existing p' ch',
    nth_error (sections plan) idx = Some existing
    /\ apply_update_item new_section plan ch (VDict item) = Next p' ch'
    /\ sections p' = existing :: PyList.pop idx (sections plan)
    /\ (idx <> 0%nat -> ch' = true).
Proof.
  intros Hm Hs Hne Hk Hf Hi Hn.
  pose proof Hf as Hf'. unfold find_section in Hf'.
  destruct (index_where_some _ _ _ Hf') as (existing & Hnth & _).
  exists existing.
  unfold apply_update_item, get_or. rewrite Hs, Hm.
  assert (Ht : truthy (VStr path) = true).
  { simpl. destruct (String.eqb path "") eqn:E;
      [apply String.eqb_eq in E; contradiction|reflexivity]. }
  rewrite Ht. cbn [negb]. rewrite Hf, Hnth, Hk.
  unfold update_found. cbn [eq_str].
  replace (String.eqb "move" "delete") with false by reflexivity.
  replace (String.eqb "move" "move") with true by reflexivity.
  unfold move_found.
  assert (Hi' : PyInt.int_
                  (unwrap match Dict.get "content" item with
                          | Some v => v
                          | None => VNone
                          end) = IntOk n) by exact Hi.
  rewrite Hi'. replace (Z.max 0 n) with 0 by lia.
  destruct idx as [|j].
  - simpl. do 2 eexists.
    split; [reflexivity|]. split; [reflexivity|]. split; [|congruence].
    apply pop_head; assumption.
  - replace (Z.of_nat (S j) =? 0) with false
      by (symmetry; apply Z.eqb_neq; lia).
    do 2 eexists.
    split; [reflexivity|]. split; [reflexivity|]. split; [|reflexivity].
    destruct (PyList.pop (S j) (sections plan)) as [|y r]; reflexivity.
Qed.

(** The relocation at the end of a call leaves a first section alone
    that is not titled "Research Sources". *)
Lemma relocate_cons (x : PlanSection) (rest : list PlanSection) :
  is_research_sources x = false ->
  relocate_research_sources (x :: rest)
  = x :: relocate_research_sources rest.
Proof.
  intros Hx. unfold relocate_research_sources. simpl PyList.index_where.
  rewrite Hx.
  destruct (PyList.index_where is_research_sources rest) as [i|];
    [|reflexivity].
  replace (Z.of_nat (S i) <? Z.of_nat (List.length (x :: rest)) - 1)
    with (Z.of_nat i <? Z.of_nat (List.length rest) - 1)
    by (cbn [List.length];
        destruct (Z.of_nat i <? Z.of_nat (List.length rest) - 1) eqn:E;
        symmetry; [apply Z.ltb_lt; apply Z.ltb_lt in E
                  |apply Z.ltb_ge; apply Z.ltb_ge in E]; lia).
  destruct (Z.of_nat i <? Z.of_nat (List.length rest) - 1); [|reflexivity].
  cbn [nth_error]. destruct (nth_error rest i); reflexivity.
Qed.

(** C9, as amended.  A move command whose path has no sub-key, which
    addresses an existing section and whose content [int()] turns into a
    negative number, is carried out with index 0: after the command the
    section is the first of the sequence and the others follow in their
    order.  When the call ends it is still the first, unless it is the
    section titled "Research Sources", which every call that changed
    something sends to the bottom. *)
Theorem move_to_negative_index_goes_first
    (plan : AccountPlan) (ch : bool) (item : dict) (path : string)
    (idx : nat) (n : Z) :
  Dict.get "mode" item = Some (VStr "move") ->
  Dict.get "section" item = Some (VStr path) ->
  path <> "" ->
  path_target_key (PyStr.split "." path) = None ->
  find_section (sections plan) path = Some idx ->
  PyInt.int_ (unwrap (get_or "content" VNone item)) = IntOk n ->
  n < 0 ->
  exists existing p' ch',
    nth_error (sections plan) idx = Some existing
    /\ apply_update_item new_section plan ch (VDict item) = Next p' ch'
    /\ sections p' = existing :: PyList.pop idx (sections plan)
    /\ (idx <> 0%nat -> ch' = true)
    /\ (is_research_sources existing = false ->
        exists p'' ch'' rest,
          apply_plan_update new_section plan (VDict item) = Returned p'' ch''
          /\ sections p'' = existing :: rest
          /\ (rest = PyList.pop idx (sections plan)
              \/ rest = relocate_research_sources
                          (PyList.pop idx (sections plan)))).
Proof.
  intros Hm Hs Hne Hk Hf Hi Hn.
  destruct (negative_move_step plan ch item path idx n Hm Hs Hne Hk Hf Hi Hn)
    as (existing & p' & ch' & Hnth & Hstep & Hsecs & Hch).
  exists existing, p', ch'. repeat (split; [assumption|]).
  intros Hrs.
  set (plan1 := set_history plan (history plan ++ [model_dump plan])%list).
  destruct (negative_move_step plan1 false item path idx n Hm Hs Hne Hk Hf Hi Hn)
    as (existing1 & p1 & c1 & Hnth1 & Hstep1 & Hsecs1 & _).
  assert (existing1 = existing) by (simpl in Hnth1; congruence). subst existing1.
  unfold apply_plan_update.
  assert (Ht : truthy (VDict item) = true)
    by (destruct item; [discriminate Hm|reflexivity]).
  rewrite Ht. cbn [negb]. fold plan1. cbn [apply_updates]. rewrite Hstep1.
  destruct c1.
  - do 3 eexists. split; [reflexivity|]. simpl sections.
    rewrite Hsecs1, (relocate_cons _ _ Hrs). simpl sections.
    split; [reflexivity|]. right. reflexivity.
  - do 3 eexists. split; [reflexivity|]. rewrite Hsecs1. simpl sections.
    split; [reflexivity|]. left. reflexivity.
Qed.

(** ** "Research Sources" at the bottom *)

Lemma relocate_last (secs : list PlanSection) (s : PlanSection) :
  In s (relocate_research_sources secs) ->
  is_research_sources s = true ->
  exists front l,
    relocate_research_sources secs = (front ++ [l])%list
    /\ is_research_sources l = true.
Proof.
  unfold relocate_research_sources.
  destruct (PyList.index_where is_research_sources secs) as [i|] eqn:Hi.
  - destruct (index_where_some _ _ _ Hi) as (x & Hx & Hrs).
    rewrite Hx.
    destruct (Z.of_nat i <? Z.of_nat (List.length secs) - 1) eqn:Hlt.
    + intros _ _. exists (PyList.pop i secs), x. auto.
    + intros _ _. apply Z.ltb_ge in Hlt.
      assert (Hlen : (i < List.length secs)%nat)
        by (apply nth_error_Some; congruence).
      assert (Hi' : i = (List.length secs - 1)%nat) by lia.
      destruct (exists_last (l:=secs)) as (front & l & ->).
      { intros ->. simpl in Hlen. lia. }
      exists front, l. split; [reflexivity|].
      rewrite length_app in Hi'. simpl in Hi'.
      rewrite nth_error_app2 in Hx by lia.
      replace (i - List.length front)%nat with 0%nat in Hx by lia.
      simpl in Hx. congruence.
  - intros Hin Hrs. rewrite (index_where_none _ _ Hi s Hin) in Hrs.
    discriminate.
Qed.

Lemma filter_nil_nth {A : Type} (f : A -> bool) (l : list A) (i : nat) (x : A) :
  filter f l = [] -> nth_error l i = Some x -> f x = false.
Proof.
  intros Hf Hn. apply nth_error_In in Hn.
  destruct (f x) eqn:E; [|reflexivity].
  assert (Hin : In x (filter f l)) by (apply filter_In; auto).
  rewrite Hf in Hin. contradiction.
Qed.

End MergeProperties.

(** C1.  A call that reports a change returns the plan with the version it
    had: here one section is replaced, [True] is returned, the sections
    differ, and the version is still 1. *)
Theorem merge_commit_keeps_version :
  exists p',
    apply_plan_update accept_section sample_plan
      (command "Competitors" (VStr "Acme, Globex") "replace")
    = Returned p' true
    /\ sections p' <> sections sample_plan
    /\ version p' = version sample_plan
    /\ List.length (history p') = 1%nat.
Proof.
  eexists. split; [vm_compute; reflexivity|].
  split; [|split; reflexivity].
  vm_compute. intros H. discriminate H.
Qed.



(** C4, the claim as stated fails: an empty list of commands stops at the
    guard, and the history gets no entry. *)
Lemma empty_list_takes_no_snapshot :
  history (outcome_plan (apply_plan_update accept_section sample_plan (VList [])))
  <> (history sample_plan ++ [model_dump sample_plan])%list.
Proof. vm_compute. intros H. discriminate H. Qed.

Lemma snapshot_on_attempt_witness :
  history (outcome_plan
             (apply_plan_update accept_section sample_plan
                (command "Pricing" VNone "delete")))
  = (history sample_plan ++ [model_dump sample_plan])%list.
Proof.
  apply (snapshot_on_attempt accept_section sample_plan
           (command "Pricing" VNone "delete")).
  reflexivity.
Defined.

Lemma command_without_section_is_skipped_witness :
  apply_plan_update accept_section sample_plan
    (VDict [("content", VStr "text"); ("mode", VStr "replace")])
  = Returned (set_history sample_plan [model_dump sample_plan]) false.
Proof.
  apply (command_without_section_is_skipped accept_section sample_plan false
           [("content", VStr "text"); ("mode", VStr "replace")]).
  - left. reflexivity.
  - discriminate.
Defined.



(** C9 at work: "Competitors" is the second section; moved to index -3 it
    becomes the first, and it is the first when the call ends. *)
Lemma move_to_negative_index_goes_first_witness :
  exists p'' ch'',
    apply_plan_update accept_section sample_plan
      (VDict [("section", VStr "competitors");
              ("content", VStr " -3 ");
              ("mode", VStr "move")])
    = Returned p'' ch''
    /\ nth_error (sections p'') 0
       = Some (mkSection "Competitors" (VStr "none yet")).
Proof.
  destruct (move_to_negative_index_goes_first accept_section sample_plan false
              [("section", VStr "competitors");
               ("content", VStr " -3 ");
               ("mode", VStr "move")]
              "competitors" 1%nat (-3))
    as (existing & p' & ch' & Hnth & _ & _ & _ & Hcall).
  - reflexivity.
  - reflexivity.
  - discriminate.
  - reflexivity.
  - vm_compute. reflexivity.
  - vm_compute. reflexivity.
  - lia.
  - injection Hnth as <-.
    destruct (Hcall eq_refl) as (p'' & ch'' & rest & H1 & H2 & _).
    exists p'', ch''. split; [exact H1|]. rewrite H2. reflexivity.
Defined.

(** C9, the claim as stated fails.  With a sub-key in the path the move
    block does nothing: "Competitors" stays the second section.  And
    "Research Sources", moved to the top, is back at the bottom when the
    call ends. *)
Lemma negative_move_not_first :
  (exists p',
     apply_plan_update accept_section sample_plan
       (command "competitors.notes" (VInt (-1)) "move")
     = Returned p' false
     /\ sections p' = sections sample_plan)
  /\ (exists p',
        apply_plan_update accept_section trailing_sources_plan
          (command "research sources" (VInt (-1)) "move")
        = Returned p' true
        /\ sections p' = sections trailing_sources_plan).
Proof. split; eexists; split; vm_compute; reflexivity. Qed.

(** ** Titles and paths: letter case, underscores and white space *)

Ltac all_chars c := destruct c as [[] [] [] [] [] [] [] []]; reflexivity.

Lemma lower_char_idem c : PyStr.lower_char (PyStr.lower_char c) = PyStr.lower_char c.
Proof. all_chars c. Qed.
Lemma lower_upper_char c : PyStr.lower_char (PyStr.upper_char c) = PyStr.lower_char c.
Proof. all_chars c. Qed.
Lemma upper_lower_char c : PyStr.upper_char (PyStr.lower_char c) = PyStr.upper_char c.
Proof. all_chars c. Qed.
Lemma cased_lower_char c : PyStr.is_cased (PyStr.lower_char c) = PyStr.is_cased c.
Proof. all_chars c. Qed.
Lemma space_lower_char c : PyStr.is_space (PyStr.lower_char c) = PyStr.is_space c.
Proof. all_chars c. Qed.
Lemma dot_lower_char c : Ascii.eqb (PyStr.lower_char c) "." = Ascii.eqb c ".".
Proof. all_chars c. Qed.
Lemma underscore_lower_char c :
  (if Ascii.eqb (PyStr.lower_char c) "_" then " "%char else PyStr.lower_char c)
  = PyStr.lower_char (if Ascii.eqb c "_" then " "%char else c).
Proof. all_chars c. Qed.
Lemma cased_fold_char c :
  PyStr.is_cased (if Ascii.eqb c "_" then " "%char else c) = PyStr.is_cased c.
Proof. all_chars c. Qed.

Lemma lower_idem s : PyStr.lower (PyStr.lower s) = PyStr.lower s.
Proof. induction s; simpl; [|rewrite lower_char_idem, IHs]; reflexivity. Qed.

Lemma lower_title_from s : forall b, PyStr.lower (PyStr.title_from b s) = PyStr.lower s.
Proof.
  induction s as [|c s IH]; intros b; simpl; [reflexivity|].
  rewrite IH. destruct b; [rewrite lower_char_idem|rewrite lower_upper_char]; reflexivity.
Qed.

Lemma title_from_lower s : forall b, PyStr.title_from b (PyStr.lower s) = PyStr.title_from b s.
Proof.
  induction s as [|c s IH]; intros b; simpl; [reflexivity|].
  rewrite cased_lower_char, IH.
  destruct b; [rewrite lower_char_idem|rewrite upper_lower_char]; reflexivity.
Qed.

Lemma lower_replace s :
  PyStr.lower (PyStr.replace_underscore s) = PyStr.replace_underscore (PyStr.lower s).
Proof.
  induction s as [|c s IH]; simpl; [reflexivity|].
  rewrite IH, underscore_lower_char. reflexivity.
Qed.

Lemma lower_lstrip s : PyStr.lower (PyStr.lstrip s) = PyStr.lstrip (PyStr.lower s).
Proof.
  induction s as [|c s IH]; simpl; [reflexivity|].
  rewrite space_lower_char. destruct (PyStr.is_space c); [exact IH|reflexivity].
Qed.

Lemma lower_rstrip s : PyStr.lower (PyStr.rstrip s) = PyStr.rstrip (PyStr.lower s).
Proof.
  induction s as [|c s IH]; simpl; [reflexivity|].
  rewrite <- IH, space_lower_char.
  destruct (PyStr.rstrip s); simpl; [destruct (PyStr.is_space c)|]; reflexivity.
Qed.

Lemma lower_strip s : PyStr.lower (PyStr.strip s) = PyStr.strip (PyStr.lower s).
Proof. unfold PyStr.strip. rewrite lower_rstrip, lower_lstrip. reflexivity. Qed.

(** normalize depends on the folded title only *)
Lemma normalize_fold s : normalize s = PyStr.title (fold_title s).
Proof.
  unfold normalize, fold_title, PyStr.title.
  rewrite <- lower_replace, title_from_lower. reflexivity.
Qed.

Lemma lower_normalize s : PyStr.lower (normalize s) = fold_title s.
Proof.
  unfold normalize, PyStr.title, fold_title. rewrite lower_title_from, lower_replace. reflexivity.
Qed.

Lemma replace_idem s :
  PyStr.replace_underscore (PyStr.replace_underscore s) = PyStr.replace_underscore s.
Proof.
  induction s as [|c s IH]; simpl; [reflexivity|]. rewrite IH. f_equal.
  destruct (Ascii.eqb c "_") eqn:E; [reflexivity|]. rewrite E. reflexivity.
Qed.

Lemma section_matches_fold raw s :
  section_matches raw (normalize raw) s
  = String.eqb (fold_title (PyStr.strip (title s))) (fold_title raw).
Proof.
  unfold section_matches. rewrite lower_normalize. unfold fold_title.
  destruct (String.eqb (PyStr.lower (PyStr.strip (title s))) (PyStr.lower raw)) eqn:E.
  - apply String.eqb_eq in E. rewrite E, String.eqb_refl. reflexivity.
  - rewrite orb_false_r. reflexivity.
Qed.

Lemma index_where_ext {A} (f g : A -> bool) l :
  (forall x, f x = g x) -> PyList.index_where f l = PyList.index_where g l.
Proof.
  intros H. induction l as [|x l IH]; simpl; [reflexivity|]. rewrite H, IH. reflexivity.
Qed.

Lemma find_section_fold secs p1 p2 :
  fold_title (raw_title_of p1) = fold_title (raw_title_of p2) ->
  find_section secs p1 = find_section secs p2.
Proof.
  intros H. unfold find_section. apply index_where_ext. intros s.
  rewrite !section_matches_fold, H. reflexivity.
Qed.

Lemma fold_length s : String.length (fold_title s) = String.length s.
Proof. unfold fold_title. induction s; simpl; auto. Qed.

Lemma fold_truthy a b : fold_title a = fold_title b -> str_truthy a = str_truthy b.
Proof.
  intros H. apply (f_equal String.length) in H. rewrite !fold_length in H.
  unfold str_truthy. destruct a, b; simpl in *; try discriminate; reflexivity.
Qed.

Lemma replace_without_space y : forall z,
  PyStr.replace_underscore y = z -> PyStr.contains " " z = false -> y = z.
Proof.
  induction y as [|c y IH]; intros z H Hz; simpl in H; subst z; [reflexivity|].
  simpl in Hz. apply orb_false_iff in Hz. destruct Hz as [Hc Hz].
  destruct (Ascii.eqb c "_") eqn:E; [discriminate|].
  f_equal. apply IH; auto.
Qed.

Lemma fold_content a b :
  fold_title a = fold_title b ->
  String.eqb (PyStr.lower a) "content" = String.eqb (PyStr.lower b) "content".
Proof.
  unfold fold_title. intros H.
  destruct (String.eqb (PyStr.lower a) "content") eqn:Ea;
    destruct (String.eqb (PyStr.lower b) "content") eqn:Eb; try reflexivity.
  - apply String.eqb_eq in Ea. rewrite Ea in H. simpl in H. symmetry in H.
    apply replace_without_space in H; [|reflexivity].
    rewrite H in Eb. discriminate.
  - apply String.eqb_eq in Eb. rewrite Eb in H. simpl in H.
    apply replace_without_space in H; [|reflexivity].
    rewrite H in Ea. discriminate.
Qed.

Lemma fold_normalize a b : fold_title a = fold_title b -> normalize a = normalize b.
Proof. intros H. rewrite !normalize_fold, H. reflexivity. Qed.

Lemma path_target_key_insensitive parts1 parts2 :
  Forall2 same_segment parts1 parts2 ->
  path_target_key parts1 = path_target_key parts2.
Proof.
  intros H. destruct H as [|a b r1 r2 _ H]; [reflexivity|].
  destruct H as [|k1 k2 m1 m2 Hk H]; [reflexivity|].
  unfold path_target_key. unfold same_segment in Hk.
  rewrite (fold_content _ _ Hk).
  destruct H as [|x1 x2 n1 n2 Hx _].
  - rewrite (fold_truthy _ _ Hk), (fold_normalize _ _ Hk). reflexivity.
  - unfold same_segment in Hx.
    destruct (String.eqb (PyStr.lower (PyStr.strip k2)) "content").
    + rewrite (fold_truthy _ _ Hx), (fold_normalize _ _ Hx). reflexivity.
    + rewrite (fold_truthy _ _ Hk), (fold_normalize _ _ Hk). reflexivity.
Qed.

Lemma raw_title_insensitive p1 p2 :
  Forall2 same_segment (PyStr.split "." p1) (PyStr.split "." p2) ->
  fold_title (raw_title_of p1) = fold_title (raw_title_of p2).
Proof.
  unfold raw_title_of. intros H.
  destruct H as [|a b r1 r2 Hab _]; [reflexivity|exact Hab].
Qed.

(** ** "Research Sources" at the bottom *)

Lemma count_app (l r : list PlanSection) :
  count_research_sources (l ++ r)
  = (count_research_sources l + count_research_sources r)%nat.
Proof.
  unfold count_research_sources. rewrite filter_app, length_app. reflexivity.
Qed.

Lemma count_cons (x : PlanSection) (l : list PlanSection) :
  count_research_sources (x :: l)
  = ((if is_research_sources x then 1 else 0) + count_research_sources l)%nat.
Proof.
  unfold count_research_sources. simpl.
  destruct (is_research_sources x); reflexivity.
Qed.

Lemma count_pop (l : list PlanSection) : forall i x,
  nth_error l i = Some x ->
  (count_research_sources (PyList.pop i l)
   + (if is_research_sources x then 1 else 0))%nat
  = count_research_sources l.
Proof.
  induction l as [|y l IH]; intros [|i] x H; simpl in H; try discriminate.
  - injection H as ->. simpl PyList.pop. rewrite count_cons. lia.
  - simpl PyList.pop. rewrite !count_cons.
    pose proof (IH i x H). lia.
Qed.

Lemma count_insert (x : PlanSection) (l : list PlanSection) : forall i,
  count_research_sources (PyList.insert i x l)
  = (count_research_sources l + (if is_research_sources x then 1 else 0))%nat.
Proof.
  induction l as [|y l IH]; intros [|i]; simpl PyList.insert;
    rewrite ?count_cons; try (unfold count_research_sources; simpl; lia).
  rewrite IH. lia.
Qed.

Lemma count_replace (y : PlanSection) (l : list PlanSection) : forall i x,
  nth_error l i = Some x ->
  is_research_sources y = is_research_sources x ->
  count_research_sources (PyList.replace i y l) = count_research_sources l.
Proof.
  induction l as [|z l IH]; intros [|i] x H Hy; simpl in H; try discriminate.
  - injection H as ->. simpl PyList.replace. rewrite !count_cons, Hy.
    reflexivity.
  - simpl PyList.replace. rewrite !count_cons, (IH i x H Hy). reflexivity.
Qed.

Lemma count_relocate (secs : list PlanSection) :
  count_research_sources (relocate_research_sources secs)
  = count_research_sources secs.
Proof.
  unfold relocate_research_sources.
  destruct (PyList.index_where is_research_sources secs) as [i|];
    [|reflexivity].
  destruct (Z.of_nat i <? Z.of_nat (List.length secs) - 1); [|reflexivity].
  destruct (nth_error secs i) as [s|] eqn:E; [|reflexivity].
  pose proof (count_pop secs i s E) as Hp.
  rewrite count_app, count_cons.
  change (count_research_sources []) with 0%nat.
  destruct (is_research_sources s); lia.
Qed.

(** A path that finds no section does not name "Research Sources" when
    the plan has a section of that title. *)
Lemma missing_is_no_source (secs : list PlanSection) (path : string)
    (x : PlanSection) :
  find_section secs path = None ->
  PyStr.lower (normalize (raw_title_of path)) = "research sources" ->
  In x secs -> is_research_sources x = false.
Proof.
  intros Hf Hn Hin. unfold find_section in Hf.
  pose proof (index_where_none _ _ Hf x Hin) as Hx.
  rewrite section_matches_fold in Hx.
  destruct (is_research_sources x) eqn:E; [|reflexivity].
  unfold is_research_sources in E. apply String.eqb_eq in E.
  rewrite lower_normalize in Hn. rewrite Hn in Hx.
  unfold fold_title in Hx. rewrite lower_strip, E in Hx. discriminate Hx.
Qed.

Lemma count_zero (secs : list PlanSection) :
  (forall x, In x secs -> is_research_sources x = false) ->
  count_research_sources secs = 0%nat.
Proof.
  intros H. induction secs as [|y l IH]; [reflexivity|].
  rewrite count_cons, (H y (or_introl eq_refl)), IH; [reflexivity|].
  intros x Hx. apply H. right. exact Hx.
Qed.

Lemma accept_section_title (t : string) (c : value) (s : PlanSection) :
  accept_section t c = Some s -> title s = t.
Proof. intros H. injection H as <-. reflexivity. Qed.

Section SourcesProperties.

Variable new_section : string -> value -> option PlanSection.

(** [PlanSection(title=t, ...)] has the title [t]. *)
Hypothesis new_section_title :
  forall t c s, new_section t c = Some s -> title s = t.

Lemma apply_update_item_sources (plan : AccountPlan) (ch : bool) (c : value) :
  (count_research_sources (sections plan) <= 1)%nat ->
  (count_research_sources
     (sections (step_plan (apply_update_item new_section plan ch c))) <= 1)%nat.
Proof.
  intros Hc. unfold_step.
  repeat (break_match; simpl); try assumption;
    try (erewrite count_replace; [assumption|eassumption|reflexivity]);
    rewrite ?count_app, ?count_insert, ?count_cons;
    change (count_research_sources []) with 0%nat;
    try match goal with
        | H : nth_error (sections plan) ?i = Some ?x |- _ =>
            generalize (count_pop _ _ _ H);
            destruct (is_research_sources x); intro
        end;
    try match goal with
        | |- context [is_research_sources ?x] =>
            destruct (is_research_sources x) eqn:Es
        end;
    try lia.
  (* a section is created *)
  match goal with
  | H : new_section _ _ = Some ?s |- _ =>
      pose proof (new_section_title _ _ _ H) as Ht
  end.
  rewrite count_zero; [lia|]. intros x Hx.
  eapply missing_is_no_source; [eassumption| |exact Hx].
  unfold is_research_sources in Es. rewrite Ht in Es.
  apply String.eqb_eq in Es. exact Es.
Qed.

Lemma apply_updates_sources (cs : list value) :
  forall plan ch p' ch',
    (count_research_sources (sections plan) <= 1)%nat ->
    apply_updates new_section plan ch cs = Next p' ch' ->
    (count_research_sources (sections p') <= 1)%nat.
Proof.
  induction cs as [|c cs IH]; intros plan ch p' ch' Hc; simpl.
  - intros H; inversion H; subst. exact Hc.
  - pose proof (apply_update_item_sources plan ch c Hc) as H1.
    destruct (apply_update_item new_section plan ch c) as [p1 c1|];
      [|discriminate].
    apply IH. exact H1.
Qed.

(** C7, as amended.  On a plan that has at most one section titled
    "Research Sources" (in any letter case), a call that reports a change
    leaves at most one such section, and that section, if there is one, is
    the last element of the section sequence. *)
Theorem research_sources_is_last
    (plan : AccountPlan) (update : value) (p' : AccountPlan) :
  (count_research_sources (sections plan) <= 1)%nat ->
  apply_plan_update new_section plan update = Returned p' true ->
  (count_research_sources (sections p') <= 1)%nat
  /\ (forall i s, nth_error (sections p') i = Some s ->
                  is_research_sources s = true ->
                  i = (List.length (sections p') - 1)%nat).
Proof.
  intros Hone Hcall.
  assert (Hrel : exists secs,
             sections p' = relocate_research_sources secs
             /\ (count_research_sources secs <= 1)%nat).
  { revert Hcall. unfold apply_plan_update.
    destruct (truthy update); simpl; [|discriminate].
    match goal with
    | |- context [apply_updates new_section ?p ?b ?l] =>
        pose proof (apply_updates_sources l p b) as Hs;
        destruct (apply_updates new_section p b l) as [p2 ch2|e p2]
    end; [|discriminate].
    intros E; inversion E; subst. exists (sections p2).
    split; [reflexivity|]. eapply Hs; [exact Hone|reflexivity]. }
  destruct Hrel as (secs & Hsecs & Hcount).
  assert (Hcount' : (count_research_sources (sections p') <= 1)%nat)
    by (rewrite Hsecs, count_relocate; exact Hcount).
  split; [exact Hcount'|].
  intros i s Hn Hrs.
  assert (Hlast : exists front l, sections p' = (front ++ [l])%list
                                  /\ is_research_sources l = true).
  { rewrite Hsecs in *. eapply relocate_last; [eapply nth_error_In|]; eauto. }
  destruct Hlast as (front & l & Heq & Hl).
  rewrite Heq in *. rewrite count_app, count_cons, Hl in Hcount'.
  assert (Hfront : filter is_research_sources front = []).
  { apply length_zero_iff_nil. unfold count_research_sources in Hcount'.
    simpl in Hcount'. lia. }
  rewrite length_app. simpl.
  destruct (Nat.lt_ge_cases i (List.length front)) as [Hlt|Hge].
  - rewrite nth_error_app1 in Hn by assumption.
    rewrite (filter_nil_nth _ _ _ _ Hfront Hn) in Hrs. discriminate.
  - assert (Hi : (i < List.length (front ++ [l]))%nat)
      by (apply nth_error_Some; congruence).
    rewrite length_app in Hi. simpl in Hi. lia.
Qed.

End SourcesProperties.

(** C7 at work: a replacement elsewhere in the plan sends the "Research
    Sources" section from the top to the bottom. *)
Lemma research_sources_is_last_witness :
  exists p',
    apply_plan_update accept_section sourced_plan
      (command "Financials" (VStr "revenue 51 bn") "replace")
    = Returned p' true
    /\ nth_error (sections p') 1
       = Some (mkSection "Research Sources" (VList []))
    /\ List.length (sections p') = 2%nat
    /\ (count_research_sources (sections p') <= 1)%nat.
Proof.
  eexists. split; [vm_compute; reflexivity|].
  split; [reflexivity|]. split; [reflexivity|].
  apply (research_sources_is_last accept_section accept_section_title
           sourced_plan
           (command "Financials" (VStr "revenue 51 bn") "replace")).
  - vm_compute. lia.
  - vm_compute. reflexivity.
Defined.

(** C7, the claim as stated fails: of two sections with that title the
    call moves the first one only, and the other one is then the first
    section of the plan. *)
Lemma second_sources_section_stays :
  exists p' s,
    apply_plan_update accept_section doubled_sources_plan
      (command "Financials" (VStr "revenue 51 bn") "replace")
    = Returned p' true
    /\ nth_error (sections p') 0 = Some s
    /\ is_research_sources s = true
    /\ List.length (sections p') = 3%nat.
Proof. do 2 eexists. repeat split; vm_compute; reflexivity. Qed.

(* ================================================================== *)
(** * Properties of the state machine *)

(** C6, as amended.  On [EXECUTE_PLAN] the plan is marked approved in both
    branches.  With no step run in this turn, the mode becomes "multi",
    research is needed and there is no pause; with a step already run, the
    turn pauses, research is not needed, and the mode stays what it was. *)
Theorem execute_plan_flags (st : AgentState) (d : directive) :
  action d = VStr "EXECUTE_PLAN" ->
  let steps := match steps_in_current_turn st with Some n => n | None => 0 end in
  let st' := handle_research_action st d in
  research_plan_approved st' = Some true
  /\ (steps < 1 -> research_mode st' = Some "multi"
                  /\ research_needed st' = Some true
                  /\ continue_after_pause st' = Some false)
  /\ (1 <= steps -> research_mode st' = research_mode st
                   /\ research_needed st' = Some false
                   /\ continue_after_pause st' = Some true).
Proof.
  intros Ha. unfold handle_research_action. rewrite Ha. cbn [eq_str].
  replace (String.eqb "EXECUTE_PLAN" "PLAN_RESEARCH") with false by reflexivity.
  replace (String.eqb "EXECUTE_PLAN" "EXECUTE_PLAN") with true by reflexivity.
  cbv zeta.
  destruct (1 <=? match steps_in_current_turn st with
                  | Some n => n
                  | None => 0
                  end) eqn:E.
  - apply Z.leb_le in E. simpl. repeat split; auto; lia.
  - apply Z.leb_gt in E. simpl. repeat split; auto; lia.
Qed.

(** C6, the claim as stated fails: in the pause branch a session whose
    mode is "single" keeps that mode. *)
Lemma execute_plan_in_pause_keeps_mode :
  research_mode
    (handle_research_action paused_state (directive_with_action "EXECUTE_PLAN"))
  <> Some "multi".
Proof. vm_compute. intros H. discriminate H. Qed.

Lemma execute_plan_flags_witness :
  research_plan_approved
    (handle_research_action paused_state (directive_with_action "EXECUTE_PLAN"))
  = Some true.
Proof.
  exact (proj1 (execute_plan_flags paused_state
                  (directive_with_action "EXECUTE_PLAN") eq_refl)).
Defined.

(* ================================================================== *)
(** * Properties of the contract parser *)

(** ** The decoder and the room that it has *)

(** With more room the decoder does the same, unless it ran out of room. *)
Lemma value_step_more_room (room room' : nat) (st : list Json.frame)
    (t : Json.token) :
  (room <= room')%nat ->
  Json.value_step room st t <> Err RecursionError ->
  Json.value_step room' st t = Json.value_step room st t.
Proof.
  intros Hle. unfold Json.value_step.
  destruct t; try reflexivity;
    destruct (List.length st <? room)%nat eqn:E; try congruence; intros _;
    apply Nat.ltb_lt in E;
    replace (List.length st <? room')%nat with true
      by (symmetry; apply Nat.ltb_lt; lia);
    reflexivity.
Qed.

Lemma parse_step_more_room (room room' : nat) (p : Json.pstate)
    (t : Json.token) :
  (room <= room')%nat ->
  Json.parse_step room p t <> Err RecursionError ->
  Json.parse_step room' p t = Json.parse_step room p t.
Proof.
  intros Hle. destruct p; simpl; try reflexivity.
  - apply value_step_more_room; assumption.
  - destruct t; try reflexivity; apply value_step_more_room; assumption.
Qed.

Lemma parse_more_room (room room' : nat) (ts : list Json.token) :
  (room <= room')%nat ->
  forall p,
    Json.parse room p ts <> Err RecursionError ->
    Json.parse room' p ts = Json.parse room p ts.
Proof.
  intros Hle. induction ts as [|t ts IH]; intros p H; simpl in *;
    [reflexivity|].
  rewrite (parse_step_more_room room room' p t Hle).
  - destruct (Json.parse_step room p t) as [p'|e]; [|reflexivity].
    apply IH. exact H.
  - intros E. rewrite E in H. apply H. reflexivity.
Qed.

Lemma loads_more_room (room room' : nat) (s : string) :
  (room <= room')%nat ->
  Json.loads room s <> Err RecursionError ->
  Json.loads room' s = Json.loads room s.
Proof. intros Hle. unfold Json.loads. apply parse_more_room. exact Hle. Qed.

(** What decodes, decodes to the same value with more room. *)
Lemma loads_ok_more_room (room room' : nat) (s : string) (v : value) :
  (room <= room')%nat -> Json.loads room s = Ok v -> Json.loads room' s = Ok v.
Proof.
  intros Hle H. rewrite (loads_more_room room room' s Hle); [exact H|].
  rewrite H. discriminate.
Qed.

(** What does not decode, does not decode with less room. *)
Lemma loads_err_less_room (room room' : nat) (s : string) (e : exn) :
  (room' <= room)%nat -> Json.loads room s = Err e ->
  exists e', Json.loads room' s = Err e'.
Proof.
  intros Hle H. destruct (Json.loads room' s) as [v|e'] eqn:E; [|eauto].
  rewrite (loads_ok_more_room room' room s v Hle E) in H. discriminate.
Qed.

Lemma reply_field_err (e : exn) : reply_field (Err e) = None.
Proof. reflexivity. Qed.

(** ** What cannot be parsed *)

Lemma unparsable_parse (room : nat) (text : string) :
  unparsable room text = true -> parse_json_output room text = Ok VNone.
Proof.
  unfold unparsable, parse_json_output.
  destruct (Json.loads room text) as [v|[]]; try discriminate.
  destruct (json_block text) as [raw|]; [|reflexivity].
  destruct (Json.loads room raw); [discriminate|reflexivity].
Qed.

(** What cannot be parsed is shown as it is, where the display has no
    more room than the parser had. *)
Lemma unparsable_clean (room room' : nat) (text : string) :
  (room' <= room)%nat ->
  unparsable room text = true ->
  get_clean_content room' (VStr text) = VStr text.
Proof.
  intros Hle. unfold unparsable, get_clean_content.
  destruct (Json.loads room text) as [v|e] eqn:E1; [discriminate|].
  destruct (loads_err_less_room room room' text e Hle E1) as (e1 & ->).
  destruct e; try discriminate. simpl.
  destruct (json_block text) as [raw|]; [|reflexivity].
  destruct (Json.loads room raw) as [v|e] eqn:E2; [discriminate|].
  destruct (loads_err_less_room room room' raw e Hle E2) as (e2 & ->).
  reflexivity.
Qed.

(** ** One call of the agent and its requests *)

Section AgentProperties.

Variable new_section : string -> value -> option PlanSection.
Variable SYSTEM_PROMPT : string.
Variable context_json : AgentState -> result string.
Variable room : nat.
Variable conversation_llm : list (list message) -> list message -> completion.

Local Abbreviation agent :=
  (conversation_agent new_section SYSTEM_PROMPT context_json room
                      conversation_llm).
Local Abbreviation first := (first_request SYSTEM_PROMPT context_json).

Lemma finish_turn_requests (log : list (list message)) (st : AgentState)
    (text : string) (parsed : value) (reqs : list (list message)) :
  requests_of log (finish_turn new_section st text parsed reqs) = reqs.
Proof.
  unfold finish_turn.
  destruct (inject_sources new_section st); [|reflexivity].
  destruct (resolve parsed text); reflexivity.
Qed.

Lemma inject_sources_messages (st st1 : AgentState) :
  inject_sources new_section st = Ok st1 -> messages st1 = messages st.
Proof.
  unfold inject_sources.
  repeat (break_match; simpl); intros H; inversion H; reflexivity.
Qed.

(** However the call goes, the service is asked at most twice. *)
Lemma at_most_two_requests (st : AgentState) (log : list (list message)) :
  (List.length (requests_of log (agent st log)) <= List.length log + 2)%nat.
Proof.
  unfold conversation_agent.
  destruct (messages st); simpl; [lia|].
  destruct (first st) as [llm_messages|]; simpl; [|lia].
  destruct (conversation_llm log llm_messages) as [text|]; simpl;
    [|rewrite length_app; simpl; lia].
  destruct (parse_json_output room text) as [parsed|]; simpl;
    [|rewrite length_app; simpl; lia].
  destruct (negb (truthy parsed)).
  - destruct (conversation_llm (log ++ [llm_messages])%list
                (retry_request llm_messages text)) as [text2|];
      [destruct (parse_json_output room text2)|];
      rewrite finish_turn_requests, !length_app; simpl; lia.
  - rewrite finish_turn_requests, !length_app; simpl; lia.
Qed.


End AgentProperties.



(** ** A text without an opening brace never decodes to an object *)

Ltac break_if :=
  match goal with
  | |- context [if ?x then _ else _] => destruct x eqn:?
  end.

Lemma stuck_ok : step_ok Json.stuck.
Proof. split; simpl; auto. Qed.

Lemma idle_step_ok (c : ascii) :
  Ascii.eqb c "{" = false -> step_ok (Json.idle_step c).
Proof.
  intros Hc. unfold Json.idle_step. rewrite Hc.
  repeat break_if; split; simpl; repeat constructor.
Qed.

Lemma int_token_ok (a : Json.num_acc) : tok_ok (Json.int_token a).
Proof. unfold Json.int_token. break_if; simpl; auto. Qed.

Lemma float_token_ok (a : Json.num_acc) (e : Z) : tok_ok (Json.float_token a e).
Proof. simpl. auto. Qed.

Lemma mantissa_token_ok (a : Json.num_acc) : tok_ok (Json.mantissa_token a).
Proof.
  unfold Json.mantissa_token. break_if;
    [apply int_token_ok | apply float_token_ok].
Qed.

Lemma end_number_ok (t : Json.token) (c : ascii) :
  tok_ok t -> Ascii.eqb c "{" = false -> step_ok (Json.end_number t c).
Proof.
  intros Ht Hc. unfold Json.end_number. pose proof (idle_step_ok c Hc) as H.
  destruct (Json.idle_step c) as [ts m]. destruct H as [H1 H2].
  split; simpl in *; auto.
Qed.

Create HintDb json.

#[local] Hint Resolve int_token_ok float_token_ok mantissa_token_ok
  end_number_ok stuck_ok : json.

Lemma num_step_ok (st : Json.num_state) (a : Json.num_acc) (c : ascii) :
  Ascii.eqb c "{" = false -> step_ok (Json.num_step st a c).
Proof.
  intros Hc. unfold Json.exponent_token.
  destruct st; simpl; repeat break_if; auto with json;
    try (split; simpl; repeat constructor; auto with json).
  all: try (apply end_number_ok; auto with json; simpl; auto).
Qed.

Lemma lex_step_ok (m : Json.mode) (c : ascii) :
  mode_ok m -> Ascii.eqb c "{" = false -> step_ok (Json.lex_step m c).
Proof.
  intros Hm Hc. destruct m as [|st a|rest v|buf hi|buf hi|buf hi k cp]; simpl.
  - apply idle_step_ok; assumption.
  - apply num_step_ok; assumption.
  - unfold Json.lit_step. destruct rest as [|x [|y r]]; auto with json;
      break_if; auto with json; split; simpl; repeat constructor; assumption.
  - unfold Json.str_step. repeat break_if; auto with json;
      split; simpl; repeat constructor.
  - unfold Json.esc_step. break_if; [split; simpl; repeat constructor|].
    destruct (Json.simple_escape c); auto with json;
      split; simpl; repeat constructor.
  - unfold Json.uni_step. destruct (Json.hex_val c); auto with json.
    break_if; split; simpl; repeat constructor.
    unfold Json.end_escape. destruct hi; repeat break_if; simpl; auto.
Qed.

Lemma lex_end_ok (m : Json.mode) : Forall tok_ok (Json.lex_end m).
Proof.
  destruct m as [|st a| | | |]; simpl; repeat constructor.
  destruct st; repeat constructor; auto with json.
Qed.

Lemma lex_ok (s : string) :
  forall m, mode_ok m -> PyStr.contains "{" s = false ->
            Forall tok_ok (Json.lex m s).
Proof.
  induction s as [|c s IH]; intros m Hm Hc; simpl.
  - apply lex_end_ok.
  - simpl in Hc. apply orb_false_iff in Hc. destruct Hc as [Hc Hs].
    pose proof (lex_step_ok m c Hm Hc) as Hstep.
    destruct (Json.lex_step m c) as [ts1 [m1|]]; destruct Hstep as [H1 Hm1];
      simpl in *; apply Forall_app; split; auto.
Qed.

Lemma deliver_ok (v : value) (st : list Json.frame) :
  not_dict v -> Forall frame_ok st -> pstate_ok (Json.deliver v st).
Proof.
  intros Hv Hst. destruct st as [|[items|d k] st']; simpl; auto.
  - inversion Hst; auto.
  - inversion Hst; subst. contradiction.
Qed.

Lemma value_step_ok (room : nat) (st : list Json.frame) (t : Json.token)
    (p' : Json.pstate) :
  Forall frame_ok st -> tok_ok t ->
  Json.value_step room st t = Ok p' -> pstate_ok p'.
Proof.
  intros Hst Ht. unfold Json.value_step.
  destruct t; simpl in Ht; try contradiction; try discriminate;
    try break_if; intros H; inversion H; subst; simpl; auto.
  apply deliver_ok; assumption.
Qed.

Lemma parse_step_ok (room : nat) (p : Json.pstate) (t : Json.token)
    (p' : Json.pstate) :
  pstate_ok p -> tok_ok t -> Json.parse_step room p t = Ok p' -> pstate_ok p'.
Proof.
  intros Hp Ht.
  destruct p; simpl in Hp; try contradiction; simpl.
  - apply value_step_ok; assumption.
  - destruct t; try (apply value_step_ok; auto; repeat constructor; auto).
    intros H; inversion H; subst. apply deliver_ok; simpl; auto.
  - destruct t; try discriminate; intros H; inversion H; subst; simpl; auto.
    apply deliver_ok; simpl; auto.
  - discriminate.
Qed.

Lemma parse_ok (room : nat) (ts : list Json.token) :
  forall p v, pstate_ok p -> Forall tok_ok ts ->
              Json.parse room p ts = Ok v -> not_dict v.
Proof.
  induction ts as [|t ts IH]; intros p v Hp Hts; simpl.
  - destruct p; try discriminate. intros H; inversion H; subst. exact Hp.
  - inversion Hts; subst.
    destruct (Json.parse_step room p t) as [p'|] eqn:E; [|discriminate].
    apply IH; auto. eapply parse_step_ok; eauto.
Qed.

Lemma loads_without_brace (room : nat) (s : string) (v : value) :
  PyStr.contains "{" s = false -> Json.loads room s = Ok v -> not_dict v.
Proof.
  intros Hc. unfold Json.loads.
  apply parse_ok; simpl; auto. apply lex_ok; [exact I|exact Hc].
Qed.

Lemma find_without (s : string) (c : ascii) :
  PyStr.contains c s = false -> PyStr.find c s = None.
Proof.
  induction s as [|d s IH]; simpl; auto.
  intros H. apply orb_false_iff in H. destruct H as [H1 H2].
  rewrite H1, (IH H2). reflexivity.
Qed.

(** ** Extracting twice *)

(** The reply field is found only in an object that has one. *)
Lemma reply_field_some (data : result value) (r : value) :
  reply_field data = Some r ->
  exists d, data = Ok (VDict d) /\ Dict.get "reply" d = Some r.
Proof.
  destruct data as [[| | | | | |d]|]; simpl; try discriminate. eauto.
Qed.

(** C8, as amended.  A second extraction returns what the first one
    returned, unless that is a text which holds, as a whole or between
    its first opening and its last closing brace, a JSON object with a
    reply field.  So the extraction is stable on what cannot be decoded,
    on every reply that is plain text, and in particular on every result
    without an opening brace.  [room] and [room'] are what the decoder
    has at the first and at the second extraction. *)
Theorem clean_content_idempotent_unless_reply_is_wrapped
    (room room' : nat) (v : value) :
  ((forall s d,
       get_clean_content room v = VStr s ->
       Json.loads room' s = Ok (VDict d)
       \/ (exists raw, json_block s = Some raw
                       /\ Json.loads room' raw = Ok (VDict d)) ->
       Dict.get "reply" d = None) ->
   get_clean_content room' (get_clean_content room v)
   = get_clean_content room v)
  /\ ((forall s, get_clean_content room v = VStr s ->
                 PyStr.contains "{" s = false) ->
      get_clean_content room' (get_clean_content room v)
      = get_clean_content room v).
Proof.
  assert (General :
    (forall s d,
       get_clean_content room v = VStr s ->
       Json.loads room' s = Ok (VDict d)
       \/ (exists raw, json_block s = Some raw
                       /\ Json.loads room' raw = Ok (VDict d)) ->
       Dict.get "reply" d = None) ->
    get_clean_content room' (get_clean_content room v)
    = get_clean_content room v).
  { intros H.
    destruct (get_clean_content room v) as [| | | |s| |] eqn:E;
      try reflexivity.
    simpl.
    destruct (reply_field (Json.loads room' s)) as [r|] eqn:E1.
    { apply reply_field_some in E1. destruct E1 as (d & Hd & Hr).
      rewrite (H s d eq_refl (or_introl Hd)) in Hr. discriminate. }
    destruct (json_block s) as [raw|] eqn:Eb; [|reflexivity].
    destruct (reply_field (Json.loads room' raw)) as [r|] eqn:E2;
      [|reflexivity].
    apply reply_field_some in E2. destruct E2 as (d & Hd & Hr).
    rewrite (H s d eq_refl (or_intror (ex_intro _ raw (conj Eb Hd)))) in Hr.
    discriminate. }
  split; [exact General|].
  intros H. apply General. intros s d Hs [Hd | (raw & Hb & Hd)].
  - exfalso. exact (loads_without_brace room' s (VDict d) (H s Hs) Hd).
  - unfold json_block in Hb. rewrite (find_without _ _ (H s Hs)) in Hb.
    discriminate.
Qed.

(** C8, the claim as stated fails: the reply of this message is itself a
    protocol object; the first extraction gives that object as text, the
    second one gives its reply. *)
Lemma clean_content_not_idempotent :
  get_clean_content sample_room
    (get_clean_content sample_room (VStr nested_reply))
  <> get_clean_content sample_room (VStr nested_reply).
Proof. vm_compute. intros H. discriminate H. Qed.

(** C8 at work, on a malformed text that holds a brace and on a reply
    that is plain text. *)
Lemma clean_content_idempotent_unless_reply_is_wrapped_witness :
  get_clean_content sample_room
    (get_clean_content sample_room
       (VStr "Sorry, here's your update: {bad json"))
  = VStr "Sorry, here's your update: {bad json"
  /\ get_clean_content sample_room
       (get_clean_content sample_room
          (VStr (Json.text "{'reply': 'hi {there}', 'update': null}")))
     = VStr "hi {there}".
Proof.
  split.
  - apply (proj1 (clean_content_idempotent_unless_reply_is_wrapped
                    sample_room sample_room
                    (VStr "Sorry, here's your update: {bad json"))).
    intros s d Hs H. vm_compute in Hs. injection Hs as <-.
    destruct H as [H | (raw & Hb & H)].
    + vm_compute in H. discriminate H.
    + vm_compute in Hb. discriminate Hb.
  - apply (proj1 (clean_content_idempotent_unless_reply_is_wrapped
                    sample_room sample_room
                    (VStr (Json.text "{'reply': 'hi {there}', 'update': null}")))).
    intros s d Hs H. vm_compute in Hs. injection Hs as <-.
    destruct H as [H | (raw & Hb & H)].
    + vm_compute in H. discriminate H.
    + vm_compute in Hb. injection Hb as <-. vm_compute in H. discriminate H.
Defined.

(* ================================================================== *)
(** * Further properties of the code

    Properties that the code shows beyond the specification: of the merge
    engine, of one call of the agent, of the parser, of [update_plan], of
    the answer of [chat] and of the chunking of documents. *)

(** ** Paths are insensitive to case, underscores and white space *)

Section PathProperties.

Variable new_section : string -> value -> option PlanSection.

(** X1.  Two commands whose section paths are ASCII text and differ only
    in the case of the letters, in underscores written for spaces and in
    white space around the segments, and whose content and mode are the
    same, do the same to the plan: they address the same section and the
    same key, and a section that is created gets the same title.  (The
    paths are what the code lowers, strips and capitalises; on ASCII paths
    [same_segment] is the comparison that Python makes, whatever the
    titles and keys of the plan hold.) *)
Theorem equivalent_paths_same_effect
    (plan : AccountPlan) (ch : bool) (item1 item2 : dict) (path1 path2 : string) :
  Dict.get "section" item1 = Some (VStr path1) ->
  Dict.get "section" item2 = Some (VStr path2) ->
  path1 <> "" -> path2 <> "" ->
  PyStr.is_ascii path1 = true -> PyStr.is_ascii path2 = true ->
  Forall2 same_segment (PyStr.split "." path1) (PyStr.split "." path2) ->
  Dict.get "content" item1 = Dict.get "content" item2 ->
  Dict.get "mode" item1 = Dict.get "mode" item2 ->
  apply_update_item new_section plan ch (VDict item1)
  = apply_update_item new_section plan ch (VDict item2).
Proof.
  intros H1 H2 N1 N2 _ _ Hseg Hc Hm.
  unfold apply_update_item, get_or. rewrite H1, H2, Hc, Hm.
  assert (T : forall p, p <> "" -> truthy (VStr p) = true).
  { intros p Hp. simpl. destruct (String.eqb p "") eqn:E;
      [apply String.eqb_eq in E; contradiction|reflexivity]. }
  rewrite (T _ N1), (T _ N2). cbn [negb].
  rewrite (find_section_fold _ path1 path2 (raw_title_insensitive _ _ Hseg)).
  rewrite (path_target_key_insensitive _ _ Hseg).
  rewrite (fold_normalize _ _ (raw_title_insensitive _ _ Hseg)).
  reflexivity.
Qed.
End PathProperties.


(** ** A created section is found again *)

Lemma index_where_app_new {A : Type} (f : A -> bool) (l : list A) (x : A) :
  PyList.index_where f l = None -> f x = true ->
  PyList.index_where f (l ++ [x]) = Some (List.length l).
Proof.
  induction l as [|y l IH]; simpl; intros Hn Hx.
  - rewrite Hx. reflexivity.
  - destruct (f y); [discriminate|].
    destruct (PyList.index_where f l); [discriminate|].
    rewrite (IH eq_refl Hx). reflexivity.
Qed.

Section CreationProperties.

Variable new_section : string -> value -> option PlanSection.

(** X2.  A command that names a section which does not exist (and is
    not a delete) appends the section that the constructor makes, reports
    a change, and the same path finds the new section afterwards at the
    last index; the title must not begin or end with an underscore or
    white space after the path has been stripped. *)
Theorem created_section_is_found
    (plan : AccountPlan) (ch : bool) (item : dict) (path : string)
    (s : PlanSection) :
  command_path (VDict item) = Some (item, path) ->
  eq_str (get_or "mode" (VStr "replace") item) "delete" = false ->
  find_section (sections plan) path = None ->
  new_section (normalize (raw_title_of path))
    (final_content (path_target_key (PyStr.split "." path))
                   (unwrap (get_or "content" VNone item)))
  = Some s ->
  title s = normalize (raw_title_of path) ->
  PyStr.strip (PyStr.replace_underscore (raw_title_of path))
  = PyStr.replace_underscore (raw_title_of path) ->
  apply_update_item new_section plan ch (VDict item)
  = Next (set_sections plan (sections plan ++ [s])%list) true
  /\ find_section (sections plan ++ [s])%list path
     = Some (List.length (sections plan)).
Proof.
  intros Hc Hm Hf Hn Ht Hends.
  apply command_path_some in Hc. destruct Hc as (_ & Hs & Htr).
  split.
  - unfold apply_update_item. rewrite Hs.
    unfold truthy. unfold str_truthy in Htr. rewrite Htr. cbn [negb].
    rewrite Hf. unfold update_missing. rewrite Hm, Hn. reflexivity.
  - unfold find_section in *. apply index_where_app_new; [exact Hf|].
    rewrite section_matches_fold, Ht.
    apply String.eqb_eq. unfold fold_title.
    rewrite lower_strip, lower_normalize. unfold fold_title.
    rewrite <- lower_replace, <- lower_strip, Hends.
    rewrite <- lower_replace, replace_idem.
    reflexivity.
Qed.

End CreationProperties.

Lemma created_section_is_found_witness :
  apply_update_item accept_section sample_plan false
    (command "market_position.key_risks" (VStr "supply") "append")
  = Next (set_sections sample_plan
            (sections sample_plan
             ++ [mkSection "Market Position"
                   (VDict [("Key Risks", VStr "supply")])])%list) true
  /\ find_section
       (sections sample_plan
        ++ [mkSection "Market Position"
              (VDict [("Key Risks", VStr "supply")])])%list
       "market_position.key_risks"
     = Some (List.length (sections sample_plan)).
Proof.
  apply (created_section_is_found accept_section sample_plan false
           [("section", VStr "market_position.key_risks");
            ("content", VStr "supply"); ("mode", VStr "append")]
           "market_position.key_risks").
  - reflexivity.
  - reflexivity.
  - vm_compute. reflexivity.
  - reflexivity.
  - reflexivity.
  - vm_compute. reflexivity.
Defined.

(** ** Moving a section, in general *)

Lemma pop_length {A : Type} (l : list A) : forall i,
  (i < List.length l)%nat -> List.length (PyList.pop i l) = (List.length l - 1)%nat.
Proof.
  induction l as [|x l IH]; intros i Hi; simpl in *; [lia|].
  destruct i as [|j]; simpl; [lia|].
  rewrite IH by lia. lia.
Qed.

Lemma insert_nth {A : Type} (x : A) (l : list A) : forall i,
  (i <= List.length l)%nat -> nth_error (PyList.insert i x l) i = Some x.
Proof.
  induction l as [|y l IH]; intros i Hi; destruct i as [|j]; simpl in *;
    try reflexivity; try lia.
  apply IH. lia.
Qed.

Lemma pop_insert {A : Type} (x : A) (l : list A) : forall i,
  (i <= List.length l)%nat -> PyList.pop i (PyList.insert i x l) = l.
Proof.
  induction l as [|y l IH]; intros i Hi; destruct i as [|j]; simpl in *;
    try reflexivity; try lia.
  rewrite IH by lia. reflexivity.
Qed.

Lemma insert_length {A : Type} (x : A) (l : list A) : forall i,
  List.length (PyList.insert i x l) = S (List.length l).
Proof.
  induction l as [|y l IH]; intros i; destruct i as [|j]; simpl; auto.
Qed.

Lemma pop_app_last {A : Type} (x : A) (l : list A) :
  PyList.pop (List.length l) (l ++ [x]) = l.
Proof. induction l as [|y l IH]; simpl; [|rewrite IH]; reflexivity. Qed.

Lemma nth_app_last {A : Type} (x : A) (l : list A) :
  nth_error (l ++ [x]) (List.length l) = Some x.
Proof. induction l as [|y l IH]; simpl; auto. Qed.

Lemma pop_nth_self {A : Type} (l : list A) : forall i x,
  nth_error l i = Some x -> PyList.insert i x (PyList.pop i l) = l.
Proof.
  induction l as [|y l IH]; intros i x H; destruct i as [|j]; simpl in *;
    try discriminate.
  - inversion H; reflexivity.
  - rewrite (IH j x H). destruct (PyList.pop j l); reflexivity.
Qed.

Section MoveProperties.

Variable new_section : string -> value -> option PlanSection.

(** X3.  A move of an existing section to any integer index [n] puts
    the section at the place [min(max(0, n), len - 1)]; the other sections
    keep their order and nothing is lost or duplicated. *)
Theorem move_places_the_section
    (plan : AccountPlan) (ch : bool) (item : dict) (path : string)
    (idx : nat) (n : Z) :
  Dict.get "mode" item = Some (VStr "move") ->
  Dict.get "section" item = Some (VStr path) ->
  path <> "" ->
  path_target_key (PyStr.split "." path) = None ->
  find_section (sections plan) path = Some idx ->
  PyInt.int_ (unwrap (get_or "content" VNone item)) = IntOk n ->
  exists existing p' ch',
    nth_error (sections plan) idx = Some existing
    /\ apply_update_item new_section plan ch (VDict item) = Next p' ch'
    /\ nth_error (sections p') (move_target n (List.length (sections plan)))
       = Some existing
    /\ PyList.pop (move_target n (List.length (sections plan))) (sections p')
       = PyList.pop idx (sections plan)
    /\ List.length (sections p') = List.length (sections plan)
    /\ (ch' = ch \/ ch' = true).
Proof.
  intros Hm Hs Hne Hk Hf Hi.
  pose proof Hf as Hf'. unfold find_section in Hf'.
  destruct (index_where_some _ _ _ Hf') as (existing & Hnth & _).
  exists existing.
  assert (Hlen : (idx < List.length (sections plan))%nat)
    by (apply nth_error_Some; congruence).
  unfold apply_update_item, get_or. rewrite Hs, Hm.
  assert (Ht : truthy (VStr path) = true).
  { simpl. destruct (String.eqb path "") eqn:E;
      [apply String.eqb_eq in E; contradiction|reflexivity]. }
  rewrite Ht. cbn [negb]. rewrite Hf, Hnth, Hk.
  unfold update_found. cbn [eq_str].
  replace (String.eqb "move" "delete") with false by reflexivity.
  replace (String.eqb "move" "move") with true by reflexivity.
  unfold move_found.
  assert (Hi' : PyInt.int_
                  (unwrap match Dict.get "content" item with
                          | Some v => v
                          | None => VNone
                          end) = IntOk n) by exact Hi.
  rewrite Hi'. unfold move_target.
  set (len := List.length (sections plan)) in *.
  destruct (Z.of_nat idx =? Z.max 0 n) eqn:Esame.
  - apply Z.eqb_eq in Esame.
    replace (Z.to_nat (Z.min (Z.max 0 n) (Z.of_nat len - 1))) with idx by lia.
    do 2 eexists. repeat split; eauto.
  - apply Z.eqb_neq in Esame.
    pose proof (pop_length (sections plan) idx Hlen) as Hpl. fold len in Hpl.
    destruct (Z.of_nat (List.length (PyList.pop idx (sections plan)))
              <=? Z.max 0 n) eqn:Eend.
    + apply Z.leb_le in Eend.
      replace (Z.to_nat (Z.min (Z.max 0 n) (Z.of_nat len - 1)))
        with (List.length (PyList.pop idx (sections plan))) by lia.
      do 2 eexists. split; [reflexivity|]. split; [reflexivity|]. simpl.
      split; [apply nth_app_last|]. split; [apply pop_app_last|].
      split; [rewrite length_app; simpl; lia|auto].
    + apply Z.leb_gt in Eend.
      replace (Z.to_nat (Z.min (Z.max 0 n) (Z.of_nat len - 1)))
        with (Z.to_nat (Z.max 0 n)) by lia.
      do 2 eexists. split; [reflexivity|]. split; [reflexivity|]. simpl.
      split; [apply insert_nth; lia|]. split; [apply pop_insert; lia|].
      split; [rewrite insert_length; lia|auto].
Qed.

End MoveProperties.

Lemma move_places_the_section_witness :
  exists existing p' ch',
    nth_error (sections sample_plan) 0 = Some existing
    /\ apply_update_item accept_section sample_plan false
         (command "Financials" (VInt 7) "move") = Next p' ch'
    /\ nth_error (sections p') (move_target 7 2) = Some existing
    /\ PyList.pop (move_target 7 2) (sections p')
       = PyList.pop 0 (sections sample_plan)
    /\ List.length (sections p') = List.length (sections sample_plan)
    /\ (ch' = false \/ ch' = true).
Proof.
  apply (move_places_the_section accept_section sample_plan false
           [("section", VStr "Financials"); ("content", VInt 7);
            ("mode", VStr "move")] "Financials" 0%nat 7);
    try reflexivity.
  discriminate.
Defined.

(** ** Replacing twice *)

Lemma dict_mem_set (k : string) (v : value) (d : dict) :
  Dict.mem k (Dict.set k v d) = true.
Proof.
  unfold Dict.mem. induction d as [|[k' v'] d IH]; simpl.
  - rewrite String.eqb_refl. reflexivity.
  - destruct (String.eqb k' k) eqn:E; simpl; rewrite E; auto.
Qed.

Lemma dict_set_set (k : string) (v : value) (d : dict) :
  Dict.set k v (Dict.set k v d) = Dict.set k v d.
Proof.
  induction d as [|[k' v'] d IH]; simpl.
  - rewrite String.eqb_refl. reflexivity.
  - destruct (String.eqb k' k) eqn:E; simpl; rewrite E; [|rewrite IH]; reflexivity.
Qed.

Lemma dict_mem_keys (k : string) (d : dict) :
  Dict.mem k d = true <-> In k (Dict.keys d).
Proof.
  unfold Dict.mem, Dict.keys. induction d as [|[k' v'] d IH]; simpl.
  - split; [discriminate|contradiction].
  - destruct (String.eqb k' k) eqn:E.
    + apply String.eqb_eq in E. split; auto.
    + apply String.eqb_neq in E. rewrite IH. split; [auto|].
      intros [H|H]; [contradiction|exact H].
Qed.

Lemma dict_keys_set (k : string) (v : value) (d : dict) :
  Dict.mem k d = true -> Dict.keys (Dict.set k v d) = Dict.keys d.
Proof.
  unfold Dict.mem, Dict.keys. induction d as [|[k' v'] d IH]; simpl.
  - discriminate.
  - destruct (String.eqb k' k) eqn:E; simpl; [reflexivity|].
    intros H. rewrite (IH H). reflexivity.
Qed.

Lemma dict_mem_set_other (k k' : string) (v : value) (d : dict) :
  Dict.mem k' d = true -> Dict.mem k (Dict.set k' v d) = Dict.mem k d.
Proof.
  intros H.
  destruct (Dict.mem k d) eqn:E.
  - apply dict_mem_keys. rewrite dict_keys_set by assumption.
    apply dict_mem_keys. assumption.
  - destruct (Dict.mem k (Dict.set k' v d)) eqn:E'; [|reflexivity].
    apply dict_mem_keys in E'. rewrite dict_keys_set in E' by assumption.
    apply dict_mem_keys in E'. congruence.
Qed.

Lemma first_where_in {A : Type} (f : A -> bool) (l : list A) (x : A) :
  PyList.first_where f l = Some x -> In x l.
Proof.
  induction l as [|y l IH]; simpl; [discriminate|].
  destruct (f y); [intros H; inversion H; auto|auto].
Qed.

(** The key that a write chose is the key that the next write chooses. *)
Lemma resolve_key_stable (k : string) (v : value) (d : dict) :
  resolve_key k (Dict.set (resolve_key k d) v d) = resolve_key k d.
Proof.
  unfold resolve_key at 2 3.
  destruct (Dict.mem k d) eqn:Em.
  - unfold resolve_key. rewrite dict_mem_set. reflexivity.
  - match goal with
    | |- context [PyList.first_where ?f (Dict.keys d)] =>
        destruct (PyList.first_where f (Dict.keys d)) as [found|] eqn:Ef
    end.
    + destruct (str_truthy found) eqn:Et.
      * assert (Hin : Dict.mem found d = true)
          by (apply dict_mem_keys; eapply first_where_in; eauto).
        unfold resolve_key.
        rewrite dict_mem_set_other, Em, dict_keys_set, Ef, Et by assumption.
        reflexivity.
      * unfold resolve_key. rewrite dict_mem_set. reflexivity.
    + unfold resolve_key. rewrite dict_mem_set. reflexivity.
Qed.

Lemma replace_nth {A : Type} (x : A) (l : list A) : forall i,
  (i < List.length l)%nat -> nth_error (PyList.replace i x l) i = Some x.
Proof.
  induction l as [|y l IH]; intros i Hi; destruct i as [|j]; simpl in *;
    try lia; [reflexivity|]. apply IH. lia.
Qed.

Lemma replace_replace {A : Type} (x y : A) (l : list A) : forall i,
  PyList.replace i x (PyList.replace i y l) = PyList.replace i x l.
Proof.
  induction l as [|z l IH]; intros i; destruct i as [|j]; simpl;
    try reflexivity. rewrite IH. reflexivity.
Qed.

Lemma index_where_replace {A : Type} (f : A -> bool) (x y : A) (l : list A) :
  forall i, nth_error l i = Some y -> f x = f y ->
            PyList.index_where f (PyList.replace i x l) = PyList.index_where f l.
Proof.
  induction l as [|z l IH]; intros i Hn Hf; destruct i as [|j]; simpl in *;
    try discriminate.
  - inversion Hn; subst. rewrite Hf. reflexivity.
  - rewrite (IH j Hn Hf). reflexivity.
Qed.

Section ReplaceProperties.

Variable new_section : string -> value -> option PlanSection.

(** X4.  A replace command (mode [replace], or no mode) on an
    existing section can be repeated: the second run reports a change
    again and leaves the plan exactly as the first run left it. *)
Theorem replace_twice_is_replace_once
    (plan : AccountPlan) (ch : bool) (item : dict) (path : string) (idx : nat) :
  Dict.get "mode" item = Some (VStr "replace") \/ Dict.get "mode" item = None ->
  Dict.get "section" item = Some (VStr path) ->
  path <> "" ->
  find_section (sections plan) path = Some idx ->
  exists p',
    apply_update_item new_section plan ch (VDict item) = Next p' true
    /\ apply_update_item new_section p' true (VDict item) = Next p' true.
Proof.
  intros Hm Hs Hne Hf.
  pose proof Hf as Hf'. unfold find_section in Hf'.
  destruct (index_where_some _ _ _ Hf') as (existing & Hnth & _).
  assert (Hlen : (idx < List.length (sections plan))%nat)
    by (apply nth_error_Some; congruence).
  assert (Hmode : get_or "mode" (VStr "replace") item = VStr "replace").
  { unfold get_or. destruct Hm as [-> | ->]; reflexivity. }
  assert (Ht : truthy (VStr path) = true).
  { simpl. destruct (String.eqb path "") eqn:E;
      [apply String.eqb_eq in E; contradiction|reflexivity]. }
  assert (Hstep : forall p c ex,
            find_section (sections p) path = Some idx ->
            nth_error (sections p) idx = Some ex ->
            apply_update_item new_section p c (VDict item)
            = update_found p c idx ex
                (path_target_key (PyStr.split "." path)) (VStr "replace")
                (unwrap (get_or "content" VNone item))).
  { intros p c ex Hfp Hnp. unfold apply_update_item.
    rewrite Hmode. unfold get_or at 1 2. rewrite Hs, Ht. cbn [negb].
    rewrite Hfp, Hnp. reflexivity. }
  rewrite (Hstep plan ch existing Hf Hnth).
  set (newc := unwrap (get_or "content" VNone item)) in *.
  assert (Hfind : forall c,
            find_section
              (PyList.replace idx (mkSection (title existing) c) (sections plan))
              path = Some idx).
  { intros c. unfold find_section.
    rewrite (index_where_replace _ _ existing) by
      (auto; rewrite !section_matches_fold; reflexivity).
    exact Hf'. }
  unfold update_found at 1. cbn [eq_str].
  replace (String.eqb "replace" "delete") with false by reflexivity.
  replace (String.eqb "replace" "move") with false by reflexivity.
  destruct (path_target_key (PyStr.split "." path)) as [k|] eqn:Hk.
  - (* one key of the section *)
    set (k1 := match content existing with
               | VDict d => resolve_key k d
               | _ => k
               end).
    assert (Hk1 : match content existing with
                  | VDict d => Some (resolve_key k d)
                  | _ => Some k
                  end = Some k1) by (unfold k1; destruct (content existing); reflexivity).
    rewrite Hk1. unfold write_key. cbn [eq_str].
    replace (String.eqb "replace" "replace") with true by reflexivity.
    eexists. split; [reflexivity|].
    erewrite Hstep; [| cbn [sections set_sections]; apply Hfind
                     | cbn [sections set_sections]; apply replace_nth; exact Hlen].
    unfold update_found. cbn [eq_str content title sections set_sections].
    replace (String.eqb "replace" "delete") with false by reflexivity.
    replace (String.eqb "replace" "move") with false by reflexivity.
    try rewrite Hk.
    assert (Hres : resolve_key k (Dict.set k1 newc (as_mapping (content existing)))
                   = k1).
    { unfold k1. destruct (content existing) eqn:Ec; simpl as_mapping;
        try (unfold resolve_key; rewrite dict_mem_set; reflexivity).
      apply resolve_key_stable. }
    rewrite Hres. unfold write_key.
    cbn [eq_str content title sections set_sections as_mapping].
    replace (String.eqb "replace" "replace") with true by reflexivity.
    rewrite dict_set_set, replace_replace.
    destruct plan; reflexivity.
  - (* the whole content *)
    assert (Hw : forall old, update_whole (VStr "replace") old newc = newc)
      by reflexivity.
    rewrite Hw.
    assert (Hnone : match content existing with
                    | VDict _ => @None string
                    | _ => None
                    end = None) by (destruct (content existing); reflexivity).
    try rewrite Hnone. eexists. split; [reflexivity|].
    erewrite Hstep; [| cbn [sections set_sections]; apply Hfind
                     | cbn [sections set_sections]; apply replace_nth; exact Hlen].
    unfold update_found. cbn [eq_str content title sections set_sections].
    replace (String.eqb "replace" "delete") with false by reflexivity.
    replace (String.eqb "replace" "move") with false by reflexivity.
    try rewrite Hk.
    assert (Hnone' : match newc with
                     | VDict _ => @None string
                     | _ => None
                     end = None) by (destruct newc; reflexivity).
    try rewrite Hnone'. rewrite ?Hw, replace_replace.
    destruct plan; reflexivity.
Qed.

End ReplaceProperties.

Lemma replace_twice_is_replace_once_witness :
  exists p',
    apply_update_item accept_section sample_plan false
      (command "financials.revenue" (VStr "2 bn") "replace") = Next p' true
    /\ apply_update_item accept_section p' true
         (command "financials.revenue" (VStr "2 bn") "replace") = Next p' true.
Proof.
  apply (replace_twice_is_replace_once accept_section sample_plan false
           [("section", VStr "financials.revenue"); ("content", VStr "2 bn");
            ("mode", VStr "replace")] "financials.revenue" 0%nat).
  - left. reflexivity.
  - reflexivity.
  - discriminate.
  - vm_compute. reflexivity.
Defined.

(** ** Sections are never renamed *)

Lemma in_pop {A : Type} (x : A) (l : list A) : forall i,
  In x (PyList.pop i l) -> In x l.
Proof.
  induction l as [|y l IH]; intros i H; destruct i as [|j]; simpl in *; auto.
  destruct H as [H|H]; eauto.
Qed.

Lemma in_insert {A : Type} (x y : A) (l : list A) : forall i,
  In x (PyList.insert i y l) -> x = y \/ In x l.
Proof.
  induction l as [|z l IH]; intros i H; destruct i as [|j]; simpl in *.
  - destruct H as [H|H]; auto.
  - destruct H as [H|H]; auto.
  - destruct H as [H|H]; auto.
  - destruct H as [H|H]; auto. destruct (IH j H); auto.
Qed.

Lemma in_replace {A : Type} (x y : A) (l : list A) : forall i,
  In x (PyList.replace i y l) -> x = y \/ In x l.
Proof.
  induction l as [|z l IH]; intros i H; destruct i as [|j]; simpl in *; auto.
  - destruct H as [H|H]; auto.
  - destruct H as [H|H]; auto. destruct (IH j H); auto.
Qed.

Section TitleProperties.

Variable new_section : string -> value -> option PlanSection.

Local Abbreviation desc := (descends new_section).

Lemma descends_refl (secs : list PlanSection) : desc secs secs.
Proof. intros s' H. left. eauto. Qed.

Lemma descends_trans (a b c : list PlanSection) :
  desc a b -> desc b c -> desc a c.
Proof.
  intros Hab Hbc s' H. destruct (Hbc s' H) as [(s & Hs & Ht)|Hn]; [|auto].
  destruct (Hab s Hs) as [(s0 & Hs0 & Ht0)|(t & c0 & s0 & Hn & Ht0)].
  - left. exists s0. split; [auto|congruence].
  - right. exists t, c0, s0. split; [auto|congruence].
Qed.

Lemma descends_sub (a b : list PlanSection) :
  (forall s, In s b -> In s a) -> desc a b.
Proof. intros H s' Hs. left. exists s'. auto. Qed.

Lemma descends_pop (a : list PlanSection) (i : nat) : desc a (PyList.pop i a).
Proof. apply descends_sub. intros s. apply in_pop. Qed.

Lemma descends_replace (a : list PlanSection) (i : nat) (ex : PlanSection)
    (c : value) :
  nth_error a i = Some ex ->
  desc a (PyList.replace i (mkSection (title ex) c) a).
Proof.
  intros Hn s' H. left. destruct (in_replace _ _ _ _ H) as [->|Hin].
  - exists ex. split; [eapply nth_error_In; eauto|reflexivity].
  - eauto.
Qed.

Lemma descends_move_end (a : list PlanSection) (i : nat) (ex : PlanSection) :
  nth_error a i = Some ex -> desc a (PyList.pop i a ++ [ex])%list.
Proof.
  intros Hn. apply descends_sub. intros s H. apply in_app_or in H.
  destruct H as [H|[<-|[]]]; [eapply in_pop; eauto|eapply nth_error_In; eauto].
Qed.

Lemma descends_move (a : list PlanSection) (i j : nat) (ex : PlanSection) :
  nth_error a i = Some ex -> desc a (PyList.insert j ex (PyList.pop i a)).
Proof.
  intros Hn. apply descends_sub. intros s H.
  destruct (in_insert _ _ _ _ H) as [->|H'];
    [eapply nth_error_In; eauto|eapply in_pop; eauto].
Qed.

Lemma descends_create (a : list PlanSection) (t : string) (c : value)
    (s : PlanSection) :
  new_section t c = Some s -> desc a (a ++ [s])%list.
Proof.
  intros Hn s' H. apply in_app_or in H. destruct H as [H|[<-|[]]].
  - left. eauto.
  - right. exists t, c, s. auto.
Qed.

#[local] Hint Resolve descends_refl descends_pop descends_replace
  descends_move_end descends_move descends_create : merge.

Lemma apply_update_item_titles (p : AccountPlan) (ch : bool) (c : value) :
  desc (sections p) (sections (step_plan (apply_update_item new_section p ch c))).
Proof.
  unfold_step.
  repeat (break_match; simpl); eauto with merge.
Qed.

Lemma apply_updates_titles (cs : list value) :
  forall (p : AccountPlan) (ch : bool),
    desc (sections p) (sections (step_plan (apply_updates new_section p ch cs))).
Proof.
  induction cs as [|c cs IH]; intros p ch; simpl.
  - apply descends_refl.
  - pose proof (apply_update_item_titles p ch c) as Hc.
    destruct (apply_update_item new_section p ch c) as [p1 ch1|e p1]; simpl in *.
    + eapply descends_trans; [exact Hc | apply IH].
    + exact Hc.
Qed.

Lemma relocate_titles (a : list PlanSection) :
  desc a (relocate_research_sources a).
Proof.
  unfold relocate_research_sources.
  repeat (break_match; simpl); eauto with merge.
Qed.


End TitleProperties.


(** ** What the engine leaves alone *)

Section FrameProperties.

Variable new_section : string -> value -> option PlanSection.

(** X6.  [apply_plan_update] writes the sections and the history
    only: identifier, user, company, goal, plan title, both time stamps
    and the version are the same after every call, also after one that
    raises. *)
Theorem apply_plan_update_keeps_the_header (plan : AccountPlan) (update : value) :
  let p' := outcome_plan (apply_plan_update new_section plan update) in
  id p' = id plan /\ userId p' = userId plan /\ company p' = company plan
  /\ goal p' = goal plan /\ plan_title p' = plan_title plan
  /\ createdAt p' = createdAt plan /\ updatedAt p' = updatedAt plan
  /\ version p' = version plan.
Proof.
  cbv zeta. unfold apply_plan_update.
  destruct (truthy update); simpl; [|repeat split].
  match goal with
  | |- context [apply_updates new_section ?p ?b ?l] =>
      pose proof (apply_updates_frame new_section l p b) as H;
      destruct (apply_updates new_section p b l) as [p2 ch2|e p2]
  end; simpl in *; unfold only_sections in H.
  - destruct ch2; rewrite H; repeat split.
  - rewrite H; repeat split.
Qed.

End FrameProperties.

(** ** The state machine *)

Lemma eq_str_true (v : value) (s : string) : eq_str v s = true -> v = VStr s.
Proof.
  destruct v; simpl; try discriminate. intros H. apply String.eqb_eq in H.
  congruence.
Qed.

Lemma research_needed_after (st : AgentState) (d : directive) :
  let steps := match steps_in_current_turn st with Some n => n | None => 0 end in
  research_needed (handle_research_action st d)
  = Some (eq_str (action d) "CALL_RESEARCH"
          || eq_str (action d) "EXECUTE_PLAN" && (steps <? 1)).
Proof.
  cbv zeta. unfold handle_research_action.
  destruct (eq_str (action d) "PLAN_RESEARCH") eqn:E1.
  { rewrite (eq_str_true _ _ E1). simpl. destruct (truthy (new_research_plan d)); reflexivity. }
  destruct (eq_str (action d) "EXECUTE_PLAN") eqn:E2.
  { rewrite (eq_str_true _ _ E2). simpl.
    destruct (steps_in_current_turn st) as [n|]; simpl.
    - rewrite Z.ltb_antisym. destruct (1 <=? n); reflexivity.
    - reflexivity. }
  destruct (eq_str (action d) "CALL_RESEARCH") eqn:E3; reflexivity.
Qed.

Lemma handle_research_action_keeps (st : AgentState) (d : directive) :
  let st' := handle_research_action st d in
  messages st' = messages st /\ plan st' = plan st
  /\ research_result st' = research_result st
  /\ steps_in_current_turn st' = steps_in_current_turn st
  /\ last_action st' = last_action st
  /\ new_version_created st' = new_version_created st.
Proof.
  cbv zeta. unfold handle_research_action.
  repeat (break_match; simpl); repeat split.
Qed.

(** ** One call of the agent *)

Lemma dict_get_del_other (k k' : string) (d : dict) :
  k <> k' -> Dict.get k (Dict.del k' d) = Dict.get k d.
Proof.
  intros Hne. induction d as [|[k0 v0] d IH]; simpl; [reflexivity|].
  destruct (String.eqb k0 k') eqn:E.
  - apply String.eqb_eq in E. subst k0.
    destruct (String.eqb k' k) eqn:E'; [|reflexivity].
    apply String.eqb_eq in E'. congruence.
  - simpl. rewrite IH. reflexivity.
Qed.

Lemma dict_mem_del (k : string) (d : dict) :
  NoDup (Dict.keys d) -> Dict.mem k (Dict.del k d) = false.
Proof.
  unfold Dict.mem. induction d as [|[k0 v0] d IH]; simpl; intros Hnd;
    [reflexivity|].
  inversion Hnd as [|? ? Hnotin Hnd']; subst.
  destruct (String.eqb k0 k) eqn:E.
  - apply String.eqb_eq in E. subst k0.
    destruct (Dict.get k d) eqn:G; [|reflexivity].
    exfalso. apply Hnotin. apply dict_mem_keys. unfold Dict.mem. rewrite G.
    reflexivity.
  - simpl. rewrite E. apply IH. assumption.
Qed.

Section TurnProperties.

Variable new_section : string -> value -> option PlanSection.
Variable SYSTEM_PROMPT : string.
Variable context_json : AgentState -> result string.
Variable room : nat.
Variable conversation_llm : list (list message) -> list message -> completion.

Local Abbreviation agent :=
  (conversation_agent new_section SYSTEM_PROMPT context_json room
     conversation_llm).
Local Abbreviation first := (first_request SYSTEM_PROMPT context_json).


(** X8.  When the state holds a research result, the injection of
    the sources removes the key [sources] from it and leaves every other
    key and the conversation as they were. *)
Theorem sources_are_stripped (st st1 : AgentState) (rr : dict) :
  research_result st = Some rr ->
  rr <> [] ->
  NoDup (Dict.keys rr) ->
  inject_sources new_section st = Ok st1 ->
  exists rr1,
    research_result st1 = Some rr1
    /\ Dict.mem "sources" rr1 = false
    /\ (forall k, k <> "sources" -> Dict.get k rr1 = Dict.get k rr)
    /\ messages st1 = messages st.
Proof.
  intros Hrr Hne Hnd Hinj.
  pose proof (inject_sources_messages _ _ _ Hinj) as Hmsg.
  unfold inject_sources in Hinj. rewrite Hrr in Hinj.
  assert (Ht : truthy (VDict rr) = true) by (destruct rr; [congruence|reflexivity]).
  rewrite Ht in Hinj.
  set (stripped := if Dict.mem "sources" rr then Dict.del "sources" rr else rr) in *.
  assert (Hres : research_result st1 = Some stripped).
  { revert Hinj. repeat (break_match; simpl); intros H; inversion H; reflexivity. }
  exists stripped. split; [exact Hres|]. split; [|split; [|exact Hmsg]].
  - unfold stripped. destruct (Dict.mem "sources" rr) eqn:E; [|exact E].
    apply dict_mem_del. assumption.
  - intros k Hk. unfold stripped. destruct (Dict.mem "sources" rr); [|reflexivity].
    apply dict_get_del_other. assumption.
Qed.

Lemma update_plan_and_title_keeps (st : AgentState) (d : directive) :
  messages (update_plan_and_title new_section st d) = messages st
  /\ last_action (update_plan_and_title new_section st d) = last_action st.
Proof.
  unfold update_plan_and_title.
  repeat (break_match; simpl); split; reflexivity.
Qed.

Lemma finish_turn_finished (st st' : AgentState) (text : string) (parsed : value)
    (reqs reqs' : list (list message)) (d : directive) :
  finish_turn new_section st text parsed reqs = Finished st' d reqs' ->
  reqs' = reqs
  /\ resolve parsed text = Ok d
  /\ messages st' = (messages st ++ [AIMessage text])%list
  /\ last_action st' = Some (action d).
Proof.
  unfold finish_turn.
  destruct (inject_sources new_section st) as [st1|] eqn:Hinj; [|discriminate].
  destruct (resolve parsed text) as [d0|] eqn:Hres; [|discriminate].
  intros H. inversion H; subst. split; [reflexivity|]. split; [reflexivity|].
  destruct (handle_research_action_keeps
              (update_plan_and_title new_section
                 (set_last_action
                    (set_messages st1 (messages st1 ++ [AIMessage text])%list)
                    (action d)) d) d) as (Hm & _ & _ & _ & Hl & _).
  rewrite Hm, Hl.
  destruct (update_plan_and_title_keeps
              (set_last_action
                 (set_messages st1 (messages st1 ++ [AIMessage text])%list)
                 (action d)) d) as (Hm2 & Hl2).
  rewrite Hm2, Hl2. simpl.
  rewrite (inject_sources_messages _ _ _ Hinj). split; reflexivity.
Qed.

Lemma agent_finished
    (st st' : AgentState) (log reqs : list (list message)) (d : directive) :
  agent st log = Finished st' d reqs ->
  exists text parsed earlier request,
    conversation_llm earlier request = Answer text
    /\ In request reqs
    /\ finish_turn new_section st text parsed reqs = Finished st' d reqs
    /\ (parse_json_output room text = Ok parsed
        \/ (exists e, parse_json_output room text = Err e)
           /\ truthy parsed = false).
Proof.
  unfold conversation_agent.
  destruct (messages st) as [|m0 ms] eqn:Em; [discriminate|].
  destruct (first st) as [llm_messages|e0]; [|discriminate].
  destruct (conversation_llm log llm_messages) as [text|] eqn:H1;
    [|discriminate].
  destruct (parse_json_output room text) as [parsed|e1] eqn:Hp;
    [|discriminate].
  destruct (truthy parsed) eqn:Ht; cbn [negb].
  - intros H. pose proof (finish_turn_finished _ _ _ _ _ _ _ H) as (E & _).
    subst reqs. exists text, parsed, log, llm_messages.
    repeat split; auto. apply in_or_app. right. left. reflexivity.
  - destruct (conversation_llm (log ++ [llm_messages])%list
                (retry_request llm_messages text)) as [text2|] eqn:H2.
    + destruct (parse_json_output room text2) as [parsed2|e2] eqn:Hp2;
        intros H;
        pose proof (finish_turn_finished _ _ _ _ _ _ _ H) as (E & _);
        subst reqs.
      * exists text2, parsed2, (log ++ [llm_messages])%list,
          (retry_request llm_messages text).
        repeat split; auto. apply in_or_app. right. left. reflexivity.
      * exists text2, parsed, (log ++ [llm_messages])%list,
          (retry_request llm_messages text).
        split; [exact H2|]. split; [apply in_or_app; right; left; reflexivity|].
        split; [exact H|]. right. split; [exists e2; exact Hp2|exact Ht].
    + intros H. pose proof (finish_turn_finished _ _ _ _ _ _ _ H) as (E & _).
      subst reqs. exists text, parsed, log, llm_messages.
      repeat split; auto. apply in_or_app. left. apply in_or_app. right.
      left. reflexivity.
Qed.

Lemma inject_sources_steps (st st1 : AgentState) :
  inject_sources new_section st = Ok st1 ->
  steps_in_current_turn st1 = steps_in_current_turn st.
Proof.
  unfold inject_sources.
  repeat (break_match; simpl); intros H; inversion H; reflexivity.
Qed.

Lemma update_plan_and_title_steps (st : AgentState) (d : directive) :
  steps_in_current_turn (update_plan_and_title new_section st d)
  = steps_in_current_turn st.
Proof.
  unfold update_plan_and_title. repeat (break_match; simpl); reflexivity.
Qed.

(** X9.  After a turn that finished, [research_needed] is set, and
    it is true exactly when the resolved action is [CALL_RESEARCH], or is
    [EXECUTE_PLAN] while no research step has run in this turn; the step
    counter itself is not changed by the agent. *)
Theorem turn_requests_research_exactly_when
    (st st' : AgentState) (log reqs : list (list message)) (d : directive) :
  agent st log = Finished st' d reqs ->
  let steps := match steps_in_current_turn st with Some n => n | None => 0 end in
  research_needed st'
  = Some (eq_str (action d) "CALL_RESEARCH"
          || eq_str (action d) "EXECUTE_PLAN" && (steps <? 1))
  /\ steps_in_current_turn st' = steps_in_current_turn st.
Proof.
  intros H. apply agent_finished in H.
  destruct H as (text & parsed & _ & _ & _ & _ & H & _).
  revert H. unfold finish_turn.
  destruct (inject_sources new_section st) as [st1|] eqn:Hinj; [|discriminate].
  destruct (resolve parsed text) as [d0|]; [|discriminate].
  intros E. inversion E; subst. clear E. cbv zeta.
  pose proof (research_needed_after
                (update_plan_and_title new_section
                   (set_last_action
                      (set_messages st1 (messages st1 ++ [AIMessage text])%list)
                      (action d)) d) d) as Hn.
  cbv zeta in Hn.
  destruct (handle_research_action_keeps
              (update_plan_and_title new_section
                 (set_last_action
                    (set_messages st1 (messages st1 ++ [AIMessage text])%list)
                    (action d)) d) d) as (_ & _ & _ & Hs & _).
  rewrite update_plan_and_title_steps in Hn, Hs. simpl in Hn, Hs.
  rewrite (inject_sources_steps _ _ Hinj) in Hn, Hs.
  split; assumption.
Qed.

(** X10.  A turn that finished appended exactly one message to
    the conversation: the raw output of the completion service (of a
    request that is in the log), as an assistant message; [last_action] is
    the action of the directive, and the directive is the one resolved
    from the parse of that output (the plain reply with that output as its
    text when that parse, being the one of the retry, raised). *)
Theorem finished_turn_stores_the_raw_output
    (st st' : AgentState) (log reqs : list (list message)) (d : directive) :
  agent st log = Finished st' d reqs ->
  exists text earlier request,
    conversation_llm earlier request = Answer text
    /\ In request reqs
    /\ messages st' = (messages st ++ [AIMessage text])%list
    /\ last_action st' = Some (action d)
    /\ match parse_json_output room text with
       | Ok parsed => resolve parsed text = Ok d
       | Err _ => d = plain_reply (VStr text)
       end.
Proof.
  intros H. apply agent_finished in H.
  destruct H as (text & parsed & earlier & request & Hllm & Hin & H & Hp).
  apply finish_turn_finished in H. destruct H as (_ & Hr & Hm & Hl).
  exists text, earlier, request.
  split; [exact Hllm|]. split; [exact Hin|]. split; [exact Hm|].
  split; [exact Hl|].
  destruct Hp as [Hp|((e & Hp) & Ht)]; rewrite Hp; [exact Hr|].
  unfold resolve in Hr. rewrite Ht in Hr. congruence.
Qed.

(** X11.  [new_version_created] reports the update and the title
    of the directive only: when the directive has neither, the flag is
    false, also when the sources of a research were written into the plan
    in the same turn. *)
Theorem sources_do_not_count_as_a_new_version
    (st st' : AgentState) (log reqs : list (list message)) (d : directive) :
  agent st log = Finished st' d reqs ->
  truthy (update_data d) = false ->
  truthy (d_set_plan_title d) = false ->
  new_version_created st' = Some false.
Proof.
  intros H Hu Ht.
  assert (Hf : exists st0 text parsed,
             finish_turn new_section st0 text parsed reqs = Finished st' d reqs).
  { apply agent_finished in H.
    destruct H as (text & parsed & _ & _ & _ & _ & H & _). eauto. }
  destruct Hf as (st0 & text & parsed & Hf). revert Hf. unfold finish_turn.
  destruct (inject_sources new_section st0) as [st1|]; [|discriminate].
  destruct (resolve parsed text) as [d0|]; [|discriminate].
  intros E. inversion E; subst.
  destruct (handle_research_action_keeps
              (update_plan_and_title new_section
                 (set_last_action
                    (set_messages st1 (messages st1 ++ [AIMessage text])%list)
                    (action d)) d) d) as (_ & _ & _ & _ & _ & Hv).
  rewrite Hv. unfold update_plan_and_title. rewrite Hu, Ht.
  simpl. destruct (plan st1); reflexivity.
Qed.

End TurnProperties.

Lemma sources_are_stripped_witness :
  exists st1 rr1,
    inject_sources accept_section researched_state = Ok st1
    /\ research_result st1 = Some rr1
    /\ Dict.mem "sources" rr1 = false
    /\ Dict.get "summary" rr1
       = Some (VStr "Elliott Hill is the chief executive.").
Proof.
  destruct (inject_sources accept_section researched_state) as [st1|e] eqn:E;
    [|vm_compute in E; discriminate E].
  destruct (sources_are_stripped accept_section researched_state st1
              [("summary", VStr "Elliott Hill is the chief executive.");
               ("sources",
                VList [VDict [("title", VStr "Annual report");
                              ("url", VStr "https://example.org/report")]])])
    as (rr1 & H1 & H2 & H3 & _).
  - reflexivity.
  - discriminate.
  - repeat constructor; simpl; intuition discriminate.
  - exact E.
  - exists st1, rr1. split; [reflexivity|]. split; [exact H1|].
    split; [exact H2|]. rewrite H3; [reflexivity|discriminate].
Defined.

Lemma finished_turn_stores_the_raw_output_witness :
  exists st' d reqs text earlier request,
    conversation_agent accept_section "protocol" sample_context sample_room polite_llm
      researched_state [] = Finished st' d reqs
    /\ polite_llm earlier request = Answer text
    /\ In request reqs
    /\ messages st' = (messages researched_state ++ [AIMessage text])%list
    /\ last_action st' = Some (action d)
    /\ match parse_json_output sample_room text with
       | Ok parsed => resolve parsed text = Ok d
       | Err _ => d = plain_reply (VStr text)
       end.
Proof.
  destruct (conversation_agent accept_section "protocol" sample_context sample_room
              polite_llm researched_state []) as [st' d reqs| |] eqn:E;
    try (vm_compute in E; discriminate E).
  destruct (finished_turn_stores_the_raw_output accept_section "protocol"
              sample_context sample_room polite_llm researched_state st' [] reqs d E)
    as (text & earlier & request & H).
  exists st', d, reqs, text, earlier, request. split; [reflexivity|exact H].
Defined.

Lemma sources_do_not_count_as_a_new_version_witness :
  exists st' d reqs p',
    conversation_agent accept_section "protocol" sample_context sample_room polite_llm
      researched_state [] = Finished st' d reqs
    /\ new_version_created st' = Some false
    /\ plan st' = Some p'
    /\ List.length (sections p') = 3%nat.
Proof.
  destruct (conversation_agent accept_section "protocol" sample_context sample_room
              polite_llm researched_state []) as [st' d reqs| |] eqn:E;
    try (vm_compute in E; discriminate E).
  pose proof E as E'. vm_compute in E'. injection E' as Hst Hd Hr.
  eexists st', d, reqs, _. split; [reflexivity|]. split.
  - apply (sources_do_not_count_as_a_new_version accept_section "protocol"
             sample_context sample_room polite_llm researched_state st' [] reqs d E).
    + rewrite <- Hd. reflexivity.
    + rewrite <- Hd. reflexivity.
  - rewrite <- Hst. split; reflexivity.
Defined.

(** ** An object between prose *)

Lemma find_after (c : ascii) (pre rest : string) :
  PyStr.contains c pre = false ->
  PyStr.find c (pre ++ String c rest) = Some (String.length pre).
Proof.
  induction pre as [|d pre IH]; simpl; intros H.
  - rewrite Ascii.eqb_refl. reflexivity.
  - apply orb_false_iff in H. destruct H as [Hd Hp].
    rewrite Hd, (IH Hp). reflexivity.
Qed.

Lemma rfind_without (c : ascii) (s : string) :
  PyStr.contains c s = false -> PyStr.rfind c s = None.
Proof.
  induction s as [|d s IH]; simpl; intros H; [reflexivity|].
  apply orb_false_iff in H. destruct H as [Hd Hs].
  rewrite (IH Hs), Hd. reflexivity.
Qed.

Lemma rfind_before (c : ascii) (x post : string) :
  PyStr.contains c post = false ->
  PyStr.rfind c (x ++ String c post) = Some (String.length x).
Proof.
  intros H. induction x as [|d x IH]; simpl.
  - rewrite (rfind_without _ _ H), Ascii.eqb_refl. reflexivity.
  - rewrite IH. reflexivity.
Qed.

Lemma substring_middle (pre obj post : string) :
  substring (String.length pre) (String.length obj) (pre ++ obj ++ post) = obj.
Proof.
  induction pre as [|d pre IH]; simpl.
  - induction obj as [|e obj IHo]; simpl.
    + destruct post; reflexivity.
    + rewrite IHo. reflexivity.
  - exact IH.
Qed.

Lemma string_app_assoc (a b c : string) : (a ++ b) ++ c = a ++ (b ++ c).
Proof. induction a as [|d a IH]; simpl; [|rewrite IH]; reflexivity. Qed.

Lemma string_app_length (a b : string) :
  String.length (a ++ b) = (String.length a + String.length b)%nat.
Proof. induction a as [|d a IH]; simpl; [|rewrite IH]; reflexivity. Qed.

Lemma json_block_between_prose (pre mid post : string) :
  PyStr.contains "{" pre = false ->
  PyStr.contains "}" post = false ->
  json_block (pre ++ String "{" (mid ++ String "}" post))
  = Some (String "{" (mid ++ String "}" "")).
Proof.
  intros Hpre Hpost. unfold json_block.
  rewrite (find_after _ _ _ Hpre).
  replace (pre ++ String "{" (mid ++ String "}" post))
    with ((pre ++ String "{" mid) ++ String "}" post)
    by (rewrite string_app_assoc; reflexivity).
  rewrite (rfind_before _ _ _ Hpost).
  unfold PyStr.slice. rewrite string_app_assoc. simpl (String "{" mid ++ _).
  replace (S (String.length (pre ++ String "{" mid)) - String.length pre)%nat
    with (String.length (String "{" (mid ++ String "}" "")))
    by (cbn [String.length]; rewrite !string_app_length; cbn [String.length]; lia).
  replace (String "{" (mid ++ String "}" post))
    with (String "{" (mid ++ String "}" "") ++ post)
    by (simpl; rewrite string_app_assoc; reflexivity).
  rewrite substring_middle. reflexivity.
Qed.

(** X12.  A model output that is one JSON value in braces with prose
    before and after it (no opening brace before, no closing brace after),
    on which the decoder raises a decode error as a whole, is parsed to
    the value between the braces; and the display, which has at least the
    room of the parser, shows the reply of that object. *)
Theorem object_between_prose_is_recovered
    (room : nat) (pre mid post : string) (v : value) :
  PyStr.contains "{" pre = false ->
  PyStr.contains "}" post = false ->
  Json.loads room (pre ++ String "{" (mid ++ String "}" post))
  = Err JSONDecodeError ->
  Json.loads room (String "{" (mid ++ String "}" "")) = Ok v ->
  parse_json_output room (pre ++ String "{" (mid ++ String "}" post)) = Ok v
  /\ (forall room' r,
        (room <= room')%nat ->
        reply_field (Ok v) = Some r ->
        get_clean_content room'
          (VStr (pre ++ String "{" (mid ++ String "}" post))) = r).
Proof.
  intros Hpre Hpost Hall Hobj. split.
  - unfold parse_json_output.
    rewrite Hall, (json_block_between_prose _ _ _ Hpre Hpost), Hobj. reflexivity.
  - intros room' r Hle Hr. unfold get_clean_content.
    rewrite (loads_more_room room room' _ Hle)
      by (rewrite Hall; discriminate).
    rewrite Hall, (json_block_between_prose _ _ _ Hpre Hpost).
    rewrite (loads_ok_more_room room room' _ v Hle Hobj).
    rewrite reply_field_err, Hr. reflexivity.
Qed.

Lemma object_between_prose_is_recovered_witness :
  parse_json_output sample_room
    ("Some intro " ++ String "{" (Json.text "'reply':'hi','control':{'action':'NONE'}"
                                  ++ String "}" " Thanks!"))
  = Ok (VDict [("reply", VStr "hi");
               ("control", VDict [("action", VStr "NONE")])])
  /\ (forall room' r,
        (sample_room <= room')%nat ->
        reply_field
          (Ok (VDict [("reply", VStr "hi");
                      ("control", VDict [("action", VStr "NONE")])]))
        = Some r ->
        get_clean_content room'
          (VStr ("Some intro "
                 ++ String "{" (Json.text "'reply':'hi','control':{'action':'NONE'}"
                                ++ String "}" " Thanks!"))) = r).
Proof.
  apply object_between_prose_is_recovered.
  - reflexivity.
  - reflexivity.
  - vm_compute. reflexivity.
  - vm_compute. reflexivity.
Defined.

(** ** What is displayed and what was resolved *)

Lemma clean_content_resolved
    (room room' : nat) (text : string) (d : dict) (r : value) :
  (room <= room')%nat ->
  parse_json_output room text = Ok (VDict d) ->
  Dict.get "reply" d = Some r ->
  get_clean_content room' (VStr text) = r
  /\ (forall dir, resolve (VDict d) text = Ok dir -> reply_text dir = r).
Proof.
  intros Hle Hp Hr. split.
  - revert Hp. unfold parse_json_output, get_clean_content.
    destruct (Json.loads room text) as [v|e] eqn:E1.
    + intros H. injection H as ->.
      rewrite (loads_ok_more_room room room' _ _ Hle E1). simpl.
      rewrite Hr. reflexivity.
    + destruct e; try discriminate.
      rewrite (loads_more_room room room' _ Hle) by (rewrite E1; discriminate).
      rewrite E1, reply_field_err.
      destruct (json_block text) as [raw|]; [|discriminate].
      destruct (Json.loads room raw) as [v|e] eqn:E2; [|discriminate].
      intros H. injection H as ->.
      rewrite (loads_ok_more_room room room' _ _ Hle E2). simpl.
      rewrite Hr. reflexivity.
  - intros dir. unfold resolve.
    assert (Ht : truthy (VDict d) = true).
    { destruct d; [discriminate|reflexivity]. }
    rewrite Ht. unfold has_protocol_key.
    assert (Hm : Dict.mem "reply" d = true).
    { unfold Dict.mem. rewrite Hr. reflexivity. }
    rewrite Hm, orb_true_r. simpl.
    destruct (get_or "control" (VDict []) d); try discriminate.
    intros H. inversion H; subst. simpl. unfold get_or. rewrite Hr. reflexivity.
Qed.

(** ** [update_plan] *)

(** X13.  What [update_plan] stores: the history of the current plan
    with the dump of the current plan appended, the incoming sections,
    identifier and title, and a version that is the greater of the incoming
    version and the current version plus one; the time stamp is renewed
    exactly when the version had to be raised. *)
Theorem update_plan_commits (current data : AccountPlan) (now : string) :
  let p := update_plan current data now in
  history p = (history current ++ [model_dump current])%list
  /\ version p = Z.max (version data) (version current + 1)
  /\ updatedAt p
     = (if version data <=? version current then now else updatedAt data)
  /\ sections p = sections data
  /\ id p = id data
  /\ plan_title p = plan_title data.
Proof.
  cbv zeta. unfold update_plan. simpl.
  destruct (version data <=? version current) eqn:E; simpl.
  - apply Z.leb_le in E. repeat split. lia.
  - apply Z.leb_gt in E. repeat split. lia.
Qed.
(** ** The chunks of a document *)

Section ChunkProperties.

Variable A : Type.

Lemma chunk_step : (Rag.chunk_size - Rag.overlap = 900)%nat.
Proof. reflexivity. Qed.

Lemma chunk_size_eq : Rag.chunk_size = 1000%nat.
Proof. reflexivity. Qed.

Lemma chunk_loop_eq (fuel : nat) (text : list A) (chunks : list (list A))
    (start : nat) :
  Rag.chunk_loop fuel text chunks start
  = if (start <? List.length text)%nat then
      match fuel with
      | O => None
      | S fuel' =>
          Rag.chunk_loop fuel' text
            (chunks ++ [Rag.slice start (start + 1000) text])%list
            (start + 900)%nat
      end
    else Some chunks.
Proof. destruct fuel; reflexivity. Qed.

(** The rule of the loop: a property of the chunks and of [start] that
    every round keeps holds when the loop ends, and with enough fuel it
    does end. *)
Lemma chunk_loop_rule (text : list A) (I : list (list A) -> nat -> Prop) :
  (forall chunks start,
      I chunks start -> (start < List.length text)%nat ->
      I (chunks ++ [Rag.slice start (start + 1000) text])%list (start + 900)%nat) ->
  forall fuel chunks start,
    I chunks start ->
    (List.length text <= start + 900 * fuel)%nat ->
    exists cs stop,
      Rag.chunk_loop fuel text chunks start = Some cs
      /\ I cs stop /\ (List.length text <= stop)%nat.
Proof.
  intros Hstep fuel. induction fuel as [|fuel IH]; intros chunks start HI Hfuel;
    rewrite chunk_loop_eq.
  - destruct (start <? List.length text)%nat eqn:E.
    + apply Nat.ltb_lt in E. lia.
    + apply Nat.ltb_ge in E. eauto.
  - destruct (start <? List.length text)%nat eqn:E.
    + apply Nat.ltb_lt in E. apply IH; [apply Hstep; assumption|lia].
    + apply Nat.ltb_ge in E. eauto.
Qed.

Lemma slice_length (start : nat) (text : list A) :
  List.length (Rag.slice start (start + 1000) text)
  = Nat.min 1000 (List.length text - start).
Proof.
  unfold Rag.slice. rewrite length_firstn, length_skipn.
  replace (start + 1000 - start)%nat with 1000%nat by lia. reflexivity.
Qed.

Lemma firstn_slice (start : nat) (text : list A) :
  firstn 900 (Rag.slice start (start + 1000) text) = firstn 900 (skipn start text).
Proof.
  unfold Rag.slice. replace (start + 1000 - start)%nat with 1000%nat by lia.
  rewrite firstn_firstn. reflexivity.
Qed.

Lemma firstn_add (n m : nat) (l : list A) :
  firstn (n + m) l = (firstn n l ++ firstn m (skipn n l))%list.
Proof.
  revert l. induction n as [|n IH]; intros l; simpl; [reflexivity|].
  destruct l as [|a l]; simpl.
  - rewrite firstn_nil. reflexivity.
  - rewrite IH. reflexivity.
Qed.

Lemma chunks_windows (text : list A) :
  exists n,
    Rag.add_document_chunks text
    = Some (map (fun i => Rag.slice (900 * i) (900 * i + 1000) text) (seq 0 n))
    /\ (List.length text <= 900 * n)%nat
    /\ (n = 0%nat \/ (900 * (n - 1) < List.length text)%nat).
Proof.
  unfold Rag.add_document_chunks.
  destruct (chunk_loop_rule text
              (fun chunks start =>
                 exists n, start = (900 * n)%nat
                           /\ (n = 0%nat \/ (900 * (n - 1) < List.length text)%nat)
                           /\ chunks
                              = map (fun i => Rag.slice (900 * i) (900 * i + 1000) text)
                                    (seq 0 n)))
    with (fuel := List.length text) (chunks := @nil (list A)) (start := 0%nat)
    as (cs & stop & Hrun & (n & -> & Hn & ->) & Hstop).
  - intros chunks start (n & -> & Hn & ->) Hlt. exists (S n).
    split; [lia|]. split; [right; simpl; rewrite Nat.sub_0_r; exact Hlt|].
    rewrite seq_S, map_app. reflexivity.
  - exists 0%nat. repeat split. left. reflexivity.
  - lia.
  - exists n. split; [exact Hrun|]. split; assumption.
Qed.

(** X14.  The pieces are the windows of 1000 characters that start at the
    multiples of 900, as many as the text has windows. *)
Theorem chunks_are_the_windows (text : list A) :
  Rag.add_document_chunks text
  = Some (map (fun i => Rag.slice (900 * i) (900 * i + 1000) text)
              (seq 0 ((List.length text + 899) / 900))).
Proof.
  destruct (chunks_windows text) as (n & Hrun & Hstop & Hn).
  rewrite Hrun. f_equal. f_equal. f_equal.
  apply Nat.div_unique with (r := (List.length text + 899 - 900 * n)%nat); lia.
Qed.

(** X15.  Nothing of the text is lost: the loop ends for every text,
    the first 900 characters of the pieces, one after the other, are the
    text, and every piece has between 1 and 1000 characters. *)
Theorem chunks_cover_the_text (text : list A) :
  exists cs,
    Rag.add_document_chunks text = Some cs
    /\ List.concat (map (firstn 900) cs) = text
    /\ Forall (fun c => (0 < List.length c <= 1000)%nat) cs.
Proof.
  unfold Rag.add_document_chunks.
  destruct (chunk_loop_rule text
              (fun chunks start =>
                 List.concat (map (firstn 900) chunks) = firstn start text
                 /\ Forall (fun c => (0 < List.length c <= 1000)%nat) chunks))
    with (fuel := List.length text) (chunks := @nil (list A)) (start := 0%nat)
    as (cs & stop & Hrun & (Hcat & Hall) & Hstop).
  - intros chunks start (Hcat & Hall) Hlt. split.
    + rewrite map_app, List.concat_app, Hcat. cbn [map List.concat]. rewrite app_nil_r.
      rewrite firstn_slice, firstn_add. reflexivity.
    + apply Forall_app. split; [exact Hall|]. constructor; [|constructor].
      rewrite slice_length. lia.
  - split; [reflexivity|constructor].
  - lia.
  - exists cs. split; [exact Hrun|]. split; [|exact Hall].
    rewrite Hcat. apply firstn_all2. exact Hstop.
Qed.

Lemma skipn_slice (start : nat) (text : list A) :
  skipn 900 (Rag.slice start (start + 1000) text)
  = firstn 100 (skipn (start + 900) text).
Proof.
  unfold Rag.slice. replace (start + 1000 - start)%nat with 1000%nat by lia.
  rewrite skipn_firstn_comm, skipn_skipn.
  rewrite (Nat.add_comm 900 start). reflexivity.
Qed.

(** X16.  Two neighbouring pieces overlap: what the first holds after
    its 900th character (at most 100 characters) is the beginning of the
    second, and the first is full (1000 characters) unless the second is
    the last piece. *)
Theorem neighbouring_chunks_overlap
    (text : list A) (cs l1 l2 : list (list A)) (c c' : list A) :
  Rag.add_document_chunks text = Some cs ->
  cs = (l1 ++ c :: c' :: l2)%list ->
  (900 < List.length c <= 1000)%nat
  /\ skipn 900 c = firstn (List.length c - 900) c'
  /\ (l2 <> [] -> List.length c = 1000%nat).
Proof.
  intros Hcs ->. destruct (chunks_windows text) as (n & Hw & _ & Hn0).
  set (f := fun i => Rag.slice (900 * i) (900 * i + 1000) text) in *.
  assert (Hsplit : map f (seq 0 n) = (l1 ++ c :: c' :: l2)%list) by congruence.
  clear Hcs Hw.
  set (i := List.length l1).
  assert (Hlen : n = (i + 2 + List.length l2)%nat).
  { apply (f_equal (@List.length _)) in Hsplit.
    rewrite length_map, length_seq, length_app in Hsplit.
    cbn [List.length] in Hsplit.
    unfold i. lia. }
  assert (Hc : c = f i).
  { transitivity (nth i (map f (seq 0 n)) (f 0%nat)).
    - rewrite Hsplit. unfold i. rewrite nth_middle. reflexivity.
    - rewrite map_nth, seq_nth by lia. reflexivity. }
  assert (Hc' : c' = f (S i)).
  { transitivity (nth (S i) (map f (seq 0 n)) (f 0%nat)).
    - rewrite Hsplit.
      replace (l1 ++ c :: c' :: l2)%list with ((l1 ++ [c]) ++ c' :: l2)%list
        by (rewrite <- app_assoc; reflexivity).
      replace (S i) with (List.length (l1 ++ [c])%list)
        by (rewrite length_app; simpl; unfold i; lia).
      rewrite nth_middle. reflexivity.
    - rewrite map_nth, seq_nth by lia. reflexivity. }
  assert (Hn : (900 * (n - 1) < List.length text)%nat).
  { destruct Hn0 as [Hn0|Hn0]; [lia|exact Hn0]. }
  assert (Hn2 : l2 <> [] -> (900 * (i + 2) < List.length text)%nat).
  { intros Hne. destruct l2 as [|x l2]; [congruence|]. simpl in Hlen. lia. }
  subst c c'. unfold f. rewrite slice_length, skipn_slice.
  split; [lia|]. split.
  - unfold Rag.slice.
    replace (900 * S i + 1000 - 900 * S i)%nat with 1000%nat by lia.
    rewrite firstn_firstn.
    replace (900 * i + 900)%nat with (900 * S i)%nat by lia.
    destruct (Nat.le_ge_cases 1000 (List.length text - 900 * i)) as [Hle|Hge].
    + rewrite !Nat.min_l by lia. reflexivity.
    + rewrite (Nat.min_r 1000) by lia.
      rewrite (Nat.min_l (List.length text - 900 * i - 900)) by lia.
      rewrite (firstn_all2 (n := 100)) by (rewrite length_skipn; lia).
      rewrite firstn_all2 by (rewrite length_skipn; lia). reflexivity.
  - intros Hne. specialize (Hn2 Hne). lia.
Qed.

End ChunkProperties.

Lemma neighbouring_chunks_overlap_witness :
  (900 < List.length (repeat "a"%char 950) <= 1000)%nat
  /\ skipn 900 (repeat "a"%char 950)
     = firstn (List.length (repeat "a"%char 950) - 900) (repeat "a"%char 50).
Proof.
  destruct (neighbouring_chunks_overlap ascii (repeat "a"%char 950)
              [repeat "a"%char 950; repeat "a"%char 50] [] []
              (repeat "a"%char 950) (repeat "a"%char 50))
    as (H1 & H2 & _).
  - vm_compute. reflexivity.
  - reflexivity.
  - split; assumption.
Defined.

(** ** What [chat] sends back *)

Lemma filter_frontend (room : nat) (ms : list message) :
  filter assistant_entry (frontend_messages room ms)
  = map (frontend_message room)
        (filter (fun m => String.eqb (message_type m) "ai") ms).
Proof.
  unfold frontend_messages. induction ms as [|m ms IH]; [reflexivity|].
  destruct m; simpl; rewrite IH; reflexivity.
Qed.

Lemma last_default {X : Type} (l : list X) (d d' : X) :
  l <> [] -> List.last l d = List.last l d'.
Proof.
  induction l as [|a l IH]; [congruence|]. intros _.
  destruct l as [|b l]; [reflexivity|].
  change (List.last (b :: l) d = List.last (b :: l) d'). apply IH. discriminate.
Qed.

Lemma last_of_map {X Y : Type} (f : X -> Y) (l : list X) (d : X) :
  List.last (map f l) (f d) = f (List.last l d).
Proof.
  induction l as [|a l IH]; [reflexivity|].
  destruct l as [|b l]; [reflexivity|].
  change (List.last (map f (b :: l)) (f d) = f (List.last (b :: l) d)).
  exact IH.
Qed.

Lemma last_cons {X : Type} (l : list X) (a : X) :
  List.last (a :: l) a = List.last l a.
Proof. destruct l; reflexivity. Qed.

(** X17.  The reply of the response is what the last assistant entry of the
    message list shows. *)
Theorem reply_is_the_last_assistant_entry (room : nat) (new_state : AgentState) :
  chat_reply room new_state
  = List.last
      (map entry_content
           (filter assistant_entry
                   (frontend_messages room (messages new_state))))
      (VStr "I'm sorry, I couldn't generate a response.").
Proof.
  unfold chat_reply. rewrite filter_frontend.
  set (ais := filter (fun m => String.eqb (message_type m) "ai")
                     (messages new_state)).
  assert (Hai : Forall (fun m => String.eqb (message_type m) "ai" = true) ais).
  { apply Forall_forall. intros m Hm. apply filter_In in Hm. apply Hm. }
  destruct ais as [|m rest]; [reflexivity|].
  rewrite map_map.
  assert (Hmap : map (fun m => entry_content (frontend_message room m))
                     (m :: rest)
                 = map (fun m => get_clean_content room
                                   (VStr (message_content m)))
                       (m :: rest)).
  { apply map_ext_in. intros a Ha.
    rewrite Forall_forall in Hai. specialize (Hai a Ha).
    unfold frontend_message. rewrite Hai. reflexivity. }
  rewrite Hmap.
  rewrite (last_default _ _
             (get_clean_content room (VStr (message_content m))))
    by discriminate.
  rewrite (last_of_map
             (fun m => get_clean_content room (VStr (message_content m)))).
  rewrite last_cons. reflexivity.
Qed.

Lemma chat_reply_last (room : nat) (st : AgentState) (ms : list message)
    (text : string) :
  messages st = (ms ++ [AIMessage text])%list ->
  chat_reply room st = get_clean_content room (VStr text).
Proof.
  intros H. unfold chat_reply. rewrite H, filter_app.
  change (filter (fun m => String.eqb (message_type m) "ai") [AIMessage text])
    with [AIMessage text].
  destruct (filter _ ms) as [|m rest]; [reflexivity|].
  cbn [app]. rewrite last_last. reflexivity.
Qed.

Section ChatProperties.

Variable new_section : string -> value -> option PlanSection.
Variable SYSTEM_PROMPT : string.
Variable context_json : AgentState -> result string.
Variable room : nat.
Variable conversation_llm : list (list message) -> list message -> completion.

Local Abbreviation agent :=
  (conversation_agent new_section SYSTEM_PROMPT context_json room
     conversation_llm).

(** X18.  The reply that [chat] returns after a turn is the reply that the
    agent resolved, when the model answered with an object that has one;
    [room'] is the room of the decoder where [chat] cleans the message,
    which is not less than the room that the agent's parser had. *)
Theorem chat_returns_the_resolved_reply
    (st st' : AgentState) (log reqs : list (list message)) (d : directive) :
  agent st log = Finished st' d reqs ->
  exists text,
    messages st' = (messages st ++ [AIMessage text])%list
    /\ forall room' dd r,
         (room <= room')%nat ->
         parse_json_output room text = Ok (VDict dd) ->
         Dict.get "reply" dd = Some r ->
         chat_reply room' st' = r /\ reply_text d = r.
Proof.
  intros H. apply agent_finished in H.
  destruct H as (text & parsed & _ & _ & _ & _ & H & Hparsed).
  apply finish_turn_finished in H. destruct H as (_ & Hres & Hm & _).
  exists text. split; [exact Hm|]. intros room' dd r Hle Hp Hr.
  destruct (clean_content_resolved room room' text dd r Hle Hp Hr) as (Hc & Hd).
  split.
  - rewrite (chat_reply_last _ _ _ _ Hm). exact Hc.
  - apply Hd. destruct Hparsed as [Hp'|((e & Hp') & _)];
      rewrite Hp' in Hp; [|discriminate].
    injection Hp as <-. exact Hres.
Qed.

End ChatProperties.

Lemma chat_returns_the_resolved_reply_witness :
  exists st' d reqs,
    conversation_agent accept_section "protocol" sample_context sample_room curious_llm
      sample_state [] = Finished st' d reqs
    /\ chat_reply sample_room st' = VStr "Let me look that up."
    /\ reply_text d = VStr "Let me look that up.".
Proof.
  destruct (conversation_agent accept_section "protocol" sample_context sample_room
              curious_llm sample_state []) as [st' d reqs| |] eqn:E;
    try (vm_compute in E; discriminate E).
  destruct (chat_returns_the_resolved_reply accept_section "protocol"
              sample_context sample_room curious_llm sample_state st' [] reqs d E)
    as (text & Hm & H).
  exists st', d, reqs. split; [reflexivity|].
  assert (Ht : text = Json.text "{'reply': 'Let me look that up.', 'control': {'action': 'CALL_RESEARCH', 'research_query': 'Nike revenue'}}").
  { pose proof E as E'. vm_compute in E'. injection E' as Hst _ _.
    rewrite <- Hst in Hm. simpl in Hm. injection Hm as Hm. symmetry.
    rewrite <- Hm. vm_compute. reflexivity. }
  apply (H sample_room
           [("reply", VStr "Let me look that up.");
            ("control", VDict [("action", VStr "CALL_RESEARCH");
                               ("research_query", VStr "Nike revenue")])]).
  - apply Nat.le_refl.
  - rewrite Ht. vm_compute. reflexivity.
  - reflexivity.
Defined.

Lemma turn_requests_research_exactly_when_witness :
  exists st' d reqs,
    conversation_agent accept_section "protocol" sample_context sample_room curious_llm
      sample_state [] = Finished st' d reqs
    /\ research_needed st' = Some true.
Proof.
  destruct (conversation_agent accept_section "protocol" sample_context sample_room
              curious_llm sample_state []) as [st' d reqs| |] eqn:E;
    try (vm_compute in E; discriminate E).
  destruct (turn_requests_research_exactly_when accept_section "protocol"
              sample_context sample_room curious_llm sample_state st' [] reqs d E)
    as (Hn & _).
  exists st', d, reqs. split; [reflexivity|].
  rewrite Hn. pose proof E as E'. vm_compute in E'. injection E' as _ Hd _.
  rewrite <- Hd. reflexivity.
Defined.

Lemma equivalent_paths_same_effect_witness :
  apply_update_item accept_section sample_plan false
    (command "financials.REVENUE" (VStr "2 bn") "replace")
  = apply_update_item accept_section sample_plan false
      (command " Financials . revenue" (VStr "2 bn") "replace").
Proof.
  apply (equivalent_paths_same_effect accept_section sample_plan false
           _ _ "financials.REVENUE" " Financials . revenue");
    try reflexivity; try discriminate.
  repeat constructor.
Defined.

(** ** A write stays in its section *)

Lemma replace_nth_other {A : Type} (x : A) (l : list A) : forall i j,
  i <> j -> nth_error (PyList.replace i x l) j = nth_error l j.
Proof.
  induction l as [|y l IH]; intros i j Hij; destruct i as [|i], j as [|j];
    simpl; try reflexivity; try congruence.
  apply IH. congruence.
Qed.

Lemma nth_error_app_some {A : Type} (l r : list A) (j : nat) (s : A) :
  nth_error l j = Some s -> nth_error (l ++ r)%list j = Some s.
Proof.
  intros H. rewrite nth_error_app1; [exact H|].
  apply nth_error_Some. congruence.
Qed.

Section LocalityProperties.

Variable new_section : string -> value -> option PlanSection.

(** X19.  A command that is neither a move nor a delete leaves every section
    that it does not address where it is and as it is, also when the
    command raises. *)
Theorem other_sections_are_untouched
    (plan : AccountPlan) (ch : bool) (item : dict) (path : string)
    (j : nat) (s : PlanSection) :
  Dict.get "section" item = Some (VStr path) ->
  eq_str (get_or "mode" (VStr "replace") item) "move" = false ->
  eq_str (get_or "mode" (VStr "replace") item) "delete" = false ->
  nth_error (sections plan) j = Some s ->
  find_section (sections plan) path <> Some j ->
  nth_error
    (sections (step_plan (apply_update_item new_section plan ch (VDict item)))) j
  = Some s.
Proof.
  intros Hsec Hmove Hdel Hj Hother.
  assert (Hg : get_or "section" VNone item = VStr path)
    by (unfold get_or; rewrite Hsec; reflexivity).
  unfold apply_update_item. rewrite Hg.
  destruct (negb (truthy (VStr path))); [exact Hj|].
  destruct (find_section (sections plan) path) as [idx|].
  - assert (Hne : idx <> j) by congruence.
    destruct (nth_error (sections plan) idx) as [existing|]; [|exact Hj].
    unfold update_found. rewrite Hdel, Hmove.
    destruct (match path_target_key (PyStr.split "." path) with
              | Some k =>
                  match content existing with
                  | VDict d => Some (resolve_key k d)
                  | _ => path_target_key (PyStr.split "." path)
                  end
              | None => path_target_key (PyStr.split "." path)
              end) as [k|].
    + unfold write_key.
      repeat (break_match; simpl); rewrite replace_nth_other; assumption.
    + simpl. rewrite replace_nth_other; assumption.
  - unfold update_missing. rewrite Hdel.
    destruct (new_section _ _); simpl; [|exact Hj].
    apply nth_error_app_some. exact Hj.
Qed.

End LocalityProperties.

Lemma other_sections_are_untouched_witness :
  nth_error
    (sections
       (step_plan
          (apply_update_item accept_section sample_plan false
             (command "competitors" (VStr "Acme, Globex") "replace"))))
    0
  = Some (mkSection "Financials" (VDict [("Revenue", VStr "1 bn")])).
Proof.
  apply (other_sections_are_untouched accept_section sample_plan false
           [("section", VStr "competitors");
            ("content", VStr "Acme, Globex");
            ("mode", VStr "replace")]
           "competitors" 0
           (mkSection "Financials" (VDict [("Revenue", VStr "1 bn")])));
    try reflexivity.
  vm_compute. discriminate.
Defined.
